(** * Discovery crawler and download orchestrator: a shallow embedding

    The scripts under [scripts/] crawl justice.gov pages for PDF links
    ([spider_agent.py], [discovery_agent.py]) and download the links they
    found ([download_orchestrator.py], [download_all_epstein.py],
    [download_pdfs_with_verification.py], [download_all.py]).

    The embedding keeps the control flow of each function.  What the
    scripts obtain from the outside world (curl, htmlq, the headless
    browser, the regular-expression engine, [urljoin]) enters as an
    argument; the file system is a finite map from paths to contents. *)

From Stdlib Require Import ZArith Ascii String List Lia Permutation Strings.Byte.
From stdpp Require Import base gmap strings list pretty.

Open Scope string_scope.

(** ** Python strings *)

Module Py.

Fixpoint startswith (p s : string) : bool :=
  match p, s with
  | EmptyString, _ => true
  | String _ _, EmptyString => false
  | String a p', String b s' => if Ascii.eqb a b then startswith p' s' else false
  end.

Definition endswith (suffix s : string) : bool :=
  startswith (String.rev suffix) (String.rev s).

(** [sub in s] *)
Fixpoint contains (sub s : string) : bool :=
  startswith sub s ||
  match s with
  | EmptyString => false
  | String _ s' => contains sub s'
  end.

Definition lower_char (c : ascii) : ascii :=
  let n := nat_of_ascii c in
  if (65 <=? n)%nat && (n <=? 90)%nat then ascii_of_nat (n + 32) else c.

(** [s.lower()] on the ASCII letters. *)
Fixpoint lower (s : string) : string :=
  match s with
  | EmptyString => EmptyString
  | String c s' => String (lower_char c) (lower s')
  end.

(** [str.isspace] for one character of the Latin-1 range. *)
Definition isspace (c : ascii) : bool :=
  let n := nat_of_ascii c in
  ((9 <=? n)%nat && (n <=? 13)%nat) || ((28 <=? n)%nat && (n <=? 32)%nat)
  || (n =? 133)%nat || (n =? 160)%nat.

Fixpoint lstrip (s : string) : string :=
  match s with
  | EmptyString => EmptyString
  | String c s' => if isspace c then lstrip s' else s
  end.

Definition rstrip (s : string) : string := String.rev (lstrip (String.rev s)).

Definition strip (s : string) : string := rstrip (lstrip s).

(** [s.split(sep)] for a one-character separator: never the empty list. *)
Fixpoint split (sep : ascii) (s : string) : list string :=
  match s with
  | EmptyString => [EmptyString]
  | String c s' =>
      if Ascii.eqb c sep then EmptyString :: split sep s'
      else match split sep s' with
           | [] => [String c EmptyString]
           | w :: ws => String c w :: ws
           end
  end.

(** [s[:n]] *)
Definition take (n : nat) (s : string) : string := substring 0 n s.

(** [s.replace(old, new)] for a non-empty [old]; [skip] counts the
    characters of a matched [old] still to be dropped. *)
Fixpoint replace_from (old new : string) (skip : nat) (s : string) : string :=
  match s with
  | EmptyString => EmptyString
  | String c s' =>
      match skip with
      | S k => replace_from old new k s'
      | O => if startswith old s
             then new ++ replace_from old new (String.length old - 1) s'
             else String c (replace_from old new 0 s')
      end
  end.

Definition replace (old new s : string) : string := replace_from old new 0 s.

(** The text before the first [c] and the text after it. *)
Fixpoint partition (c : ascii) (s : string) : option (string * string) :=
  match s with
  | EmptyString => None
  | String a s' =>
      if Ascii.eqb a c then Some (EmptyString, s')
      else match partition c s' with
           | Some (l, r) => Some (String a l, r)
           | None => None
           end
  end.

(** The longest prefix whose characters all satisfy [p], and the rest. *)
Fixpoint span (p : ascii -> bool) (s : string) : string * string :=
  match s with
  | EmptyString => (EmptyString, EmptyString)
  | String a s' =>
      if p a then let '(l, r) := span p s' in (String a l, r)
      else (EmptyString, s)
  end.

(** [str(n)] for a natural number. *)
Definition str (n : nat) : string := pretty n.

End Py.

(** ** [urllib.parse.urlparse] and [os.path]

    A model of the standard library's parser: scheme, authority, path,
    parameters, query, fragment.  The parser raises [ValueError] on an
    authority whose square brackets do not hold an address; [rejects]
    tells when it does, and [urlparse] is its result when it returns.
    Characters are code points below 256, for which the normalisation
    test of the authority never fails. *)

Module Url.

Record ParseResult := {
  scheme : string;
  netloc : string;
  path : string;
  params : string;
  query : string;
  fragment : string
}.

Definition isalpha (c : ascii) : bool :=
  let n := nat_of_ascii c in
  ((65 <=? n)%nat && (n <=? 90)%nat) || ((97 <=? n)%nat && (n <=? 122)%nat).

Definition isdigit (c : ascii) : bool :=
  let n := nat_of_ascii c in (48 <=? n)%nat && (n <=? 57)%nat.

Definition scheme_char (c : ascii) : bool :=
  isalpha c || isdigit c || Ascii.eqb c "+" || Ascii.eqb c "-" || Ascii.eqb c ".".

Fixpoint all_chars (p : ascii -> bool) (s : string) : bool :=
  match s with
  | EmptyString => true
  | String c s' => p c && all_chars p s'
  end.

(** The scheme and the rest, when the text before the first colon is a
    scheme; otherwise the empty scheme and the whole URL. *)
Definition split_scheme (url : string) : string * string :=
  match Py.partition ":" url with
  | Some (String c0 pre, rest) =>
      if isalpha c0 && all_chars scheme_char pre
      then (Py.lower (String c0 pre), rest)
      else (EmptyString, url)
  | _ => (EmptyString, url)
  end.

Definition netloc_delim (c : ascii) : bool :=
  Ascii.eqb c "/" || Ascii.eqb c "?" || Ascii.eqb c "#".

(** [_splitnetloc(url, 2)] when [url] starts with two slashes. *)
Definition split_netloc (url : string) : string * string :=
  match url with
  | String "/" (String "/" rest) => Py.span (fun c => negb (netloc_delim c)) rest
  | _ => (EmptyString, url)
  end.

Definition split_once (c : ascii) (s : string) : string * string :=
  match Py.partition c s with
  | Some (l, r) => (l, r)
  | None => (s, EmptyString)
  end.

Definition uses_params : list string :=
  [""; "ftp"; "hdl"; "prospero"; "http"; "imap"; "https"; "shttp"; "rtsp";
   "rtspu"; "sip"; "sips"; "mms"; "sftp"; "tel"].

(** [_splitparams]: the first semicolon of the last path segment. *)
Definition splitparams (url : string) : string * string :=
  let segs := Py.split "/" url in
  let tail := List.last segs EmptyString in
  match Py.partition ";" tail with
  | Some (l, r) =>
      (Py.take (String.length url - String.length tail) url ++ l, r)
  | None => (url, EmptyString)
  end.

(** Leading C0 control characters and spaces are stripped, and tabs,
    carriage returns and newlines are removed wherever they stand. *)
Fixpoint lstrip_c0 (s : string) : string :=
  match s with
  | EmptyString => EmptyString
  | String c s' => if (nat_of_ascii c <=? 32)%nat then lstrip_c0 s' else s
  end.

Fixpoint remove_unsafe (s : string) : string :=
  match s with
  | EmptyString => EmptyString
  | String c s' =>
      let n := nat_of_ascii c in
      if (n =? 9)%nat || (n =? 10)%nat || (n =? 13)%nat then remove_unsafe s'
      else String c (remove_unsafe s')
  end.

Definition urlparse (url : string) : ParseResult :=
  let url := remove_unsafe (lstrip_c0 url) in
  let '(sch, rest) := split_scheme url in
  let '(loc, rest) := split_netloc rest in
  let '(rest, frag) := split_once "#" rest in
  let '(rest, qry) := split_once "?" rest in
  let '(pth, prm) :=
    if bool_decide (sch ∈ uses_params) && Py.contains ";" rest
    then splitparams rest else (rest, EmptyString) in
  {| scheme := sch; netloc := loc; path := pth; params := prm;
     query := qry; fragment := frag |}.

(** When [urlparse] raises.  An authority with one square bracket and
    not the other is rejected, and one with both must hold, between the
    brackets, an IPv6 or IPvFuture address, as [ipaddress] reads it. *)

Definition hex_digit (c : ascii) : bool :=
  let n := nat_of_ascii c in
  isdigit c || ((65 <=? n)%nat && (n <=? 70)%nat) || ((97 <=? n)%nat && (n <=? 102)%nat).

(** [_parse_hextet] returns: hexadecimal digits, at most four, and at
    least one ([int] raises on the empty string). *)
Definition hextet (s : string) : bool :=
  all_chars hex_digit s && (String.length s <=? 4)%nat && negb (String.eqb s "").

Fixpoint decimal (s : string) (acc : N) : N :=
  match s with
  | EmptyString => acc
  | String c s' => decimal s' (10 * acc + (N_of_ascii c - 48))%N
  end.

(** [_parse_octet] returns: ASCII digits, at most three, no leading
    zero, a value of at most 255. *)
Definition octet (s : string) : bool :=
  if String.eqb s "" then false
  else if negb (all_chars isdigit s) then false
  else if (3 <? String.length s)%nat then false
  else if negb (String.eqb s "0") && Py.startswith "0" s then false
  else (decimal s 0 <=? 255)%N.

(** [IPv4Address(s)] returns. *)
Definition ipv4 (s : string) : bool :=
  negb (Py.contains "/" s) && negb (String.eqb s "")
  && match Py.split "." s with
     | [a; b; c; d] => octet a && octet b && octet c && octet d
     | _ => false
     end.

Definition is_empty (s : string) : bool := String.eqb s "".

(** [_ip_int_from_string] of an IPv6 address returns.  An IPv4 suffix is
    replaced by two hextets; at most one inner part is empty (the [::]),
    and an empty first or last part must be next to it. *)
Definition ipv6_parts (ip_str : string) : bool :=
  if String.eqb ip_str "" then false
  else
    let parts := Py.split ":" ip_str in
    if (length parts <? 3)%nat then false
    else
      let tail := List.last parts EmptyString in
      let converted :=
        if Py.contains "." tail
        then if ipv4 tail then Some (removelast parts ++ ["0"; "0"])%list else None
        else Some parts in
      match converted with
      | None => false
      | Some parts =>
          if (9 <? length parts)%nat then false
          else
            let first := hd EmptyString parts in
            let final := List.last parts EmptyString in
            let inner := removelast (tl parts) in
            match filter (fun i => is_empty (nth i inner "x") = true) (seq 0 (length inner)) with
            | [] =>
                (length parts =? 8)%nat && negb (is_empty first) && negb (is_empty final)
                && forallb hextet parts
            | [j] =>
                let skip_index := S j in
                let parts_hi := if is_empty first then skip_index - 1 else skip_index in
                let parts_lo :=
                  if is_empty final then length parts - skip_index - 1 - 1
                  else length parts - skip_index - 1 in
                negb (is_empty first && negb (parts_hi =? 0)%nat)
                && negb (is_empty final && negb (parts_lo =? 0)%nat)
                && (parts_hi + parts_lo <? 8)%nat
                && forallb hextet (firstn parts_hi parts)
                && forallb hextet (skipn (length parts - parts_lo) parts)
            | _ => false
            end
      end.

(** [IPv6Address(s)] returns: no slash, a scope after [%] that is not
    empty and holds no further [%]. *)
Definition ipv6 (s : string) : bool :=
  negb (Py.contains "/" s)
  && match Py.partition "%" s with
     | Some (addr, scope) =>
         negb (String.eqb scope "") && negb (Py.contains "%" scope) && ipv6_parts addr
     | None => ipv6_parts s
     end.

(** [_check_bracketed_host] returns: an IPvFuture address matches
    [v[a-fA-F0-9]+\..+]; any other host must be an IPv6 address. *)
Definition bracketed_host (hostname : string) : bool :=
  match hostname with
  | String "v" rest =>
      let '(digits, rest) := Py.span hex_digit rest in
      negb (String.eqb digits "")
      && match rest with
         | String "." more =>
             negb (String.eqb more "")
             && all_chars (fun c => negb (Ascii.eqb c (ascii_of_nat 10))) more
         | _ => false
         end
  | _ => negb (ipv4 hostname) && ipv6 hostname
  end.

(** [_check_bracketed_netloc] returns. *)
Definition bracketed_netloc (loc : string) : bool :=
  let hostname_and_port := List.last (Py.split "@" loc) EmptyString in
  match Py.partition "[" hostname_and_port with
  | Some (before_bracket, bracketed) =>
      let '(hostname, port) := split_once "]" bracketed in
      String.eqb before_bracket ""
      && (String.eqb port "" || Py.startswith ":" port)
      && bracketed_host hostname
  | None => bracketed_host (fst (split_once ":" hostname_and_port))
  end.

(** [urlparse(url)] raises [ValueError]. *)
Definition rejects (url : string) : bool :=
  let url := remove_unsafe (lstrip_c0 url) in
  let '(_, rest) := split_scheme url in
  if Py.startswith "//" rest then
    let loc := fst (split_netloc rest) in
    let opened := Py.contains "[" loc in
    let closed := Py.contains "]" loc in
    (opened && negb closed) || (closed && negb opened)
    || (opened && closed && negb (bracketed_netloc loc))
  else false.

(** [os.path.basename] *)
Definition basename (p : string) : string := List.last (Py.split "/" p) EmptyString.

(** [os.path.join] of two components. *)
Definition join (a b : string) : string :=
  if Py.startswith "/" b then b
  else if String.eqb a "" || Py.endswith "/" a then a ++ b
  else a ++ "/" ++ b.

End Url.

Example urlparse_report :
  Url.urlparse "https://example.justice.gov/files/report.PDF?x=1#top"
  = {| Url.scheme := "https"; Url.netloc := "example.justice.gov";
       Url.path := "/files/report.PDF"; Url.params := "";
       Url.query := "x=1"; Url.fragment := "top" |}.
Proof. reflexivity. Qed.

Example basename_encoded :
  Url.basename "/epstein/files/DataSet%201/EFTA00000001.pdf" = "EFTA00000001.pdf".
Proof. reflexivity. Qed.

Example replace_encoded : Py.replace "%20" "_" "a%20b%20c" = "a_b_c".
Proof. reflexivity. Qed.

(** ** [base64.b64decode]

    The decoder the scripts call with its default (lenient) mode, after
    [binascii.a2b_base64]: characters outside the alphabet are dropped, a
    padding character ends the input once the current quad holds at least
    two characters, and an unfinished quad is an error.  The result is the
    error text or the decoded bytes. *)

Module Base64.

Definition sextet (c : ascii) : option N :=
  let n := N_of_ascii c in
  if ((65 <=? n) && (n <=? 90))%N then Some (n - 65)%N
  else if ((97 <=? n) && (n <=? 122))%N then Some (n - 71)%N
  else if ((48 <=? n) && (n <=? 57))%N then Some (n + 4)%N
  else if (n =? 43)%N then Some 62%N
  else if (n =? 47)%N then Some 63%N
  else None.

Definition to_byte (n : N) : byte := byte_of_ascii (ascii_of_N n).

Definition emit (b : byte) (r : string + list byte) : string + list byte :=
  match r with
  | inl e => inl e
  | inr bs => inr (b :: bs)
  end.

Definition quad_error (quad_pos written : nat) : string :=
  if (quad_pos =? 1)%nat
  then "Invalid base64-encoded string: number of data characters ("
       ++ Py.str (written / 3 * 4 + 1)
       ++ ") cannot be 1 more than a multiple of 4"
  else "Incorrect padding".

Fixpoint a2b (s : string) (quad_pos : nat) (leftchar : N) (pads written : nat)
  : string + list byte :=
  match s with
  | EmptyString =>
      if (quad_pos =? 0)%nat then inr [] else inl (quad_error quad_pos written)
  | String c s' =>
      if Ascii.eqb c "=" then
        if (2 <=? quad_pos)%nat then
          if (4 <=? quad_pos + S pads)%nat then inr []
          else a2b s' quad_pos leftchar (S pads) written
        else a2b s' quad_pos leftchar pads written
      else
        match sextet c with
        | None => a2b s' quad_pos leftchar pads written
        | Some v =>
            match quad_pos with
            | 0%nat => a2b s' 1 v 0 written
            | 1%nat =>
                emit (to_byte (N.lor (N.shiftl leftchar 2) (N.shiftr v 4)))
                     (a2b s' 2 (N.land v 15) 0 (S written))
            | 2%nat =>
                emit (to_byte (N.lor (N.shiftl leftchar 4) (N.shiftr v 2)))
                     (a2b s' 3 (N.land v 3) 0 (S written))
            | _ =>
                emit (to_byte (N.lor (N.shiftl leftchar 6) v))
                     (a2b s' 0 0 0 (S written))
            end
        end
  end.

Definition isascii (c : ascii) : bool := (N_of_ascii c <? 128)%N.

Definition b64decode (s : string) : string + list byte :=
  if Url.all_chars isascii s then a2b s 0 0 0 0
  else inl "string argument should contain only ASCII characters".

End Base64.

Example b64_pdf : Base64.b64decode "JVBERi0xLjQ=" = inr (list_byte_of_string "%PDF-1.4").
Proof. reflexivity. Qed.

Example b64_html : Base64.b64decode "PGh0bWw+" = inr (list_byte_of_string "<html>").
Proof. reflexivity. Qed.

Example b64_lenient : Base64.b64decode "JVBE Ri0x" = inr (list_byte_of_string "%PDF-1").
Proof. reflexivity. Qed.

Example b64_short : Base64.b64decode "JVBERi0xLjQ" = inl "Incorrect padding".
Proof. reflexivity. Qed.

Example b64_one_extra :
  Base64.b64decode "AAAAA"
  = inl "Invalid base64-encoded string: number of data characters (5) cannot be 1 more than a multiple of 4".
Proof. vm_compute. reflexivity. Qed.

(** ** What the download scripts share *)

(** An entry of the PDF list read from the discovery state. *)
Record pdf_info := {
  info_url : string;
  info_text : string;
  info_source_page : string;
  info_depth : Z
}.

(** [urlparse] returns on the URL of the entry. *)
Definition accepted (pdf : pdf_info) : bool := negb (Url.rejects (info_url pdf)).

(** The entries a loop gets through when it calls [urlparse(url)] outside
    every [try]: those before the first URL the parser rejects. *)
Fixpoint reached (pdf_list : list pdf_info) : list pdf_info :=
  match pdf_list with
  | [] => []
  | pdf :: rest => if accepted pdf then pdf :: reached rest else []
  end.

(** The length of a name in bytes as the file system gets it, in UTF-8:
    two bytes for a character above 127. *)
Fixpoint encoded_length (name : string) : nat :=
  match name with
  | EmptyString => 0
  | String c rest => (if (nat_of_ascii c <? 128)%nat then 1 else 2) + encoded_length rest
  end.

(** A file name that [open] can create in an existing directory: not
    empty and not [.] or [..] (with these the joined path is a
    directory), free of the slash and of the NUL character, and of at
    most 255 bytes. *)
Definition plain_name (name : string) : bool :=
  negb (String.eqb name "") && negb (String.eqb name ".") && negb (String.eqb name "..")
  && negb (Py.contains "/" name)
  && negb (Py.contains (String (ascii_of_nat 0) EmptyString) name)
  && (encoded_length name <=? 255)%nat.

(** The entries of a list all get such a name from [name_of]. *)
Definition plain_names (name_of : string -> string) (pdfs : list pdf_info) : Prop :=
  Forall (λ pdf, plain_name (name_of (info_url pdf)) = true) pdfs.

(** What [page.evaluate] hands back for the in-page [fetch]: the data URL
    read by the [FileReader], the object [{error: message}], [null], or a
    Python exception raised by the call itself. *)
Inductive response :=
  | RString (data_url : string)
  | RError (message : string)
  | RNull
  | RRaised (message : string).

(** One dictionary of the [downloaded] or [failed] list; an absent key is
    [None]. *)
Record entry := {
  r_url : string;
  r_filename : string;
  r_status : option string;
  r_size : option nat;
  r_path : option string;
  r_error : option string
}.

(** The lists a run fills, the files on disk, and the URLs handed to the
    browser so far (oldest first). *)
Record run := {
  downloaded : list entry;
  failed : list entry;
  files : gmap string (list byte);
  requests : list string
}.

Definition fresh (disk : gmap string (list byte)) : run :=
  {| downloaded := []; failed := []; files := disk; requests := [] |}.

(** The URLs of all records of a run, downloaded first. *)
Definition record_urls (st : run) : list string :=
  map r_url (downloaded st ++ failed st)%list.

(** [os.path.exists] and [os.path.getsize] *)
Definition exists_ (disk : gmap string (list byte)) (p : string) : bool :=
  bool_decide (is_Some (disk !! p)).

Definition getsize (disk : gmap string (list byte)) (p : string) : nat :=
  match disk !! p with
  | Some data => length data
  | None => 0
  end.

(** [base64.b64decode(response.split(",")[1])] *)
Definition payload (data_url : string) : string + list byte :=
  Base64.b64decode (nth 1 (Py.split "," data_url) EmptyString).

#[global] Instance byte_eq_decision : EqDecision byte := Byte.byte_eq_dec.

Definition pdf_magic : list byte := list_byte_of_string "%PDF".

(** [binary_data[:4] == b"%PDF"] *)
Definition is_pdf (data : list byte) : bool :=
  bool_decide (firstn 4 data = pdf_magic).

Definition record_failed (url filename message : string) (st : run) : run :=
  {| downloaded := downloaded st;
     failed := failed st ++
       [{| r_url := url; r_filename := filename; r_status := None;
           r_size := None; r_path := None; r_error := Some message |}];
     files := files st;
     requests := requests st |}.

Definition requested (url : string) (st : run) : run :=
  {| downloaded := downloaded st; failed := failed st; files := files st;
     requests := requests st ++ [url] |}.

(** ** [download_orchestrator.py]: [DownloadOrchestrator.download_pdfs] *)

Module DownloadOrchestrator.

Section Orchestrator.

(** [self.output_dir], and the browser page (the one passed in, or the
    one launched before the loop): what [page.evaluate] returns for a URL
    at iteration [i] of the loop. *)
Variable output_dir : string.
Variable page : nat -> string -> response.

Definition derive_filename (i : nat) (url : string) : string :=
  let filename := Url.basename (Url.path (Url.urlparse url)) in
  if String.eqb filename "" || negb (Py.endswith ".pdf" filename)
  then "epstein_doc_" ++ Py.str i ++ ".pdf"
  else filename.

(** The body of the inner [try]: the bytes to save, or the text of the
    exception that reaches [except Exception as e]. *)
Definition fetch (r : response) : string + list byte :=
  match r with
  | RRaised message => inl message
  | RError message => inl message
  | RNull => inl "Invalid response format"
  | RString data_url =>
      if negb (String.eqb data_url "") && Py.contains "," data_url
      then payload data_url
      else inl "Invalid response format"
  end.

(** One iteration of [for i, pdf_info in enumerate(pdf_list, 1)], for a
    URL that [urlparse] accepts. *)
Definition download_one (i : nat) (pdf : pdf_info) (st : run) : run :=
  let url := info_url pdf in
  let filename := derive_filename i url in
  let output_path := Url.join output_dir filename in
  if exists_ (files st) output_path then
    {| downloaded := downloaded st ++
         [{| r_url := url; r_filename := filename;
             r_status := Some "already_exists"; r_size := None;
             r_path := Some output_path; r_error := None |}];
       failed := failed st; files := files st; requests := requests st |}
  else
    let st := requested url st in
    match fetch (page i url) with
    | inl message => record_failed url filename message st
    | inr binary_data =>
        {| downloaded := downloaded st ++
             [{| r_url := url; r_filename := filename;
                 r_status := Some "downloaded";
                 r_size := Some (length binary_data);
                 r_path := Some output_path; r_error := None |}];
           failed := failed st;
           files := <[output_path := binary_data]> (files st);
           requests := requests st |}
    end.

Fixpoint download_from (i : nat) (pdf_list : list pdf_info) (st : run) : run :=
  match pdf_list with
  | [] => st
  | pdf :: rest => download_from (S i) rest (download_one i pdf st)
  end.

(** The loop of [download_pdfs] over a list whose URLs [urlparse]
    accepts. *)
Definition download_pdfs (pdf_list : list pdf_info) (st : run) : run :=
  download_from 1 pdf_list st.

(** The loop on any list.  [urlparse(url)] (line 47) stands outside the
    inner [try]: the first URL it rejects ends the loop, and the call,
    with a [ValueError].  The result is the state left on the object and
    the exception, if any. *)
Fixpoint download_until (i : nat) (pdf_list : list pdf_info) (st : run)
  : run * option string :=
  match pdf_list with
  | [] => (st, None)
  | pdf :: rest =>
      if Url.rejects (info_url pdf) then (st, Some "ValueError")
      else download_until (S i) rest (download_one i pdf st)
  end.

(** A call of [download_pdfs] on any list. *)
Definition download_pdfs_call (pdf_list : list pdf_info) (st : run) : run * option string :=
  download_until 1 pdf_list st.

(** [save_manifest]: the two lists and the two counts. *)
Record manifest := {
  m_downloaded : list entry;
  m_failed : list entry;
  total_count : nat;
  success_count : nat
}.

Definition save_manifest (st : run) : manifest :=
  {| m_downloaded := downloaded st; m_failed := failed st;
     total_count := length (downloaded st) + length (failed st);
     success_count := length (downloaded st) |}.

End Orchestrator.

End DownloadOrchestrator.

(** ** [download_all_epstein.py]: [download_all_pdfs] *)

Module DownloadAllEpstein.

Definition epstein_dir : string := Url.join "reference" "epstein_files".

Definition mentions (d : nat) (url : string) : bool :=
  Py.contains ("DataSet%20" ++ Py.str d) url || Py.contains ("DataSet " ++ Py.str d) url.

(** The dataset prefix of the organized file name. *)
Definition dataset (url : string) : string :=
  if Py.contains "DataSet%20" url || Py.contains "DataSet " url then
    match List.find (fun d => mentions d url) (seq 1 9) with
    | Some d => "dataset_" ++ Py.str d
    | None => "unknown"
    end
  else "unknown".

Definition output_filename (url : string) : string :=
  dataset url ++ "_" ++ Url.basename (Url.path (Url.urlparse url)).

Definition output_path (url : string) : string :=
  Url.join epstein_dir (output_filename url).

Definition fetch (r : response) : string + list byte :=
  match r with
  | RRaised message => inl message
  | RError message => inl message
  | RNull => inl "Invalid response format"
  | RString data_url =>
      if negb (String.eqb data_url "") && Py.contains "," data_url then
        match payload data_url with
        | inl message => inl message
        | inr binary_data =>
            if is_pdf binary_data then inr binary_data
            else inl "Not a valid PDF file"
        end
      else inl "Invalid response format"
  end.

Section Loop.

Variable page : nat -> string -> response.

(** One iteration of the loop, for a URL that [urlparse] accepts. *)
Definition download_one (i : nat) (pdf : pdf_info) (st : run) : run :=
  let url := info_url pdf in
  if exists_ (files st) (output_path url)
     && (1000 <? getsize (files st) (output_path url))%nat then
    {| downloaded := downloaded st ++
         [{| r_url := url; r_filename := output_filename url;
             r_status := Some "already_exists"; r_size := None;
             r_path := Some (output_path url); r_error := None |}];
       failed := failed st; files := files st; requests := requests st |}
  else
    let st := requested url st in
    match fetch (page i url) with
    | inl message => record_failed url (output_filename url) message st
    | inr binary_data =>
        {| downloaded := downloaded st ++
             [{| r_url := url; r_filename := output_filename url;
                 r_status := Some "downloaded";
                 r_size := Some (length binary_data);
                 r_path := Some (output_path url); r_error := None |}];
           failed := failed st;
           files := <[output_path url := binary_data]> (files st);
           requests := requests st |}
    end.

Fixpoint download_from (i : nat) (pdf_list : list pdf_info) (st : run) : run :=
  match pdf_list with
  | [] => st
  | pdf :: rest => download_from (S i) rest (download_one i pdf st)
  end.

(** The loop of [download_all_pdfs], from empty lists, once the first
    navigation to the disclosures page has returned, over a list whose
    URLs [urlparse] accepts. *)
Definition download_all_pdfs (pdf_list : list pdf_info)
    (disk : gmap string (list byte)) : run :=
  download_from 1 pdf_list (fresh disk).

(** The loop on any list.  [urlparse(url)] (line 89) stands outside the
    [try]: the first URL it rejects ends the loop, and the function,
    with a [ValueError]. *)
Fixpoint download_until (i : nat) (pdf_list : list pdf_info) (st : run)
  : run * option string :=
  match pdf_list with
  | [] => (st, None)
  | pdf :: rest =>
      if Url.rejects (info_url pdf) then (st, Some "ValueError")
      else download_until (S i) rest (download_one i pdf st)
  end.

End Loop.

End DownloadAllEpstein.

(** ** [download_pdfs_with_verification.py] and [download_all.py]

    Both open a fresh browser context per file: they visit the disclosures
    page, then the PDF URL, dismiss the age check, and only then run the
    in-page fetch. *)

(** One such visit: the exception text of each navigation that raised,
    and the result of [page.evaluate]. *)
Record visit := {
  goto_home : option string;
  goto_pdf : option string;
  evaluated : response
}.

(** [url.split("/")[-1].replace("%20", "_")] *)
Definition flat_filename (url : string) : string :=
  Py.replace "%20" "_" (List.last (Py.split "/" url) EmptyString).

Definition flat_path (url : string) : string :=
  Url.join "reference/epstein_files" (flat_filename url).

Module DownloadWithVerification.

Definition evaluate (r : response) : string + list byte :=
  match r with
  | RRaised message => inl message
  | RError message => inl message
  | RNull => inl "Invalid response"
  | RString data_url =>
      if negb (String.eqb data_url "") && Py.contains "," data_url then
        match payload data_url with
        | inl message => inl message
        | inr binary_data =>
            if is_pdf binary_data then inr binary_data
            else inl "Not a valid PDF"
        end
      else inl "Invalid response"
  end.

(** Steps 1 to 4 of the [try] block; the age check of step 3 swallows its
    own exceptions. *)
Definition fetch (v : visit) : string + list byte :=
  match goto_home v with
  | Some message => inl message
  | None =>
      match goto_pdf v with
      | Some message =>
          if Py.contains "Download is starting" message
          then evaluate (evaluated v)
          else inl message
      | None => evaluate (evaluated v)
      end
  end.

Section Loop.

Variable browser : nat -> string -> visit.

(** One iteration of the loop, for a URL whose file name [open] can
    create ([plain_name]). *)
Definition download_one (i : nat) (pdf : pdf_info) (st : run) : run :=
  let url := info_url pdf in
  if exists_ (files st) (flat_path url)
     && (1000 <? getsize (files st) (flat_path url))%nat then
    {| downloaded := downloaded st ++
         [{| r_url := url; r_filename := flat_filename url;
             r_status := Some "exists"; r_size := None;
             r_path := None; r_error := None |}];
       failed := failed st; files := files st; requests := requests st |}
  else
    let st := requested url st in
    match fetch (browser i url) with
    | inl message => record_failed url (flat_filename url) message st
    | inr binary_data =>
        {| downloaded := downloaded st ++
             [{| r_url := url; r_filename := flat_filename url;
                 r_status := None;
                 r_size := Some (length binary_data);
                 r_path := None; r_error := None |}];
           failed := failed st;
           files := <[flat_path url := binary_data]> (files st);
           requests := requests st |}
    end.

Fixpoint download_from (i : nat) (pdf_list : list pdf_info) (st : run) : run :=
  match pdf_list with
  | [] => st
  | pdf :: rest => download_from (S i) rest (download_one i pdf st)
  end.

(** The loop of [download_with_age_verification] over the manifest's PDFs. *)
Definition download_with_age_verification (pdfs : list pdf_info)
    (disk : gmap string (list byte)) : run :=
  download_from 1 pdfs (fresh disk).

End Loop.

End DownloadWithVerification.

Module DownloadAll.

(** [download_all.py] keeps counters instead of lists. *)
Record tally := {
  downloaded : nat;
  failed : nat;
  total_size : nat;
  files : gmap string (list byte);
  requests : list string
}.

Definition start (disk : gmap string (list byte)) : tally :=
  {| downloaded := 0; failed := 0; total_size := 0; files := disk; requests := [] |}.

(** The [try] block: the bytes written, or nothing when the file counts
    as failed (a navigation to the disclosures page that raised, a
    response that is no data URL, base64 that does not decode, bytes that
    are no PDF).  An exception of the navigation to the PDF is swallowed. *)
Definition fetch (v : visit) : option (list byte) :=
  match goto_home v with
  | Some _ => None
  | None =>
      match evaluated v with
      | RString data_url =>
          if Py.contains "," data_url then
            match payload data_url with
            | inr data => if is_pdf data then Some data else None
            | inl _ => None
            end
          else None
      | _ => None
      end
  end.

Section Loop.

Variable browser : nat -> string -> visit.

(** One iteration of the loop, for a URL whose file name [open] can
    create ([plain_name]). *)
Definition download_one (i : nat) (pdf : pdf_info) (st : tally) : tally :=
  let url := info_url pdf in
  if exists_ (files st) (flat_path url)
     && (1000 <? getsize (files st) (flat_path url))%nat then
    {| downloaded := downloaded st + 1; failed := failed st;
       total_size := total_size st + getsize (files st) (flat_path url);
       files := files st; requests := requests st |}
  else
    match fetch (browser i url) with
    | Some data =>
        {| downloaded := downloaded st + 1; failed := failed st;
           total_size := total_size st + length data;
           files := <[flat_path url := data]> (files st);
           requests := requests st ++ [url] |}
    | None =>
        {| downloaded := downloaded st; failed := failed st + 1;
           total_size := total_size st;
           files := files st;
           requests := requests st ++ [url] |}
    end.

Fixpoint download_from (i : nat) (pdfs : list pdf_info) (st : tally) : tally :=
  match pdfs with
  | [] => st
  | pdf :: rest => download_from (S i) rest (download_one i pdf st)
  end.

Definition download_all (pdfs : list pdf_info) (disk : gmap string (list byte)) : tally :=
  download_from 1 pdfs (start disk).

End Loop.

End DownloadAll.

(** ** The crawlers' outside world *)

(** A finished [subprocess.run]: its return code and standard output, or
    the exception it raised (the program is not installed). *)
Inductive process :=
  | Exit (returncode : Z) (stdout : string)
  | Broken.

(** The command-line tools and library calls of the crawlers.
    - [curl url]: the page fetch;
    - [htmlq_hrefs html]: [htmlq -a href a] on the page;
    - [htmlq_text html selector]: [htmlq -t selector] on the page;
    - [set_order l]: the order in which [list(set(l))] lists its elements;
    - [urljoin base url]: [urllib.parse.urljoin];
    - [findall_href html]: [re.findall] with the [href] pattern;
    - [title_search html]: group 1 of the [<title>] pattern, if it matches;
    - [readable html]: the page text left by the tag-stripping pipeline;
    - [context_match html url]: the cleaned text around the anchor of
      [url], empty if there is none. *)
Record tools := {
  curl : string -> process;
  htmlq_hrefs : string -> process;
  htmlq_text : string -> string -> process;
  set_order : list string -> list string;
  urljoin : string -> string -> string;
  findall_href : string -> list string;
  title_search : string -> option string;
  readable : string -> string;
  context_match : string -> string -> string
}.

Definition newline : ascii := ascii_of_nat 10.
Definition dquote : string := String (ascii_of_nat 34) EmptyString.
Definition backslash : string := String (ascii_of_nat 92) EmptyString.

(** Both crawlers' [fetch_page]: the page, or [None] when curl fails. *)
Definition fetch_page (E : tools) (url : string) : option string :=
  match curl E url with
  | Exit rc out => if (rc =? 0)%Z then Some out else None
  | Broken => None
  end.

(** An href made absolute, as every extraction loop does it.  The
    crawlers are modelled on pages whose references [urlparse] and
    [urljoin] accept: the [ValueError] either raises on a malformed
    reference is not followed through the extraction loops. *)
Definition absolute (E : tools) (base_url url : string) : string :=
  if Py.startswith "/" url then
    let parsed_base := Url.urlparse base_url in
    Url.scheme parsed_base ++ "://" ++ Url.netloc parsed_base ++ url
  else if negb (Py.startswith "http" url) then urljoin E base_url url
  else url.

(** The Akamai test of both crawlers. *)
Definition challenge (html : string) : bool :=
  Py.contains "bm-verify" html || Py.contains "akamai" (Py.lower html).

(** ** [spider_agent.py]: [SpiderTool] *)

Module SpiderTool.

Record link_data := {
  l_url : string;
  l_text : string;
  l_domain : string
}.

(** An element of [discovered_pdfs]: the link with its provenance. *)
Record pdf_entry := {
  p_url : string;
  p_text : string;
  p_domain : string;
  p_source_page : string;
  p_depth : Z
}.

Record PageData := {
  pd_url : string;
  title : string;
  html_size : nat;
  pdf_links : list link_data;
  nav_links : list link_data;
  text_content : string;
  pd_depth : Z
}.

(** The object's attributes, and the calls of [fetch_page] made so far
    with the depth of the crawl step that made them (oldest first). *)
Record spider := {
  start_url : string;
  max_depth : Z;
  visited : gset string;
  discovered_pdfs : list pdf_entry;
  crawl_log : list PageData;
  fetched : list (string * Z)
}.

Definition init (start : string) (depth_limit : Z) : spider :=
  {| start_url := start; max_depth := depth_limit; visited := ∅;
     discovered_pdfs := []; crawl_log := []; fetched := [] |}.

(** What one pass of an extraction loop does with an href. *)
Inductive verdict :=
  | Dropped
  | Pdf (link : link_data)
  | Nav (link : link_data).

Section Spider.

Variable E : tools.

Definition selector (url : string) : string :=
  "a[href=" ++ dquote ++ Py.replace dquote (backslash ++ dquote) url ++ dquote ++ "]".

(** The body of the loop of [extract_links_htmlq] (lines 161-194), for a
    reference that [urlparse] and [urljoin] accept; [None] when the call
    for the link text raises. *)
Definition classify (html base_url href : string) : option verdict :=
  let url := Py.strip href in
  if String.eqb url "" || Py.startswith "#" url || Py.startswith "javascript:" url
  then Some Dropped
  else
    let url := absolute E base_url url in
    let parsed := Url.urlparse url in
    if negb (Py.endswith "justice.gov" (Url.netloc parsed)) then Some Dropped
    else
      match htmlq_text E html (selector url) with
      | Broken => None
      | Exit rc out =>
          let text := if (rc =? 0)%Z then Py.take 100 (Py.strip out) else "" in
          let link := {| l_url := url; l_text := text; l_domain := Url.netloc parsed |} in
          Some (if Py.endswith ".pdf" (Py.lower url) then Pdf link else Nav link)
      end.

(** The same body in [extract_links_regex], for a reference that
    [urlparse] and [urljoin] accept: no link text. *)
Definition classify_regex (base_url url : string) : verdict :=
  if Py.startswith "#" url || Py.startswith "javascript:" url then Dropped
  else
    let url := absolute E base_url url in
    let parsed := Url.urlparse url in
    if negb (Py.endswith "justice.gov" (Url.netloc parsed)) then Dropped
    else
      let link := {| l_url := url; l_text := ""; l_domain := Url.netloc parsed |} in
      if Py.endswith ".pdf" (Py.lower url) then Pdf link else Nav link.

Definition keep (v : verdict) (acc : list link_data * list link_data)
  : list link_data * list link_data :=
  match v with
  | Dropped => acc
  | Pdf link => ((fst acc ++ [link])%list, snd acc)
  | Nav link => (fst acc, (snd acc ++ [link])%list)
  end.

Fixpoint regex_loop (base_url : string) (matches : list string) (seen : gset string)
    (acc : list link_data * list link_data) : list link_data * list link_data :=
  match matches with
  | [] => acc
  | m :: rest =>
      let url := Py.strip m in
      if String.eqb url "" || bool_decide (url ∈ seen) then regex_loop base_url rest seen acc
      else regex_loop base_url rest ({[url]} ∪ seen) (keep (classify_regex base_url url) acc)
  end.

Definition extract_links_regex (html base_url : string) : list link_data * list link_data :=
  regex_loop base_url (findall_href E html) ∅ ([], []).

Fixpoint htmlq_loop (html base_url : string) (urls : list string)
    (acc : list link_data * list link_data) : option (list link_data * list link_data) :=
  match urls with
  | [] => Some acc
  | u :: rest =>
      match classify html base_url u with
      | None => None
      | Some v => htmlq_loop html base_url rest (keep v acc)
      end
  end.

(** [extract_links_htmlq]: the PDF links and the navigation links; any
    exception, and a failing [htmlq], fall back on the regex extraction. *)
Definition extract_links_htmlq (html base_url : string) : list link_data * list link_data :=
  match htmlq_hrefs E html with
  | Broken => extract_links_regex html base_url
  | Exit rc out =>
      if negb (rc =? 0)%Z then extract_links_regex html base_url
      else
        let urls := set_order E (Py.split newline (Py.strip out)) in
        match htmlq_loop html base_url urls ([], []) with
        | Some found => found
        | None => extract_links_regex html base_url
        end
  end.

Definition extract_text_content (html : string) : string :=
  Py.take 2000 (readable E html).

(** [for pdf in pdfs: if pdf['url'] not in [...]: append]. *)
Definition store_pdf (source : string) (depth : Z) (known : list pdf_entry)
    (pdf : link_data) : list pdf_entry :=
  if bool_decide (l_url pdf ∈ map p_url known) then known
  else (known ++ [{| p_url := l_url pdf; p_text := l_text pdf; p_domain := l_domain pdf;
                     p_source_page := source; p_depth := depth |}])%list.

Definition crawl_page (url : string) (depth : Z) (st : spider) : spider * option PageData :=
  if (max_depth st <? depth)%Z || bool_decide (url ∈ visited st) then (st, None)
  else
    let st :=
      {| start_url := start_url st; max_depth := max_depth st;
         visited := {[url]} ∪ visited st;
         discovered_pdfs := discovered_pdfs st; crawl_log := crawl_log st;
         fetched := fetched st ++ [(url, depth)] |} in
    match fetch_page E url with
    | None => (st, None)
    | Some html =>
        if String.eqb html "" then (st, None)
        else if challenge html then (st, None)
        else
          let title :=
            match title_search E html with
            | Some t => Py.strip t
            | None => "No title"
            end in
          let '(pdfs, nav) := extract_links_htmlq html url in
          let page_data :=
            {| pd_url := url; title := title; html_size := String.length html;
               pdf_links := pdfs; nav_links := nav;
               text_content := extract_text_content html; pd_depth := depth |} in
          ({| start_url := start_url st; max_depth := max_depth st;
              visited := visited st;
              discovered_pdfs := fold_left (store_pdf url depth) pdfs (discovered_pdfs st);
              crawl_log := crawl_log st ++ [page_data];
              fetched := fetched st |},
           Some page_data)
    end.

(** A crawl session: any sequence of [crawl_page] calls on one object. *)
Definition session (calls : list (string * Z)) (st : spider) : spider :=
  fold_left (fun s c => fst (crawl_page c.1 c.2 s)) calls st.

End Spider.

End SpiderTool.

(** ** [discovery_agent.py]: [DiscoveryTool] *)

Module DiscoveryTool.

(** A link dictionary of the extraction functions. *)
Record link := {
  k_url : string;
  k_text : string;
  k_is_pdf : bool;
  k_domain : string
}.

(** An element of [discovered_pdfs]. *)
Record pdf_entry := {
  p_url : string;
  p_text : string;
  p_domain : string;
  p_source_page : string;
  p_depth : Z
}.

(** The dataclass of the navigation links kept for review. *)
Record DiscoveredLink := {
  url : string;
  text : string;
  context : string;
  depth : Z;
  source_page : string
}.

Record discovery := {
  base_url : string;
  max_depth : Z;
  visited : gset string;
  discovered_links : list DiscoveredLink;
  discovered_pdfs : list pdf_entry;
  fetched : list (string * Z)
}.

Definition init (base : string) (depth_limit : Z) : discovery :=
  {| base_url := base; max_depth := depth_limit; visited := ∅;
     discovered_links := []; discovered_pdfs := []; fetched := [] |}.

(** The dictionary [discover_from_page] returns. *)
Inductive outcome :=
  | Skipped (page : string)
  | Error (page : string)
  | Blocked (page html_sample : string)
  | Success (page : string) (page_depth : Z) (page_title : string)
            (pdf_count nav_link_count external_link_count : nat)
            (pdfs : list link) (nav_links external_links : list (string * string))
            (html_size : nat).

Section Discovery.

Variable E : tools.

Definition wanted (url : string) : bool :=
  negb (String.eqb url "") && negb (Py.startswith "#" url)
  && negb (Py.startswith "javascript:" url).

(** The dictionary of a link, for a URL that [urlparse] accepts. *)
Definition make_link (url text : string) : link :=
  {| k_url := url; k_text := text;
     k_is_pdf := Py.endswith ".pdf" (Py.lower url);
     k_domain := Url.netloc (Url.urlparse url) |}.

(** The loop of [extract_links_with_htmlq]; an exception ends it with
    the links gathered so far. *)
Fixpoint htmlq_loop (html base : string) (urls : list string) (links : list link)
  : list link :=
  match urls with
  | [] => links
  | u :: rest =>
      let u := Py.strip u in
      if wanted u then
        let u := absolute E base u in
        match htmlq_text E html ("a[href=" ++ dquote ++ u ++ dquote ++ "]") with
        | Broken => links
        | Exit _ out =>
            htmlq_loop html base rest (links ++ [make_link u (Py.take 100 (Py.strip out))])
        end
      else htmlq_loop html base rest links
  end.

Definition extract_links_with_htmlq (html base : string) : list link :=
  match htmlq_hrefs E html with
  | Broken => []
  | Exit rc out =>
      if (rc =? 0)%Z then htmlq_loop html base (Py.split newline (Py.strip out)) []
      else []
  end.

Fixpoint grep_loop (base : string) (matches : list string) (links : list link)
  : list link :=
  match matches with
  | [] => links
  | u :: rest =>
      let u := Py.strip u in
      if wanted u then grep_loop base rest (links ++ [make_link (absolute E base u) ""])
      else grep_loop base rest links
  end.

Definition extract_links_with_grep (html base : string) : list link :=
  grep_loop base (findall_href E html) [].

Definition _extract_title (html : string) : string :=
  match title_search E html with
  | Some t => Py.strip t
  | None => "No title"
  end.

Definition _extract_context (html url : string) : string :=
  Py.take 200 (context_match E html url).

Definition on_site (l : link) : bool := Py.endswith "justice.gov" (k_domain l).

(** [for pdf in pdfs: self.discovered_pdfs.append(...)] *)
Definition store_pdf (source : string) (d : Z) (known : list pdf_entry) (pdf : link)
  : list pdf_entry :=
  (known ++ [{| p_url := k_url pdf; p_text := k_text pdf; p_domain := k_domain pdf;
                p_source_page := source; p_depth := d |}])%list.

(** [for link in nav_links: if link['url'] not in [...]: append] *)
Definition store_link (html source : string) (d : Z) (known : list DiscoveredLink)
    (l : link) : list DiscoveredLink :=
  if bool_decide (k_url l ∈ map url known) then known
  else (known ++ [{| url := k_url l; text := k_text l;
                     context := _extract_context html (k_url l);
                     depth := d; source_page := source |}])%list.

Definition brief (l : link) : string * string := (k_url l, k_text l).

Definition discover_from_page (page : string) (d : Z) (st : discovery)
  : discovery * outcome :=
  if (max_depth st <? d)%Z || bool_decide (page ∈ visited st) then (st, Skipped page)
  else
    let st :=
      {| base_url := base_url st; max_depth := max_depth st;
         visited := {[page]} ∪ visited st;
         discovered_links := discovered_links st;
         discovered_pdfs := discovered_pdfs st;
         fetched := fetched st ++ [(page, d)] |} in
    match fetch_page E page with
    | None => (st, Error page)
    | Some html =>
        if String.eqb html "" then (st, Error page)
        else if challenge html then (st, Blocked page (Py.take 500 html))
        else
          let links :=
            match extract_links_with_htmlq html page with
            | [] => extract_links_with_grep html page
            | found => found
            end in
          let pdfs := filter (fun l => k_is_pdf l = true) links in
          let nav := filter (fun l => k_is_pdf l = false ∧ on_site l = true) links in
          let external := filter (fun l => k_is_pdf l = false ∧ on_site l = false) links in
          ({| base_url := base_url st; max_depth := max_depth st;
              visited := visited st;
              discovered_links := fold_left (store_link html page d) nav (discovered_links st);
              discovered_pdfs := fold_left (store_pdf page d) pdfs (discovered_pdfs st);
              fetched := fetched st |},
           Success page d (_extract_title html) (length pdfs) (length nav) (length external)
                   (firstn 10 pdfs) (map brief (firstn 20 nav))
                   (map brief (firstn 10 external)) (String.length html))
    end.

(** A crawl session: any sequence of calls on one object. *)
Definition session (calls : list (string * Z)) (st : discovery) : discovery :=
  fold_left (fun s c => fst (discover_from_page c.1 c.2 s)) calls st.

End Discovery.

End DiscoveryTool.

(** ** Loading the persisted state *)

Module State.

(** A decoded JSON value; an object keeps its members in file order, a
    number that is no integer is given by the [repr] of the float. *)
#[local] Unset Elimination Schemes.
Inductive json :=
  | JNull
  | JBool (b : bool)
  | JNumber (n : Z)
  | JFloat (repr : string)
  | JString (s : string)
  | JArray (items : list json)
  | JObject (members : list (string * json)).
#[local] Set Elimination Schemes.

(** What [open(path)] followed by [json.load] finds: no file, a file that
    is not JSON, the decoded value, or any other exception of the two
    calls, given by its class ([UnicodeDecodeError] for bytes that are no
    text, [IsADirectoryError], [PermissionError], ...). *)
Inductive loaded :=
  | NoFile
  | NotJson
  | Decoded (value : json)
  | Unreadable (exception : string).

Inductive exn :=
  | FileNotFoundError
  | JSONDecodeError
  | AttributeError
  | TypeError
  | OtherError (exception : string).

Inductive result (A : Type) :=
  | Returned (a : A)
  | Raised (e : exn).

Arguments Returned {A} a.
Arguments Raised {A} e.

(** A repeated member name keeps its last value, as in the decoded [dict]. *)
Fixpoint member (key : string) (members : list (string * json)) : option json :=
  match members with
  | [] => None
  | (k, v) :: rest =>
      match member key rest with
      | Some later => Some later
      | None => if String.eqb k key then Some v else None
      end
  end.

(** [value.get(key, [])]: only a [dict] has the method. *)
Definition get_or_empty (key : string) (value : json) : result json :=
  match value with
  | JObject members =>
      Returned (match member key members with Some v => v | None => JArray [] end)
  | _ => Raised AttributeError
  end.

(** The [with open(...)] and [json.load] lines of a [try] block. *)
Definition load (read : string -> loaded) (path : string) : result json :=
  match read path with
  | NoFile => Raised FileNotFoundError
  | NotJson => Raised JSONDecodeError
  | Decoded value => Returned value
  | Unreadable exception => Raised (OtherError exception)
  end.

(** [len(value)] returns: strings, lists and dictionaries have a length. *)
Definition has_len (value : json) : bool :=
  match value with
  | JString _ | JArray _ | JObject _ => true
  | _ => false
  end.

Section Loader.

Variable read : string -> loaded.

(** [load_discovery_state] of [download_orchestrator.py]: the only
    handler is [except FileNotFoundError]. *)
Definition load_discovery_state (path : string) : result json :=
  let body :=
    match load read path with
    | Returned state => get_or_empty "pdfs" state
    | Raised e => Raised e
    end in
  match body with
  | Raised FileNotFoundError => Returned (JArray [])
  | other => other
  end.

(** Lines 211-220 of [main] in [download_all_epstein.py], run with
    [--skip-discovery]: the PDFs of the manifest, or [None] when [main]
    prints that there is no manifest and returns.  The [try] ends by
    printing [len(pdfs)]. *)
Definition skip_discovery_pdfs : result (option json) :=
  let body :=
    match load read "reference/epstein_manifest.json" with
    | Returned manifest =>
        match get_or_empty "pdfs" manifest with
        | Returned pdfs => if has_len pdfs then Returned (Some pdfs) else Raised TypeError
        | Raised e => Raised e
        end
    | Raised e => Raised e
    end in
  match body with
  | Raised FileNotFoundError => Returned None
  | other => other
  end.

End Loader.

End State.

(** ** The shape the two verifying loops share

    [download_all_pdfs] and [download_with_age_verification] differ in how
    they name the file, in how they obtain the bytes and in the keys of
    their records.  [Resumable.step] is their loop body with these three
    left open; it is compared with each of them below and serves to prove
    what they have in common once. *)

Module Resumable.

Section Shape.

Variable name_of path_of : string -> string.
Variable attempt : nat -> string -> string + list byte.
Variable skip_entry : string -> entry.
Variable done_entry : string -> nat -> entry.

Definition large (disk : gmap string (list byte)) (p : string) : bool :=
  exists_ disk p && (1000 <? getsize disk p)%nat.

Definition step (i : nat) (pdf : pdf_info) (st : run) : run :=
  let url := info_url pdf in
  if large (files st) (path_of url) then
    {| downloaded := downloaded st ++ [skip_entry url];
       failed := failed st; files := files st; requests := requests st |}
  else
    let st := requested url st in
    match attempt i url with
    | inl message => record_failed url (name_of url) message st
    | inr data =>
        {| downloaded := downloaded st ++ [done_entry url (length data)];
           failed := failed st;
           files := <[path_of url := data]> (files st);
           requests := requests st |}
    end.

Fixpoint steps (i : nat) (pdfs : list pdf_info) (st : run) : run :=
  match pdfs with
  | [] => st
  | pdf :: rest => steps (S i) rest (step i pdf st)
  end.

End Shape.

End Resumable.

(** The records of [download_all_pdfs]. *)
Definition epstein_skip (u : string) : entry :=
  {| r_url := u; r_filename := DownloadAllEpstein.output_filename u;
     r_status := Some "already_exists"; r_size := None;
     r_path := Some (DownloadAllEpstein.output_path u); r_error := None |}.

Definition epstein_done (u : string) (n : nat) : entry :=
  {| r_url := u; r_filename := DownloadAllEpstein.output_filename u;
     r_status := Some "downloaded"; r_size := Some n;
     r_path := Some (DownloadAllEpstein.output_path u); r_error := None |}.

(** The records of [download_with_age_verification]. *)
Definition verification_skip (u : string) : entry :=
  {| r_url := u; r_filename := flat_filename u; r_status := Some "exists";
     r_size := None; r_path := None; r_error := None |}.

Definition verification_done (u : string) (n : nat) : entry :=
  {| r_url := u; r_filename := flat_filename u; r_status := None;
     r_size := Some n; r_path := None; r_error := None |}.

(** A record of a [downloaded] list that stands for a file the next run
    will skip: a skip record, or a download of more than 1000 bytes. *)
Definition settled (r : entry) : Prop :=
  match r_size r with
  | None => True
  | Some n => 1000 < n
  end.

(** ** What a crawl session maintains *)

(** For a [SpiderTool]: every recorded PDF and every fetch is within the
    depth bound, no URL was fetched twice, the visited set is the set of
    fetched URLs, and no PDF URL is recorded twice. *)
Definition spider_ok (st : SpiderTool.spider) : Prop :=
  Forall (λ p, (SpiderTool.p_depth p ≤ SpiderTool.max_depth st)%Z)
         (SpiderTool.discovered_pdfs st)
  ∧ Forall (λ c, (c.2 ≤ SpiderTool.max_depth st)%Z) (SpiderTool.fetched st)
  ∧ NoDup (SpiderTool.fetched st).*1
  ∧ (∀ u, u ∈ SpiderTool.visited st ↔ u ∈ (SpiderTool.fetched st).*1)
  ∧ NoDup (map SpiderTool.p_url (SpiderTool.discovered_pdfs st)).

(** For a [DiscoveryTool]: the same bounds for its PDFs, its navigation
    links and its fetches, and no navigation link recorded twice. *)
Definition discovery_ok (st : DiscoveryTool.discovery) : Prop :=
  Forall (λ p, (DiscoveryTool.p_depth p ≤ DiscoveryTool.max_depth st)%Z)
         (DiscoveryTool.discovered_pdfs st)
  ∧ Forall (λ l, (DiscoveryTool.depth l ≤ DiscoveryTool.max_depth st)%Z)
           (DiscoveryTool.discovered_links st)
  ∧ Forall (λ c, (c.2 ≤ DiscoveryTool.max_depth st)%Z) (DiscoveryTool.fetched st)
  ∧ NoDup (DiscoveryTool.fetched st).*1
  ∧ (∀ u, u ∈ DiscoveryTool.visited st ↔ u ∈ (DiscoveryTool.fetched st).*1)
  ∧ NoDup (map DiscoveryTool.url (DiscoveryTool.discovered_links st)).

(** ** Inputs used in the examples *)

Module Sample.

Definition pdf_at (u : string) : pdf_info :=
  {| info_url := u; info_text := ""; info_source_page := ""; info_depth := 0 |}.

Definition efta1 : string :=
  "https://www.justice.gov/epstein/files/DataSet%201/EFTA00000001.pdf".

(** A file of 1200 bytes. *)
Definition large_file : list byte := repeat "x"%byte 1200.

(** A disk that already holds [efta1] under the name [download_all_pdfs]
    gives it. *)
Definition disk_with_efta1 : gmap string (list byte) :=
  {[ "reference/epstein_files/dataset_1_EFTA00000001.pdf" := large_file ]}.

(** A browser that turns every request into an HTTP error. *)
Definition offline (i : nat) (u : string) : response := RError "HTTP 404".

(** A browser that answers every request with an HTML page. *)
Definition html_reply (i : nat) (u : string) : response :=
  RString "data:text/html;base64,PGh0bWw+".

(** A browser that answers every request with the eight bytes [%PDF-1.4]. *)
Definition tiny_pdf_reply (i : nat) (u : string) : response :=
  RString "data:application/pdf;base64,JVBERi0xLjQ=".

(** A browser that answers every request with a PDF of 1206 bytes: the
    header [%PDF-1] followed by 1200 zero bytes. *)
Fixpoint zeros (n : nat) : string :=
  match n with
  | O => EmptyString
  | S k => "AAAA" ++ zeros k
  end.

Definition large_pdf_reply (i : nat) (u : string) : response :=
  RString ("data:application/pdf;base64,JVBERi0x" ++ zeros 400).

(** Two pages whose paths end in the same segment, without extension,
    and two PDFs of different folders with one file name. *)
Definition doc_a : string := "https://www.justice.gov/a/doc".
Definition doc_b : string := "https://www.justice.gov/b/doc".
Definition memo_a : string := "https://www.justice.gov/a/memo.pdf".
Definition memo_b : string := "https://www.justice.gov/b/memo.pdf".

(** A small site.  Every page answers with the same listing, except
    [/down], for which curl fails.  The listing has four anchors: a PDF
    given by its absolute URL, a page of the site, a page of another site,
    and the same PDF again, given by its path. *)
Definition page_a : string := "https://example.justice.gov/a".
Definition page_b : string := "https://example.justice.gov/b".
Definition page_down : string := "https://example.justice.gov/down".
Definition x_pdf : string := "https://example.justice.gov/x.pdf".

Definition lines (l : list string) : string :=
  fold_right (λ line rest, line ++ String newline rest) EmptyString l.

Definition listing_hrefs : string :=
  lines [x_pdf; "/b"; "https://other.com/c"; "/x.pdf"].

(** A relative reference replaces the last segment of the base. *)
Definition sibling (base ref : string) : string :=
  Py.take (String.length base - String.length (Url.basename base)) base ++ ref.

Definition site : tools :=
  {| curl := λ u, if String.eqb u page_down then Exit 6 "" else Exit 0 "<html>listing</html>";
     htmlq_hrefs := λ html, Exit 0 listing_hrefs;
     htmlq_text := λ html selector, Exit 0 "Report";
     set_order := remove_dups;
     urljoin := sibling;
     findall_href := λ html, [];
     title_search := λ html, Some "Listing";
     readable := λ html, html;
     context_match := λ html u, "" |}.

(** A working directory without state files, and one whose state files
    hold text that is not JSON. *)
Definition no_files (path : string) : State.loaded := State.NoFile.
Definition garbled_files (path : string) : State.loaded := State.NotJson.

End Sample.

(** ** Counts and sizes the download scripts report *)

(** [sum(d.get('size', 0) for d in self.downloaded)] of [generate_report];
    [download_all_pdfs] and [download_with_age_verification] sum the same
    sizes over the records that have one. *)
Definition total_size (records : list entry) : nat :=
  sum_list (map (λ r, default 0 (r_size r)) records).

(** The dictionary [download_all_pdfs] saves as
    [reference/download_report.json]. *)
Record download_report := {
  rep_total : nat;
  rep_downloaded : nat;
  rep_failed : nat;
  rep_files : list entry;
  rep_errors : list entry
}.

Definition epstein_report (pdf_list : list pdf_info) (st : run) : download_report :=
  {| rep_total := length pdf_list;
     rep_downloaded := length (downloaded st);
     rep_failed := length (failed st);
     rep_files := downloaded st;
     rep_errors := failed st |}.

(** The number of bytes of all files on a disk. *)
Definition disk_bytes (disk : gmap string (list byte)) : nat :=
  map_fold (λ _ data n, length data + n) 0 disk.

(** The skip record of [DownloadOrchestrator.download_pdfs] for the entry
    at position [i]. *)
Definition orchestrator_skip (dir : string) (i : nat) (pdf : pdf_info) : entry :=
  {| r_url := info_url pdf;
     r_filename := DownloadOrchestrator.derive_filename i (info_url pdf);
     r_status := Some "already_exists"; r_size := None;
     r_path := Some (Url.join dir (DownloadOrchestrator.derive_filename i (info_url pdf)));
     r_error := None |}.

(** The output path of the entry at position [i] of the orchestrator's list. *)
Definition path_at (dir : string) (i : nat) (pdf : pdf_info) : string :=
  Url.join dir (DownloadOrchestrator.derive_filename i (info_url pdf)).

(** A record of a downloaded list has its file on disk, with the recorded
    size if it has one. *)
Definition on_disk (disk : gmap string (list byte)) (r : entry) : Prop :=
  ∃ p data, r_path r = Some p ∧ disk !! p = Some data
            ∧ (r_size r = None ∨ r_size r = Some (length data)).

(** How a script ends: it returns, or an exception nobody catches ends it. *)
Inductive ending (A : Type) :=
  | Returns (a : A)
  | Uncaught (exception : string).

Arguments Returns {A} a.
Arguments Uncaught {A} exception.

(** [download_all] of [download_all.py] once the manifest is read: the
    loop, then the summary, whose success rate is
    [downloaded/len(pdfs)*100]. *)
Definition download_all_script (browser : nat -> string -> visit)
    (pdfs : list pdf_info) (disk : gmap string (list byte)) : ending DownloadAll.tally :=
  let st := DownloadAll.download_all browser pdfs disk in
  if (length pdfs =? 0)%nat then Uncaught "ZeroDivisionError" else Returns st.

(** Both verifying scripts end by dumping a report to this file. *)
Definition report_path : string := "reference/download_report.json".

(** [download_with_age_verification] once the manifest is read: an empty
    list returns before the loop ([None]); otherwise the loop runs, the
    report divides by a length that is not zero, and its text goes to
    [report_path].  [dump total downloaded failed] is the text
    [json.dump] writes for the report, which holds these three counts and
    the success rate computed from them. *)
Definition download_with_age_verification_script (dump : nat -> nat -> nat -> list byte)
    (browser : nat -> string -> visit)
    (pdfs : list pdf_info) (disk : gmap string (list byte)) : ending (option run) :=
  match pdfs with
  | [] => Returns None
  | _ =>
      let st := DownloadWithVerification.download_with_age_verification browser pdfs disk in
      if (length pdfs =? 0)%nat then Uncaught "ZeroDivisionError"
      else
        Returns (Some
          {| downloaded := downloaded st; failed := failed st;
             files := <[report_path :=
                          dump (length pdfs) (length (downloaded st)) (length (failed st))]>
                        (files st);
             requests := requests st |})
  end.

(** [download_all_pdfs] on any list, once the first navigation has
    returned: the files it leaves, and the list it returns or the
    exception that ends it.  After the loop the report goes to
    [report_path], with the text [dump] that [json.dump] writes for it;
    a [ValueError] in the loop ends the function before that. *)
Definition download_all_pdfs_script (dump : download_report -> list byte)
    (page : nat -> string -> response)
    (pdf_list : list pdf_info) (disk : gmap string (list byte))
  : gmap string (list byte) * ending (list entry) :=
  match DownloadAllEpstein.download_until page 1 pdf_list (fresh disk) with
  | (st, None) =>
      (<[report_path := dump (epstein_report pdf_list st)]> (files st),
       Returns (downloaded st))
  | (st, Some exception) => (files st, Uncaught exception)
  end.

(** The bytes [download_all] gets for a URL, seen as the attempt of the
    shared loop shape (the error text is not kept by the script). *)
Definition tally_attempt (browser : nat -> string -> visit) (i : nat) (u : string)
  : string + list byte :=
  match DownloadAll.fetch (browser i u) with
  | Some data => inr data
  | None => inl ""
  end.

(** ** [spider_agent.py]: the interactive session and the saved state *)

Module SpiderCli.

(** The digits of a decimal literal: not empty, and an underscore only
    between two digits.  [after_digit] tells whether the previous
    character was a digit; the value read so far is [acc]. *)
Fixpoint digits (s : string) (after_digit : bool) (acc : Z) : option Z :=
  match s with
  | EmptyString => if after_digit then Some acc else None
  | String c s' =>
      if Url.isdigit c then digits s' true (10 * acc + Z.of_nat (nat_of_ascii c - 48))%Z
      else if Ascii.eqb c "_" && after_digit then
        match s' with
        | EmptyString => None
        | String c' _ => if Url.isdigit c' then digits s' false acc else None
        end
      else None
  end.

(** [int(x)] for a stripped string; [None] stands for [ValueError]. *)
Definition parse_int (s : string) : option Z :=
  match s with
  | String "+" r => digits r false 0
  | String "-" r => Z.opp <$> digits r false 0
  | _ => digits s false 0
  end.

(** [[int(x.strip()) - 1 for x in choice.split(',')]] *)
Fixpoint indices (parts : list string) : option (list Z) :=
  match parts with
  | [] => Some []
  | x :: rest =>
      match parse_int (Py.strip x) with
      | None => None
      | Some n =>
          match indices rest with
          | None => None
          | Some l => Some ((n - 1)%Z :: l)
          end
      end
  end.

(** [[nav_links[i] for i in indices if 0 <= i < len(nav_links)]] *)
Fixpoint pick (nav : list SpiderTool.link_data) (l : list Z) : list SpiderTool.link_data :=
  match l with
  | [] => []
  | i :: rest =>
      if (0 <=? i)%Z && (i <? Z.of_nat (length nav))%Z then
        match nav !! Z.to_nat i with
        | Some link => link :: pick nav rest
        | None => pick nav rest
        end
      else pick nav rest
  end.

(** The links to follow for an answer other than [stop]: the first five
    for [all], the numbered ones otherwise; [None] when a number does not
    parse. *)
Definition selected (nav : list SpiderTool.link_data) (choice : string)
  : option (list SpiderTool.link_data) :=
  if String.eqb choice "all" then Some (firstn 5 nav)
  else pick nav <$> indices (Py.split "," choice).

Section Cli.

Variable E : tools.

(** [interactive_crawl], with the line the user types at the prompt, on
    pages whose references parse; the result tells whether [save_state]
    was called. *)
Definition interactive_crawl (answer : string) (st : SpiderTool.spider)
  : SpiderTool.spider * bool :=
  match SpiderTool.crawl_page E (SpiderTool.start_url st) 0 st with
  | (st, None) => (st, false)
  | (st, Some current_page) =>
      match SpiderTool.discovered_pdfs st with
      | _ :: _ => (st, true)
      | [] =>
          match SpiderTool.nav_links current_page with
          | [] => (st, false)
          | nav =>
              let choice := Py.lower (Py.strip answer) in
              if String.eqb choice "stop" then (st, true)
              else
                match selected nav choice with
                | None => (st, true)
                | Some links =>
                    (SpiderTool.session E (map (λ l, (SpiderTool.l_url l, 1%Z)) links) st,
                     true)
                end
          end
      end
  end.

End Cli.

Definition link_json (l : SpiderTool.link_data) : State.json :=
  State.JObject [("url", State.JString (SpiderTool.l_url l));
                 ("text", State.JString (SpiderTool.l_text l));
                 ("domain", State.JString (SpiderTool.l_domain l))].

Definition pdf_json (p : SpiderTool.pdf_entry) : State.json :=
  State.JObject [("url", State.JString (SpiderTool.p_url p));
                 ("text", State.JString (SpiderTool.p_text p));
                 ("domain", State.JString (SpiderTool.p_domain p));
                 ("source_page", State.JString (SpiderTool.p_source_page p));
                 ("depth", State.JNumber (SpiderTool.p_depth p))].

Definition page_json (p : SpiderTool.PageData) : State.json :=
  State.JObject [("url", State.JString (SpiderTool.pd_url p));
                 ("title", State.JString (SpiderTool.title p));
                 ("html_size", State.JNumber (Z.of_nat (SpiderTool.html_size p)));
                 ("pdf_links", State.JArray (map link_json (SpiderTool.pdf_links p)));
                 ("nav_links", State.JArray (map link_json (SpiderTool.nav_links p)));
                 ("text_content", State.JString (SpiderTool.text_content p));
                 ("depth", State.JNumber (SpiderTool.pd_depth p))].

(** The dictionary [save_state] dumps; the visited set in the order
    [elements] lists it. *)
Definition save_state (st : SpiderTool.spider) : State.json :=
  State.JObject [("start_url", State.JString (SpiderTool.start_url st));
                 ("max_depth", State.JNumber (SpiderTool.max_depth st));
                 ("visited", State.JArray (map State.JString (elements (SpiderTool.visited st))));
                 ("pdfs", State.JArray (map pdf_json (SpiderTool.discovered_pdfs st)));
                 ("pages", State.JArray (map page_json (SpiderTool.crawl_log st)))].

End SpiderCli.

(** ** State files written and read back *)

(** The files as a later [open] and [json.load] find them once [value]
    has been dumped to [path]: the values the scripts dump (strings,
    numbers, booleans, lists, dictionaries with string keys) load back
    as they were. *)
Definition dumped (path : string) (value : State.json) (read : string -> State.loaded)
  : string -> State.loaded :=
  λ p, if String.eqb p path then State.Decoded value else read p.

(** [main] of [spider_agent.py]: a spider with depth limit 3 runs the
    interactive session; [save_state] writes to its default path. *)
Definition spider_main (E : tools) (answer start : string) (read : string -> State.loaded)
  : string -> State.loaded :=
  let '(st, saved) := SpiderCli.interactive_crawl E answer (SpiderTool.init start 3) in
  if saved then dumped "reference/spider_state.json" (SpiderCli.save_state st) read
  else read.

(** ** [discovery_agent.py]: the links of a page *)

Module DiscoveryCli.

(** The links [discover_from_page] works with: those of htmlq, or those
    of the regular expression when htmlq gave none. *)
Definition links_of (E : tools) (html page : string) : list DiscoveryTool.link :=
  match DiscoveryTool.extract_links_with_htmlq E html page with
  | [] => DiscoveryTool.extract_links_with_grep E html page
  | found => found
  end.

End DiscoveryCli.

(** ** [agent_orchestrator.py]: reading the state *)

Module EpsteinAgent.

Definition no_state : State.json :=
  State.JObject [("status", State.JString "no_state"); ("pdfs", State.JArray []);
                 ("pages", State.JArray []); ("visited", State.JArray [])].

(** [get_state]: the first of the two state files that exists. *)
Definition get_state (read : string -> State.loaded) (project_dir : string)
  : State.result State.json :=
  match State.load read (Url.join project_dir "reference/spider_state.json") with
  | State.Raised State.FileNotFoundError =>
      match State.load read (Url.join project_dir "reference/discovery_state.json") with
      | State.Raised State.FileNotFoundError => State.Returned no_state
      | other => other
      end
  | other => other
  end.

End EpsteinAgent.

(** ** [download_all_epstein.py]: [discover_all_datasets] *)

Module Datasets.

(** The member names of a decoded object, each once, in the order of
    their first occurrence. *)
Fixpoint keys (members : list (string * State.json)) (seen : list string) : list string :=
  match members with
  | [] => []
  | (k, _) :: rest =>
      if bool_decide (k ∈ seen) then keys rest seen else k :: keys rest (k :: seen)
  end.

(** What [all_pdfs.extend(pdfs)] appends: the items of a list, the
    characters of a string, the member names of an object; [None] for a
    value that cannot be iterated, which raises a [TypeError]. *)
Definition extension (pdfs : State.json) : option (list State.json) :=
  match pdfs with
  | State.JArray items => Some items
  | State.JString s =>
      Some (map (λ c, State.JString (String c EmptyString)) (list_ascii_of_string s))
  | State.JObject members => Some (map State.JString (keys members []))
  | _ => None
  end.

(** The body of the [try] for one data set; the bare [except] swallows
    whatever is raised and the data set adds nothing. *)
Definition found (state : State.loaded) : list State.json :=
  match state with
  | State.Decoded value =>
      match State.get_or_empty "pdfs" value with
      | State.Returned pdfs =>
          match extension pdfs with
          | Some items => items
          | None => []
          end
      | State.Raised _ => []
      end
  | _ => []
  end.

Section Discover.

(** [spawn i] is the exception [subprocess.run] raises for data set [i],
    if any (the interpreter or the working directory is missing, the
    output of the child is no text); [state_after i] is the state file
    as found after that run.  The children and the parent write to the
    directory [reference]: [write_error] is the exception of writing the
    manifest, if any (the directory is missing), and [read] gives the
    files as they are at that moment. *)
Variable spawn : nat -> option string.
Variable state_after : nat -> State.loaded.
Variable write_error : option string.

Fixpoint discover_from (sets : list nat) (all_pdfs : list State.json)
  : ending (list State.json) :=
  match sets with
  | [] => Returns all_pdfs
  | i :: rest =>
      match spawn i with
      | Some exception => Uncaught exception
      | None => discover_from rest (all_pdfs ++ found (state_after i))
      end
  end.

Definition manifest (all_pdfs : list State.json) : State.json :=
  State.JObject [("total_pdfs", State.JNumber (Z.of_nat (length all_pdfs)));
                 ("datasets", State.JArray (map (λ i, State.JNumber (Z.of_nat i)) (seq 1 9)));
                 ("pdfs", State.JArray all_pdfs)].

(** [discover_all_datasets]: the list it returns and the files it leaves. *)
Definition discover_all_datasets (read : string -> State.loaded)
  : ending (list State.json * (string -> State.loaded)) :=
  match discover_from (seq 1 9) [] with
  | Returns all_pdfs =>
      match write_error with
      | Some exception => Uncaught exception
      | None =>
          Returns (all_pdfs,
                   dumped "reference/epstein_manifest.json" (manifest all_pdfs) read)
      end
  | Uncaught exception => Uncaught exception
  end.

End Discover.

End Datasets.

(** ** What the crawlers record *)

(** A link the spider's extraction returns: its domain is the host of its
    URL and ends in [justice.gov], its URL ends in [.pdf] (case ignored)
    exactly for a PDF link, and its text has at most 100 characters. *)
Definition spider_link_ok (pdf : bool) (l : SpiderTool.link_data) : Prop :=
  Py.endswith "justice.gov" (SpiderTool.l_domain l) = true
  ∧ SpiderTool.l_domain l = Url.netloc (Url.urlparse (SpiderTool.l_url l))
  ∧ Py.endswith ".pdf" (Py.lower (SpiderTool.l_url l)) = pdf
  ∧ (String.length (SpiderTool.l_text l) ≤ 100)%nat.

(** The two lists of an extraction, PDFs first. *)
Definition links_ok (acc : list SpiderTool.link_data * list SpiderTool.link_data) : Prop :=
  Forall (spider_link_ok true) acc.1 ∧ Forall (spider_link_ok false) acc.2.

Definition spider_pdf_ok (p : SpiderTool.pdf_entry) : Prop :=
  Py.endswith "justice.gov" (SpiderTool.p_domain p) = true
  ∧ SpiderTool.p_domain p = Url.netloc (Url.urlparse (SpiderTool.p_url p))
  ∧ Py.endswith ".pdf" (Py.lower (SpiderTool.p_url p)) = true
  ∧ (String.length (SpiderTool.p_text p) ≤ 100)%nat.

Definition spider_page_ok (st : SpiderTool.spider) (p : SpiderTool.PageData) : Prop :=
  SpiderTool.pd_url p ∈ SpiderTool.visited st
  ∧ (SpiderTool.pd_depth p ≤ SpiderTool.max_depth st)%Z
  ∧ (String.length (SpiderTool.text_content p) ≤ 2000)%nat
  ∧ Forall (spider_link_ok true) (SpiderTool.pdf_links p)
  ∧ Forall (spider_link_ok false) (SpiderTool.nav_links p).

(** What a spider session maintains about its records. *)
Definition spider_clean (st : SpiderTool.spider) : Prop :=
  Forall spider_pdf_ok (SpiderTool.discovered_pdfs st)
  ∧ Forall (spider_page_ok st) (SpiderTool.crawl_log st)
  ∧ (length (SpiderTool.crawl_log st) ≤ length (SpiderTool.fetched st))%nat.

(** A link of the discovery tool's extraction: the PDF flag and the
    domain are read off the URL, the text has at most 100 characters. *)
Definition discovery_link_ok (l : DiscoveryTool.link) : Prop :=
  DiscoveryTool.k_is_pdf l = Py.endswith ".pdf" (Py.lower (DiscoveryTool.k_url l))
  ∧ DiscoveryTool.k_domain l = Url.netloc (Url.urlparse (DiscoveryTool.k_url l))
  ∧ (String.length (DiscoveryTool.k_text l) ≤ 100)%nat.

(** What a discovery session maintains about its records: PDFs are PDFs
    (of any host), navigation links are pages of the site. *)
Definition discovery_clean (st : DiscoveryTool.discovery) : Prop :=
  Forall (λ p, Py.endswith ".pdf" (Py.lower (DiscoveryTool.p_url p)) = true
               ∧ DiscoveryTool.p_domain p = Url.netloc (Url.urlparse (DiscoveryTool.p_url p))
               ∧ (String.length (DiscoveryTool.p_text p) ≤ 100)%nat)
         (DiscoveryTool.discovered_pdfs st)
  ∧ Forall (λ l, Py.endswith ".pdf" (Py.lower (DiscoveryTool.url l)) = false
                 ∧ Py.endswith "justice.gov"
                     (Url.netloc (Url.urlparse (DiscoveryTool.url l))) = true
                 ∧ (String.length (DiscoveryTool.text l) ≤ 100)%nat
                 ∧ (String.length (DiscoveryTool.context l) ≤ 200)%nat)
           (DiscoveryTool.discovered_links st).

(** * Properties *)

(** ** The download loops, one step at a time *)

Lemma orchestrator_snoc dir page (l : list pdf_info) pdf i st :
  DownloadOrchestrator.download_from dir page i (l ++ [pdf]) st
  = DownloadOrchestrator.download_one dir page (i + length l) pdf
      (DownloadOrchestrator.download_from dir page i l st).
Proof.
  revert i st. induction l as [|x l IH]; intros i st; simpl.
  - by rewrite Nat.add_0_r.
  - rewrite IH. by rewrite Nat.add_succ_r.
Qed.

Lemma epstein_snoc page (l : list pdf_info) pdf i st :
  DownloadAllEpstein.download_from page i (l ++ [pdf]) st
  = DownloadAllEpstein.download_one page (i + length l) pdf
      (DownloadAllEpstein.download_from page i l st).
Proof.
  revert i st. induction l as [|x l IH]; intros i st; simpl.
  - by rewrite Nat.add_0_r.
  - rewrite IH. by rewrite Nat.add_succ_r.
Qed.

Lemma verification_snoc browser (l : list pdf_info) pdf i st :
  DownloadWithVerification.download_from browser i (l ++ [pdf]) st
  = DownloadWithVerification.download_one browser (i + length l) pdf
      (DownloadWithVerification.download_from browser i l st).
Proof.
  revert i st. induction l as [|x l IH]; intros i st; simpl.
  - by rewrite Nat.add_0_r.
  - rewrite IH. by rewrite Nat.add_succ_r.
Qed.

Lemma tally_snoc browser (l : list pdf_info) pdf i st :
  DownloadAll.download_from browser i (l ++ [pdf]) st
  = DownloadAll.download_one browser (i + length l) pdf
      (DownloadAll.download_from browser i l st).
Proof.
  revert i st. induction l as [|x l IH]; intros i st; simpl.
  - by rewrite Nat.add_0_r.
  - rewrite IH. by rewrite Nat.add_succ_r.
Qed.

(** ** C1: the idempotent skip *)

(** C1, counterexample.  The claim has the skip record carry the size of
    the existing file.  [download_all_pdfs] meets a 1200-byte file at the
    output path of its only URL: the record it appends has no [size] key,
    and the browser is not asked. *)
Lemma skip_record_without_size :
  let run1 := DownloadAllEpstein.download_all_pdfs Sample.offline
                [Sample.pdf_at Sample.efta1] Sample.disk_with_efta1 in
  let p := DownloadAllEpstein.output_path Sample.efta1 in
  exists_ Sample.disk_with_efta1 p = true
  ∧ getsize Sample.disk_with_efta1 p = 1200
  ∧ requests run1 = []
  ∧ downloaded run1 =
      [{| r_url := Sample.efta1; r_filename := "dataset_1_EFTA00000001.pdf";
          r_status := Some "already_exists"; r_size := None;
          r_path := Some p; r_error := None |}]
  ∧ r_size <$> downloaded run1 ≠ [Some 1200].
Proof. vm_compute. repeat split; congruence. Qed.

(** C1, as amended.  When the loop reaches a URL whose derived output path
    holds a file of more than 1000 bytes, it does not ask the browser and
    leaves the disk alone.  [download_all_pdfs] and
    [DownloadOrchestrator.download_pdfs] append one [already_exists] record
    with the URL, the file name and the path, and no size (the orchestrator
    does so for an existing file of any size); [download_all] keeps no
    records and adds the existing size to its running total. *)
Theorem idempotent_skip :
  (∀ page before pdf disk,
     let st := DownloadAllEpstein.download_all_pdfs page before disk in
     let p := DownloadAllEpstein.output_path (info_url pdf) in
     exists_ (files st) p = true → 1000 < getsize (files st) p →
     DownloadAllEpstein.download_all_pdfs page (before ++ [pdf]) disk
     = {| downloaded := downloaded st ++
            [{| r_url := info_url pdf;
                r_filename := DownloadAllEpstein.output_filename (info_url pdf);
                r_status := Some "already_exists"; r_size := None;
                r_path := Some p; r_error := None |}];
          failed := failed st; files := files st; requests := requests st |})
  ∧ (∀ dir page before pdf st0,
     let st := DownloadOrchestrator.download_pdfs dir page before st0 in
     let name := DownloadOrchestrator.derive_filename (S (length before)) (info_url pdf) in
     exists_ (files st) (Url.join dir name) = true →
     DownloadOrchestrator.download_pdfs dir page (before ++ [pdf]) st0
     = {| downloaded := downloaded st ++
            [{| r_url := info_url pdf; r_filename := name;
                r_status := Some "already_exists"; r_size := None;
                r_path := Some (Url.join dir name); r_error := None |}];
          failed := failed st; files := files st; requests := requests st |})
  ∧ (∀ browser before pdf disk,
     let st := DownloadAll.download_all browser before disk in
     let p := flat_path (info_url pdf) in
     exists_ (DownloadAll.files st) p = true → 1000 < getsize (DownloadAll.files st) p →
     DownloadAll.download_all browser (before ++ [pdf]) disk
     = {| DownloadAll.downloaded := DownloadAll.downloaded st + 1;
          DownloadAll.failed := DownloadAll.failed st;
          DownloadAll.total_size :=
            DownloadAll.total_size st + getsize (DownloadAll.files st) p;
          DownloadAll.files := DownloadAll.files st;
          DownloadAll.requests := DownloadAll.requests st |}).
Proof.
  split; [|split].
  - intros page before pdf disk st p Hex Hsz.
    unfold DownloadAllEpstein.download_all_pdfs. rewrite epstein_snoc.
    fold (DownloadAllEpstein.download_all_pdfs page before disk). fold st.
    unfold DownloadAllEpstein.download_one. fold p. rewrite Hex.
    apply Nat.ltb_lt in Hsz. by rewrite Hsz.
  - intros dir page before pdf st0 st name Hex.
    unfold DownloadOrchestrator.download_pdfs. rewrite orchestrator_snoc.
    fold (DownloadOrchestrator.download_pdfs dir page before st0). fold st.
    unfold DownloadOrchestrator.download_one. simpl Nat.add. fold name.
    by rewrite Hex.
  - intros browser before pdf disk st p Hex Hsz.
    unfold DownloadAll.download_all. rewrite tally_snoc.
    fold (DownloadAll.download_all browser before disk). fold st.
    unfold DownloadAll.download_one. fold p. rewrite Hex.
    apply Nat.ltb_lt in Hsz. by rewrite Hsz.
Qed.

Lemma idempotent_skip_witness :
  DownloadAllEpstein.download_all_pdfs Sample.offline
    ([] ++ [Sample.pdf_at Sample.efta1]) Sample.disk_with_efta1
  = {| downloaded :=
         [{| r_url := Sample.efta1;
             r_filename := DownloadAllEpstein.output_filename Sample.efta1;
             r_status := Some "already_exists"; r_size := None;
             r_path := Some (DownloadAllEpstein.output_path Sample.efta1);
             r_error := None |}];
       failed := []; files := Sample.disk_with_efta1; requests := [] |}.
Proof.
  apply (proj1 idempotent_skip Sample.offline [] (Sample.pdf_at Sample.efta1)
           Sample.disk_with_efta1).
  - reflexivity.
  - vm_compute. lia.
Defined.

(** ** The loops that check the size and the signature *)

Section ShapeFacts.

Variable name_of path_of : string -> string.
Variable attempt : nat -> string -> string + list byte.
Variable skip_entry : string -> entry.
Variable done_entry : string -> nat -> entry.

Hypothesis skip_url : ∀ u, r_url (skip_entry u) = u.
Hypothesis done_url : ∀ u n, r_url (done_entry u n) = u.
Hypothesis done_size : ∀ u n, r_size (done_entry u n) = Some n.

Abbreviation step := (Resumable.step name_of path_of attempt skip_entry done_entry).
Abbreviation steps := (Resumable.steps name_of path_of attempt skip_entry done_entry).

Lemma large_lookup disk p :
  Resumable.large disk p = true ↔ ∃ d, disk !! p = Some d ∧ 1000 < length d.
Proof.
  unfold Resumable.large, exists_, getsize. split.
  - intros [H1 H2]%andb_true_iff. destruct (disk !! p) as [d|] eqn:Hd.
    + exists d. split; [done|]. by apply Nat.ltb_lt.
    + apply bool_decide_eq_true in H1. by destruct H1.
  - intros (d & Hd & Hlen). rewrite Hd. apply andb_true_iff. split.
    + apply bool_decide_eq_true. eauto.
    + by apply Nat.ltb_lt.
Qed.

Lemma step_keeps_large i pdf st p :
  Resumable.large (files st) p = true →
  files (step i pdf st) !! p = files st !! p.
Proof.
  intros Hp. unfold Resumable.step.
  destruct (Resumable.large (files st) (path_of (info_url pdf))) eqn:Hu; [done|].
  destruct (attempt i (info_url pdf)); simpl; [done|].
  apply lookup_insert_ne. intros Heq. congruence.
Qed.

Lemma large_ext (d1 d2 : gmap string (list byte)) p :
  d1 !! p = d2 !! p → Resumable.large d1 p = Resumable.large d2 p.
Proof. intros H. unfold Resumable.large, exists_, getsize. by rewrite H. Qed.

Lemma steps_keep_large l i st p :
  Resumable.large (files st) p = true →
  files (steps i l st) !! p = files st !! p.
Proof.
  revert i st. induction l as [|pdf l IH]; intros i st Hp; simpl; [done|].
  rewrite IH.
  - by apply step_keeps_large.
  - rewrite <- Hp. apply large_ext. by apply step_keeps_large.
Qed.

(** A file of more than 1000 bytes at the path of [u] keeps the run from
    asking for [u]; the only records it adds for [u] are skip records. *)
Lemma steps_skip l i st u :
  Resumable.large (files st) (path_of u) = true →
  (∀ r, r ∈ downloaded (steps i l st) →
        r ∈ downloaded st ∨ (r_url r = u → r = skip_entry u))
  ∧ (∀ r, r ∈ failed (steps i l st) → r ∈ failed st ∨ r_url r ≠ u)
  ∧ (∀ x, x ∈ requests (steps i l st) → x ∈ requests st ∨ x ≠ u).
Proof.
  revert i st. induction l as [|pdf l IH]; intros i st Hu; simpl.
  { repeat split; auto. }
  assert (Hu' : Resumable.large (files (step i pdf st)) (path_of u) = true).
  { rewrite <- Hu. apply large_ext. by apply step_keeps_large. }
  destruct (IH (S i) _ Hu') as (Hd & Hf & Hq). clear IH.
  assert (Hstep :
    (∀ r, r ∈ downloaded (step i pdf st) →
          r ∈ downloaded st ∨ (r_url r = u → r = skip_entry u))
    ∧ (∀ r, r ∈ failed (step i pdf st) → r ∈ failed st ∨ r_url r ≠ u)
    ∧ (∀ x, x ∈ requests (step i pdf st) → x ∈ requests st ∨ x ≠ u)).
  { unfold Resumable.step.
    destruct (Resumable.large (files st) (path_of (info_url pdf))) eqn:Hp; simpl.
    - repeat split; auto.
      intros r [Hr|Hr]%elem_of_app; [by left|].
      apply list_elem_of_singleton in Hr as ->. right.
      rewrite skip_url. by intros ->.
    - assert (Hne : info_url pdf ≠ u) by (intros Heq; rewrite Heq in Hp; congruence).
      destruct (attempt i (info_url pdf)); simpl; repeat split; auto.
      + intros r [Hr|Hr]%elem_of_app; [by left|].
        apply list_elem_of_singleton in Hr as ->. by right.
      + intros x [Hx|Hx]%elem_of_app; [by left|].
        apply list_elem_of_singleton in Hx as ->. by right.
      + intros r [Hr|Hr]%elem_of_app; [by left|].
        apply list_elem_of_singleton in Hr as ->. right.
        rewrite done_url. by intros ?.
      + intros x [Hx|Hx]%elem_of_app; [by left|].
        apply list_elem_of_singleton in Hx as ->. by right. }
  destruct Hstep as (Hd1 & Hf1 & Hr1).
  repeat split.
  - intros r Hr. destruct (Hd r Hr) as [H|H]; [by apply Hd1 | by right].
  - intros r Hr. destruct (Hf r Hr) as [H|H]; [by apply Hf1 | by right].
  - intros x Hx. destruct (Hq x Hx) as [H|H]; [by apply Hr1 | by right].
Qed.

(** Every settled record a run adds has its file, of more than 1000
    bytes, on disk when the run ends. *)
Lemma steps_settle l i st r :
  r ∈ downloaded (steps i l st) →
  r ∈ downloaded st
  ∨ (settled r → Resumable.large (files (steps i l st)) (path_of (r_url r)) = true).
Proof.
  revert i st. induction l as [|pdf l IH]; intros i st Hr; simpl in *; [by left|].
  destruct (IH _ _ Hr) as [Hin|Hlate]; [|by right]. clear IH Hr.
  assert (Hnow : r ∈ downloaded st
    ∨ (settled r → Resumable.large (files (step i pdf st)) (path_of (r_url r)) = true)).
  { revert Hin. unfold Resumable.step.
    destruct (Resumable.large (files st) (path_of (info_url pdf))) eqn:Hp; simpl.
    - intros [H|H]%elem_of_app; [by left|].
      apply list_elem_of_singleton in H as ->. right. intros _.
      by rewrite skip_url.
    - destruct (attempt i (info_url pdf)) as [m|data]; simpl; [by left|].
      intros [H|H]%elem_of_app; [by left|].
      apply list_elem_of_singleton in H as ->. right.
      unfold settled. rewrite done_size, done_url. intros Hbig.
      apply large_lookup. exists data. by rewrite lookup_insert_eq. }
  destruct Hnow as [H|H]; [by left|]. right. intros Hs.
  specialize (H Hs). rewrite <- H. apply large_ext. by apply steps_keep_large.
Qed.

(** Every entry of the list gets a record with its URL. *)
Lemma steps_cover l i st pdf :
  pdf ∈ l →
  ∃ r, r ∈ (downloaded (steps i l st) ++ failed (steps i l st))%list
       ∧ r_url r = info_url pdf.
Proof.
  assert (Hmono : ∀ l i st r,
    r ∈ (downloaded st ++ failed st)%list →
    r ∈ (downloaded (steps i l st) ++ failed (steps i l st))%list).
  { clear l i st pdf. induction l as [|x l IH]; intros i st r Hr; simpl; [done|].
    apply IH. revert Hr. unfold Resumable.step.
    destruct (Resumable.large _ _); simpl.
    - rewrite !elem_of_app. tauto.
    - destruct (attempt i (info_url x)); simpl; rewrite !elem_of_app; tauto. }
  revert i st. induction l as [|x l IH]; intros i st Hin; [by apply elem_of_nil in Hin|].
  apply elem_of_cons in Hin as [->|Hin]; simpl; [|by apply IH].
  assert (∃ r, r ∈ (downloaded (step i x st) ++ failed (step i x st))%list
               ∧ r_url r = info_url x) as (r & Hr & Hu).
  { unfold Resumable.step. destruct (Resumable.large _ _); simpl.
    - exists (skip_entry (info_url x)). rewrite !elem_of_app, list_elem_of_singleton.
      split; [tauto | apply skip_url].
    - destruct (attempt i (info_url x)) as [m|data]; simpl.
      + eexists. rewrite !elem_of_app, list_elem_of_singleton.
        split; [right; right; reflexivity | reflexivity].
      + exists (done_entry (info_url x) (length data)).
        rewrite !elem_of_app, list_elem_of_singleton. split; [tauto | apply done_url]. }
  exists r. split; [by apply Hmono | done].
Qed.

(** When every file of the list is on disk with more than 1000 bytes,
    the run asks for nothing and only adds skip records. *)
Lemma steps_all_skip l i st :
  (∀ pdf, pdf ∈ l → Resumable.large (files st) (path_of (info_url pdf)) = true) →
  steps i l st
  = {| downloaded := downloaded st ++ map (λ pdf, skip_entry (info_url pdf)) l;
       failed := failed st; files := files st; requests := requests st |}.
Proof.
  revert i st. induction l as [|x l IH]; intros i st Hall; simpl.
  - rewrite app_nil_r. by destruct st.
  - assert (Hx : Resumable.large (files st) (path_of (info_url x)) = true)
      by (apply Hall; left).
    assert (Hstep : step i x st
      = {| downloaded := downloaded st ++ [skip_entry (info_url x)];
           failed := failed st; files := files st; requests := requests st |}).
    { unfold Resumable.step. by rewrite Hx. }
    rewrite Hstep, IH; simpl.
    + by rewrite <- app_assoc.
    + intros pdf Hpdf. apply Hall. by right.
Qed.

End ShapeFacts.

Lemma epstein_shape page l i st :
  DownloadAllEpstein.download_from page i l st
  = Resumable.steps DownloadAllEpstein.output_filename DownloadAllEpstein.output_path
      (λ i u, DownloadAllEpstein.fetch (page i u)) epstein_skip epstein_done i l st.
Proof. revert i st. induction l as [|x l IH]; intros i st; simpl; [done|]. by rewrite IH. Qed.

Lemma verification_shape browser l i st :
  DownloadWithVerification.download_from browser i l st
  = Resumable.steps flat_filename flat_path
      (λ i u, DownloadWithVerification.fetch (browser i u))
      verification_skip verification_done i l st.
Proof. revert i st. induction l as [|x l IH]; intros i st; simpl; [done|]. by rewrite IH. Qed.

(** ** C2: the verification gate *)

(** What [download_all_pdfs] hands on to be written starts with [%PDF]. *)
Lemma epstein_fetch_pdf r data :
  DownloadAllEpstein.fetch r = inr data → is_pdf data = true.
Proof.
  destruct r as [s|m| |m]; simpl; try discriminate.
  destruct (negb (String.eqb s "") && Py.contains "," s); [|discriminate].
  destruct (payload s) as [m|d]; [discriminate|].
  destruct (is_pdf d) eqn:Hd; [|discriminate]. by intros [= <-].
Qed.

Lemma verification_fetch_pdf v data :
  DownloadWithVerification.fetch v = inr data → is_pdf data = true.
Proof.
  assert (He : ∀ r, DownloadWithVerification.evaluate r = inr data → is_pdf data = true).
  { intros [s|m| |m]; simpl; try discriminate.
    destruct (negb (String.eqb s "") && Py.contains "," s); [|discriminate].
    destruct (payload s) as [m|d]; [discriminate|].
    destruct (is_pdf d) eqn:Hd; [|discriminate]. by intros [= <-]. }
  unfold DownloadWithVerification.fetch.
  destruct (goto_home v); [discriminate|].
  destruct (goto_pdf v) as [m|]; [|apply He].
  destruct (Py.contains "Download is starting" m); [apply He | discriminate].
Qed.

(** The gate in [download_all_pdfs]: a decoded payload without the
    signature becomes a failed record and nothing else changes. *)
Lemma epstein_gate page i pdf st data_url data :
  Resumable.large (files st) (DownloadAllEpstein.output_path (info_url pdf)) = false →
  page i (info_url pdf) = RString data_url →
  Py.contains "," data_url = true →
  payload data_url = inr data →
  is_pdf data = false →
  DownloadAllEpstein.download_one page i pdf st
  = {| downloaded := downloaded st;
       failed := failed st ++
         [{| r_url := info_url pdf;
             r_filename := DownloadAllEpstein.output_filename (info_url pdf);
             r_status := None; r_size := None; r_path := None;
             r_error := Some "Not a valid PDF file" |}];
       files := files st;
       requests := requests st ++ [info_url pdf] |}.
Proof.
  intros Hsmall Hpage Hcomma Hpay Hbad.
  unfold DownloadAllEpstein.download_one. unfold Resumable.large in Hsmall.
  rewrite Hsmall, Hpage. unfold DownloadAllEpstein.fetch.
  rewrite Hcomma, Hpay, Hbad.
  destruct data_url; [discriminate|]. reflexivity.
Qed.

(** The same gate in [download_with_age_verification]. *)
Lemma verification_gate browser i pdf st data_url data :
  Resumable.large (files st) (flat_path (info_url pdf)) = false →
  goto_home (browser i (info_url pdf)) = None →
  goto_pdf (browser i (info_url pdf)) = None →
  evaluated (browser i (info_url pdf)) = RString data_url →
  Py.contains "," data_url = true →
  payload data_url = inr data →
  is_pdf data = false →
  DownloadWithVerification.download_one browser i pdf st
  = {| downloaded := downloaded st;
       failed := failed st ++
         [{| r_url := info_url pdf; r_filename := flat_filename (info_url pdf);
             r_status := None; r_size := None; r_path := None;
             r_error := Some "Not a valid PDF" |}];
       files := files st;
       requests := requests st ++ [info_url pdf] |}.
Proof.
  intros Hsmall Hhome Hpdf Hev Hcomma Hpay Hbad.
  unfold DownloadWithVerification.download_one. unfold Resumable.large in Hsmall.
  rewrite Hsmall. unfold DownloadWithVerification.fetch.
  rewrite Hhome, Hpdf, Hev. unfold DownloadWithVerification.evaluate.
  rewrite Hcomma, Hpay, Hbad.
  destruct data_url; [discriminate|]. reflexivity.
Qed.

(** C2, the code at the failing input.  [DownloadOrchestrator.download_pdfs]
    has no signature check.  The browser answers the request for a PDF
    with an HTML page: the six bytes [<html>] are written to the output
    path and the URL is recorded as downloaded, with nothing in the failed
    list. *)
Theorem orchestrator_saves_non_pdf :
  let st := DownloadOrchestrator.download_pdfs "reference" Sample.html_reply
              [Sample.pdf_at Sample.efta1] (fresh ∅) in
  payload "data:text/html;base64,PGh0bWw+" = inr (list_byte_of_string "<html>")
  ∧ is_pdf (list_byte_of_string "<html>") = false
  ∧ downloaded st =
      [{| r_url := Sample.efta1; r_filename := "EFTA00000001.pdf";
          r_status := Some "downloaded"; r_size := Some 6;
          r_path := Some "reference/EFTA00000001.pdf"; r_error := None |}]
  ∧ failed st = []
  ∧ files st !! "reference/EFTA00000001.pdf" = Some (list_byte_of_string "<html>").
Proof. vm_compute. repeat split. Qed.

(** ** C8: running the download twice *)

Lemma resume_generic name_of path_of attempt1 attempt2 skip_entry done_entry :
  (∀ u, r_url (skip_entry u) = u) →
  (∀ u n, r_url (done_entry u n) = u) →
  (∀ u n, r_size (done_entry u n) = Some n) →
  ∀ pdfs disk,
  let st1 := Resumable.steps name_of path_of attempt1 skip_entry done_entry 1 pdfs
               (fresh disk) in
  let st2 := Resumable.steps name_of path_of attempt2 skip_entry done_entry 1 pdfs
               (fresh (files st1)) in
  (∀ r, r ∈ downloaded st1 → settled r →
        (r_url r ∉ requests st2)
        ∧ (∀ r2, r2 ∈ downloaded st2 → r_url r2 = r_url r → r2 = skip_entry (r_url r))
        ∧ (∀ r2, r2 ∈ failed st2 → r_url r2 ≠ r_url r))
  ∧ (failed st1 = [] → (∀ r, r ∈ downloaded st1 → settled r) →
     st2 = {| downloaded := map (λ pdf, skip_entry (info_url pdf)) pdfs;
              failed := []; files := files st1; requests := [] |}).
Proof.
  intros Hsu Hdu Hds pdfs disk st1 st2.
  assert (Hlarge : ∀ r, r ∈ downloaded st1 → settled r →
            Resumable.large (files st1) (path_of (r_url r)) = true).
  { intros r Hr Hs.
    destruct (steps_settle name_of path_of attempt1 skip_entry done_entry
                Hsu Hdu Hds pdfs 1 (fresh disk) r Hr) as [H|H]; [|by apply H].
    by apply elem_of_nil in H. }
  split.
  - intros r Hr Hs. specialize (Hlarge r Hr Hs).
    destruct (steps_skip name_of path_of attempt2 skip_entry done_entry
                Hsu Hdu pdfs 1 (fresh (files st1)) (r_url r) Hlarge) as (Hd & Hf & Hq).
    fold st2 in Hd, Hf, Hq. repeat split.
    + intros Hin. destruct (Hq _ Hin) as [H|H]; [by apply elem_of_nil in H | done].
    + intros r2 Hin Hu. destruct (Hd _ Hin) as [H|H]; [by apply elem_of_nil in H | auto].
    + intros r2 Hin. destruct (Hf _ Hin) as [H|H]; [by apply elem_of_nil in H | done].
  - intros Hnofail Hall. unfold st2.
    rewrite (steps_all_skip name_of path_of attempt2 skip_entry done_entry); [done|].
    intros pdf Hpdf. simpl.
    destruct (steps_cover name_of path_of attempt1 skip_entry done_entry
                Hsu Hdu pdfs 1 (fresh disk) pdf Hpdf) as (r & Hr & Hu).
    fold st1 in Hr. rewrite Hnofail, app_nil_r in Hr.
    rewrite <- Hu. by apply Hlarge, Hall.
Qed.

(** C8, counterexample.  The only URL of the list succeeds in the first
    run with a valid PDF of eight bytes.  The file stays on disk, yet the
    second run asks the browser for the same URL again and records it as
    downloaded, not as already existing. *)
Lemma small_file_fetched_again :
  let st1 := DownloadAllEpstein.download_all_pdfs Sample.tiny_pdf_reply
               [Sample.pdf_at Sample.efta1] ∅ in
  let st2 := DownloadAllEpstein.download_all_pdfs Sample.tiny_pdf_reply
               [Sample.pdf_at Sample.efta1] (files st1) in
  downloaded st1 = [epstein_done Sample.efta1 8]
  ∧ failed st1 = []
  ∧ files st1 !! DownloadAllEpstein.output_path Sample.efta1
    = Some (list_byte_of_string "%PDF-1.4")
  ∧ files st2 = files st1
  ∧ requests st2 = [Sample.efta1]
  ∧ r_status <$> downloaded st2 = [Some "downloaded"].
Proof. vm_compute. repeat split. Qed.

(** C8, as amended.  Run [download_all_pdfs] (or
    [download_with_age_verification]) twice on one list, the second time on
    the disk the first run left.  For every URL that the first run recorded
    as already existing or as downloaded with more than 1000 bytes, the
    second run does not ask the browser and records nothing but the skip
    record.  Hence, when the first run had no failure and all its records
    are of that kind, the second run consists of skip records only, asks
    for nothing and leaves the disk as it was. *)
Theorem second_run_skips :
  (∀ page1 page2 pdfs disk,
     let st1 := DownloadAllEpstein.download_all_pdfs page1 pdfs disk in
     let st2 := DownloadAllEpstein.download_all_pdfs page2 pdfs (files st1) in
     (∀ r, r ∈ downloaded st1 → settled r →
           (r_url r ∉ requests st2)
           ∧ (∀ r2, r2 ∈ downloaded st2 → r_url r2 = r_url r →
                    r2 = epstein_skip (r_url r))
           ∧ (∀ r2, r2 ∈ failed st2 → r_url r2 ≠ r_url r))
     ∧ (failed st1 = [] → (∀ r, r ∈ downloaded st1 → settled r) →
        st2 = {| downloaded := map (λ pdf, epstein_skip (info_url pdf)) pdfs;
                 failed := []; files := files st1; requests := [] |}))
  ∧ (∀ browser1 browser2 pdfs disk,
     let st1 := DownloadWithVerification.download_with_age_verification browser1 pdfs disk in
     let st2 := DownloadWithVerification.download_with_age_verification browser2 pdfs
                  (files st1) in
     (∀ r, r ∈ downloaded st1 → settled r →
           (r_url r ∉ requests st2)
           ∧ (∀ r2, r2 ∈ downloaded st2 → r_url r2 = r_url r →
                    r2 = verification_skip (r_url r))
           ∧ (∀ r2, r2 ∈ failed st2 → r_url r2 ≠ r_url r))
     ∧ (failed st1 = [] → (∀ r, r ∈ downloaded st1 → settled r) →
        st2 = {| downloaded := map (λ pdf, verification_skip (info_url pdf)) pdfs;
                 failed := []; files := files st1; requests := [] |})).
Proof.
  split.
  - intros page1 page2 pdfs disk.
    unfold DownloadAllEpstein.download_all_pdfs. rewrite !epstein_shape.
    by apply resume_generic.
  - intros browser1 browser2 pdfs disk.
    unfold DownloadWithVerification.download_with_age_verification.
    rewrite !verification_shape.
    by apply resume_generic.
Qed.

Lemma second_run_skips_witness :
  let st1 := DownloadAllEpstein.download_all_pdfs Sample.large_pdf_reply
               [Sample.pdf_at Sample.efta1] ∅ in
  downloaded st1 = [epstein_done Sample.efta1 1206]
  ∧ DownloadAllEpstein.download_all_pdfs Sample.offline
      [Sample.pdf_at Sample.efta1] (files st1)
    = {| downloaded := [epstein_skip Sample.efta1]; failed := [];
         files := files st1; requests := [] |}.
Proof.
  split; [by vm_compute|].
  apply (proj2 (proj1 second_run_skips Sample.large_pdf_reply Sample.offline
                  [Sample.pdf_at Sample.efta1] ∅)).
  - by vm_compute.
  - intros r Hr. vm_compute in Hr.
    apply list_elem_of_singleton in Hr as ->. vm_compute. lia.
Defined.

(** ** C3: one record per entry of the list *)

Lemma orchestrator_step_urls dir page i pdf st :
  record_urls (DownloadOrchestrator.download_one dir page i pdf st)
  ≡ₚ record_urls st ++ [info_url pdf].
Proof.
  unfold record_urls, DownloadOrchestrator.download_one.
  destruct (exists_ _ _); simpl.
  - rewrite !map_app. simpl. rewrite <- !app_assoc. apply Permutation_app_head.
    apply Permutation_app_comm.
  - destruct (DownloadOrchestrator.fetch _); simpl.
    + by rewrite !map_app, <- !app_assoc.
    + rewrite !map_app. simpl. rewrite <- !app_assoc. apply Permutation_app_head.
      apply Permutation_app_comm.
Qed.

Lemma orchestrator_urls dir page l i st :
  record_urls (DownloadOrchestrator.download_from dir page i l st)
  ≡ₚ record_urls st ++ map info_url l.
Proof.
  revert i st. induction l as [|pdf l IH]; intros i st; simpl.
  - by rewrite app_nil_r.
  - rewrite IH, orchestrator_step_urls. by rewrite <- app_assoc.
Qed.

(** The browser is only asked for URLs of the list. *)
Lemma orchestrator_requests dir page l i st :
  requests (DownloadOrchestrator.download_from dir page i l st)
  ⊆ (requests st ++ map info_url l)%list.
Proof.
  revert i st. induction l as [|pdf l IH]; intros i st; simpl.
  - by rewrite app_nil_r.
  - etrans; [apply IH|]. unfold DownloadOrchestrator.download_one.
    destruct (exists_ _ _); simpl.
    + intros x. rewrite !elem_of_app, elem_of_cons. tauto.
    + destruct (DownloadOrchestrator.fetch _); simpl;
        intros x; rewrite !elem_of_app, !elem_of_cons, elem_of_nil; tauto.
Qed.

(** The entries a loop reaches. *)
Lemma reached_all l :
  Forall (λ pdf, accepted pdf = true) l → reached l = l ∧ forallb accepted l = true.
Proof.
  induction 1 as [|pdf l Hpdf _ [IH1 IH2]]; simpl; [done|].
  by rewrite Hpdf, IH1, IH2.
Qed.

Lemma accepted_all l :
  forallb accepted l = true ↔ Forall (λ pdf, accepted pdf = true) l.
Proof.
  induction l as [|pdf l IH]; simpl; [by split; [constructor|]|].
  rewrite andb_true_iff, IH. split.
  - intros [H1 H2]. by constructor.
  - intros H. inversion H. by split.
Qed.

Lemma accepted_some l :
  forallb accepted l = false ↔ Exists (λ pdf, accepted pdf = false) l.
Proof.
  induction l as [|pdf l IH]; simpl.
  - split; [discriminate | intros H; inversion H].
  - rewrite andb_false_iff, IH. split.
    + intros [H|H]; [by left | by right].
    + intros H. inversion H; [by left | by right].
Qed.

Lemma reached_until before pdf after :
  Forall (λ pdf, accepted pdf = true) before → accepted pdf = false →
  reached (before ++ pdf :: after) = before
  ∧ forallb accepted (before ++ pdf :: after) = false.
Proof.
  intros Hb Hpdf. induction Hb as [|x l Hx _ [IH1 IH2]]; simpl.
  - by rewrite Hpdf.
  - by rewrite Hx, IH1, IH2.
Qed.

(** The loop on any list is the loop over the entries it reaches. *)
Lemma orchestrator_until dir page l i st :
  DownloadOrchestrator.download_until dir page i l st
  = (DownloadOrchestrator.download_from dir page i (reached l) st,
     if forallb accepted l then None else Some "ValueError").
Proof.
  revert i st. induction l as [|pdf l IH]; intros i st; simpl; [done|].
  assert (Hr : Url.rejects (info_url pdf) = negb (accepted pdf))
    by (unfold accepted; by rewrite negb_involutive).
  rewrite Hr. destruct (accepted pdf); simpl; [apply IH | done].
Qed.

Lemma epstein_until page l i st :
  DownloadAllEpstein.download_until page i l st
  = (DownloadAllEpstein.download_from page i (reached l) st,
     if forallb accepted l then None else Some "ValueError").
Proof.
  revert i st. induction l as [|pdf l IH]; intros i st; simpl; [done|].
  assert (Hr : Url.rejects (info_url pdf) = negb (accepted pdf))
    by (unfold accepted; by rewrite negb_involutive).
  rewrite Hr. destruct (accepted pdf); simpl; [apply IH | done].
Qed.

(** C3, counterexample.  The claim has no two records share a URL.  The
    list names one URL twice and the browser is offline: the call returns
    and has recorded the URL twice. *)
Lemma duplicate_url_recorded_twice :
  let result := DownloadOrchestrator.download_pdfs_call "reference" Sample.offline
                  [Sample.pdf_at Sample.efta1; Sample.pdf_at Sample.efta1] (fresh ∅) in
  result.2 = None
  ∧ r_url <$> failed result.1 = [Sample.efta1; Sample.efta1]
  ∧ record_urls result.1 = [Sample.efta1; Sample.efta1]
  ∧ ¬ NoDup (record_urls result.1).
Proof.
  vm_compute. repeat split.
  intros H. apply NoDup_cons in H as [H _]. apply H. left.
Qed.

(** The claim also has no failure stop the entries after it.  The second
    URL of this list has an authority that opens a square bracket and
    does not close it: [urlparse] raises on it, outside the inner [try].
    The call ends with the [ValueError], and the third entry, a good URL,
    has no record. *)
Lemma rejected_url_ends_the_call :
  let result := DownloadOrchestrator.download_pdfs_call "reference" Sample.offline
                  [Sample.pdf_at Sample.efta1;
                   Sample.pdf_at "https://[www.justice.gov/x.pdf";
                   Sample.pdf_at Sample.memo_a] (fresh ∅) in
  Url.rejects "https://[www.justice.gov/x.pdf" = true
  ∧ Url.rejects Sample.memo_a = false
  ∧ result.2 = Some "ValueError"
  ∧ record_urls result.1 = [Sample.efta1].
Proof. vm_compute. by repeat split. Qed.

(** C3, as amended.  On a list whose URLs [urlparse] all accepts, and
    whatever the browser returns, a call of [download_pdfs] on a new
    orchestrator returns and leaves one record per entry of the list:
    the manifest's total count is the length of the list, the URLs of
    the records are the URLs of the list up to order, every entry has
    its record, and the records' URLs are pairwise distinct when the
    URLs of the list are.  On any other list the call ends with a
    [ValueError] at the first URL that [urlparse] rejects: the entries
    before it have their records, one each, and neither it nor any entry
    after it has been processed. *)
Theorem manifest_complete dir page pdfs disk :
  let result := DownloadOrchestrator.download_pdfs_call dir page pdfs (fresh disk) in
  let st := result.1 in
  (Forall (λ pdf, accepted pdf = true) pdfs →
     result.2 = None
     ∧ DownloadOrchestrator.total_count (DownloadOrchestrator.save_manifest st) = length pdfs
     ∧ record_urls st ≡ₚ map info_url pdfs
     ∧ (∀ pdf, pdf ∈ pdfs →
          ∃ r, r ∈ (downloaded st ++ failed st)%list ∧ r_url r = info_url pdf)
     ∧ (NoDup (map info_url pdfs) → NoDup (record_urls st)))
  ∧ (∀ before pdf after,
       pdfs = (before ++ pdf :: after)%list →
       Forall (λ pdf, accepted pdf = true) before → accepted pdf = false →
       result.2 = Some "ValueError"
       ∧ record_urls st ≡ₚ map info_url before
       ∧ length (downloaded st) + length (failed st) = length before
       ∧ requests st ⊆ map info_url before).
Proof.
  intros result st.
  assert (Hlen : ∀ (s : run) (l : list pdf_info), record_urls s ≡ₚ map info_url l →
            length (downloaded s) + length (failed s) = length l).
  { intros s l Hp. rewrite <- length_app, <- (length_map r_url).
    fold (record_urls s). by rewrite Hp, length_map. }
  split.
  - intros Hall. destruct (reached_all pdfs Hall) as [Hreach Hok].
    assert (Hperm : record_urls st ≡ₚ map info_url pdfs).
    { unfold st, result, DownloadOrchestrator.download_pdfs_call.
      rewrite orchestrator_until. simpl. by rewrite Hreach, orchestrator_urls. }
    split; [|split; [|split; [|split]]].
    + unfold result, DownloadOrchestrator.download_pdfs_call.
      rewrite orchestrator_until. simpl. by rewrite Hok.
    + simpl. by apply Hlen.
    + done.
    + intros pdf Hpdf.
      assert (Hin : info_url pdf ∈ record_urls st).
      { rewrite Hperm. apply list_elem_of_fmap. by exists pdf. }
      apply list_elem_of_fmap in Hin as (r & Hu & Hr). by exists r.
    + intros Hnd. by rewrite Hperm.
  - intros before pdf after -> Hb Hpdf.
    destruct (reached_until before pdf after Hb Hpdf) as [Hreach Hbad].
    assert (Hst : st = DownloadOrchestrator.download_pdfs dir page before (fresh disk)).
    { unfold st, result, DownloadOrchestrator.download_pdfs_call.
      rewrite orchestrator_until. simpl. by rewrite Hreach. }
    assert (Hperm : record_urls st ≡ₚ map info_url before).
    { rewrite Hst. unfold DownloadOrchestrator.download_pdfs. by rewrite orchestrator_urls. }
    split; [|split; [|split]].
    + unfold result, DownloadOrchestrator.download_pdfs_call.
      rewrite orchestrator_until. simpl. by rewrite Hbad.
    + done.
    + by apply Hlen.
    + rewrite Hst. unfold DownloadOrchestrator.download_pdfs.
      apply (orchestrator_requests dir page before 1 (fresh disk)).
Qed.

Lemma manifest_complete_witness :
  NoDup (record_urls
    (DownloadOrchestrator.download_pdfs_call "reference" Sample.offline
       [Sample.pdf_at Sample.efta1; Sample.pdf_at "https://www.justice.gov/b.pdf"]
       (fresh ∅)).1).
Proof.
  apply (manifest_complete "reference" Sample.offline
           [Sample.pdf_at Sample.efta1; Sample.pdf_at "https://www.justice.gov/b.pdf"] ∅).
  - repeat constructor.
  - apply (bool_decide_unpack _). by vm_compute.
Defined.

(** ** C10: two URLs, one file name *)

Lemma slength_app (a b : string) :
  String.length (a ++ b) = String.length a + String.length b.
Proof. induction a as [|x a IH]; simpl; [done|]. by f_equal. Qed.

Lemma sapp_inj_r (a b c : string) : a ++ c = b ++ c → a = b.
Proof.
  revert b. induction a as [|x a IH]; intros [|y b] Heq; [done| | |].
  - apply (f_equal String.length) in Heq.
    rewrite (slength_app (String y b) c), (slength_app "" c) in Heq. simpl in Heq. lia.
  - apply (f_equal String.length) in Heq.
    rewrite (slength_app (String x a) c), (slength_app "" c) in Heq. simpl in Heq. lia.
  - change (String x (a ++ c) = String y (b ++ c)) in Heq.
    injection Heq as -> Heq. f_equal. by apply IH.
Qed.

Lemma exists_insert (disk : gmap string (list byte)) p data :
  exists_ (<[p := data]> disk) p = true.
Proof. unfold exists_. apply bool_decide_eq_true. rewrite lookup_insert_eq. eauto. Qed.

Lemma getsize_insert (disk : gmap string (list byte)) p data :
  getsize (<[p := data]> disk) p = length data.
Proof. unfold getsize. by rewrite lookup_insert_eq. Qed.

Lemma derive_filename_pdf i u :
  Url.basename (Url.path (Url.urlparse u)) ≠ "" →
  Py.endswith ".pdf" (Url.basename (Url.path (Url.urlparse u))) = true →
  DownloadOrchestrator.derive_filename i u = Url.basename (Url.path (Url.urlparse u)).
Proof.
  intros Hne Hpdf. unfold DownloadOrchestrator.derive_filename.
  rewrite Hpdf. apply String.eqb_neq in Hne. by rewrite Hne.
Qed.

(** C10, counterexample.  The claim gives two URLs with the same last path
    segment the same file name.  Here the shared segment is [doc], which
    does not end in [.pdf]: each URL gets a name from its own index, and
    both are fetched. *)
Lemma shared_segment_two_names :
  let st := DownloadOrchestrator.download_pdfs "reference" Sample.tiny_pdf_reply
              [Sample.pdf_at Sample.doc_a; Sample.pdf_at Sample.doc_b] (fresh ∅) in
  Sample.doc_a ≠ Sample.doc_b
  ∧ Url.basename (Url.path (Url.urlparse Sample.doc_a)) = "doc"
  ∧ Url.basename (Url.path (Url.urlparse Sample.doc_b)) = "doc"
  ∧ r_filename <$> downloaded st = ["epstein_doc_1.pdf"; "epstein_doc_2.pdf"]
  ∧ r_status <$> downloaded st = [Some "downloaded"; Some "downloaded"]
  ∧ requests st = [Sample.doc_a; Sample.doc_b].
Proof. vm_compute. repeat split. discriminate. Qed.

(** A plain name is not empty. *)
Lemma plain_name_nonempty name : plain_name name = true → name ≠ "".
Proof. intros H ->. discriminate. Qed.

(** C10, as amended.  In [DownloadOrchestrator.download_pdfs] two URLs
    that [urlparse] accepts and whose paths end in the same segment get
    the same file name when that segment ends in [.pdf] and is a name
    [open] can create; processed one after the other on a disk without
    that file, the first is fetched and saved and the second is recorded
    as already existing without a request.  A URL that [urlparse]
    accepts and whose last segment is empty or lacks the suffix gets the
    name [epstein_doc_<index>.pdf] of its own position, and these names
    differ from position to position.
    In [download_all] the name is the text after the last slash of the
    URL with [%20] replaced; two URLs with one such name, when [open] can
    create it, share the file, and the second is counted as downloaded
    without a request when the first delivered a PDF of more than 1000
    bytes. *)
Theorem same_name_second_skipped :
  (∀ dir page i pdf1 pdf2 st name data,
     accepted pdf1 = true → accepted pdf2 = true →
     Url.basename (Url.path (Url.urlparse (info_url pdf1))) = name →
     Url.basename (Url.path (Url.urlparse (info_url pdf2))) = name →
     Py.endswith ".pdf" name = true → plain_name name = true →
     exists_ (files st) (Url.join dir name) = false →
     DownloadOrchestrator.fetch (page i (info_url pdf1)) = inr data →
     DownloadOrchestrator.derive_filename i (info_url pdf1) = name
     ∧ DownloadOrchestrator.derive_filename (S i) (info_url pdf2) = name
     ∧ DownloadOrchestrator.download_from dir page i [pdf1; pdf2] st
       = {| downloaded := downloaded st ++
              [{| r_url := info_url pdf1; r_filename := name;
                  r_status := Some "downloaded"; r_size := Some (length data);
                  r_path := Some (Url.join dir name); r_error := None |};
               {| r_url := info_url pdf2; r_filename := name;
                  r_status := Some "already_exists"; r_size := None;
                  r_path := Some (Url.join dir name); r_error := None |}];
            failed := failed st;
            files := <[Url.join dir name := data]> (files st);
            requests := requests st ++ [info_url pdf1] |})
  ∧ (∀ i url,
       Url.rejects url = false →
       let segment := Url.basename (Url.path (Url.urlparse url)) in
       segment = "" ∨ Py.endswith ".pdf" segment = false →
       DownloadOrchestrator.derive_filename i url = "epstein_doc_" ++ Py.str i ++ ".pdf")
  ∧ (∀ i j : nat, i ≠ j →
       "epstein_doc_" ++ Py.str i ++ ".pdf" ≠ "epstein_doc_" ++ Py.str j ++ ".pdf")
  ∧ (∀ browser i pdf1 pdf2 st data,
     flat_filename (info_url pdf1) = flat_filename (info_url pdf2) →
     plain_name (flat_filename (info_url pdf1)) = true →
     Resumable.large (DownloadAll.files st) (flat_path (info_url pdf1)) = false →
     DownloadAll.fetch (browser i (info_url pdf1)) = Some data →
     1000 < length data →
     DownloadAll.download_from browser i [pdf1; pdf2] st
     = {| DownloadAll.downloaded := DownloadAll.downloaded st + 1 + 1;
          DownloadAll.failed := DownloadAll.failed st;
          DownloadAll.total_size := DownloadAll.total_size st + length data + length data;
          DownloadAll.files := <[flat_path (info_url pdf1) := data]> (DownloadAll.files st);
          DownloadAll.requests := DownloadAll.requests st ++ [info_url pdf1] |}).
Proof.
  split; [|split; [|split]].
  - intros dir page i pdf1 pdf2 st name data _ _ H1 H2 Hpdf Hplain Hfree Hfetch.
    pose proof (plain_name_nonempty name Hplain) as Hne.
    assert (D1 : DownloadOrchestrator.derive_filename i (info_url pdf1) = name).
    { rewrite <- H1. apply derive_filename_pdf; by rewrite H1. }
    assert (D2 : DownloadOrchestrator.derive_filename (S i) (info_url pdf2) = name).
    { rewrite <- H2. apply derive_filename_pdf; by rewrite H2. }
    repeat split; [done | done |].
    simpl. unfold DownloadOrchestrator.download_one at 2.
    rewrite D1, Hfree, Hfetch. unfold DownloadOrchestrator.download_one.
    rewrite D2. simpl. rewrite exists_insert. by rewrite <- app_assoc.
  - intros i url _ segment Hseg. unfold DownloadOrchestrator.derive_filename. fold segment.
    destruct Hseg as [->| ->]; [done | by rewrite orb_true_r].
  - intros i j Hij Heq. apply String.app_inj in Heq.
    assert (Hs : Py.str i = Py.str j) by by eapply sapp_inj_r.
    apply Hij. unfold Py.str in Hs. by apply pretty_nat_inj in Hs.
  - intros browser i pdf1 pdf2 st data Hname _ Hsmall Hfetch Hlen.
    assert (Hpath : flat_path (info_url pdf2) = flat_path (info_url pdf1)).
    { unfold flat_path. by rewrite Hname. }
    simpl. unfold DownloadAll.download_one at 2. unfold Resumable.large in Hsmall.
    rewrite Hsmall, Hfetch. unfold DownloadAll.download_one. simpl.
    rewrite Hpath, exists_insert, getsize_insert.
    apply Nat.ltb_lt in Hlen. by rewrite Hlen.
Qed.

Lemma same_name_second_skipped_witness :
  Sample.memo_a ≠ Sample.memo_b
  ∧ DownloadOrchestrator.download_from "reference" Sample.tiny_pdf_reply 1
      [Sample.pdf_at Sample.memo_a; Sample.pdf_at Sample.memo_b] (fresh ∅)
    = {| downloaded :=
           [{| r_url := Sample.memo_a; r_filename := "memo.pdf";
               r_status := Some "downloaded"; r_size := Some 8;
               r_path := Some "reference/memo.pdf"; r_error := None |};
            {| r_url := Sample.memo_b; r_filename := "memo.pdf";
               r_status := Some "already_exists"; r_size := None;
               r_path := Some "reference/memo.pdf"; r_error := None |}];
         failed := [];
         files := {[ "reference/memo.pdf" := list_byte_of_string "%PDF-1.4" ]};
         requests := [Sample.memo_a] |}.
Proof.
  split; [discriminate|].
  apply (proj1 same_name_second_skipped "reference" Sample.tiny_pdf_reply 1
           (Sample.pdf_at Sample.memo_a) (Sample.pdf_at Sample.memo_b) (fresh ∅)
           "memo.pdf" (list_byte_of_string "%PDF-1.4")); reflexivity.
Defined.

(** ** The crawlers, one call at a time *)

Section SpiderFacts.

Variable E : tools.

Lemma spider_store url d pdfs known :
  ∃ extra,
    fold_left (SpiderTool.store_pdf url d) pdfs known = (known ++ extra)%list
    ∧ Forall (λ p, SpiderTool.p_depth p = d ∧ SpiderTool.p_source_page p = url) extra
    ∧ (NoDup (map SpiderTool.p_url known) →
       NoDup (map SpiderTool.p_url (known ++ extra)%list)).
Proof.
  revert known. induction pdfs as [|pdf pdfs IH]; intros known; simpl.
  - exists []. rewrite app_nil_r. by repeat split.
  - unfold SpiderTool.store_pdf at 2. case_bool_decide as Hin.
    + apply IH.
    + destruct (IH (known ++
        [{| SpiderTool.p_url := SpiderTool.l_url pdf;
            SpiderTool.p_text := SpiderTool.l_text pdf;
            SpiderTool.p_domain := SpiderTool.l_domain pdf;
            SpiderTool.p_source_page := url; SpiderTool.p_depth := d |}])%list)
        as (extra & Heq & Hall & Hnd).
      eexists (_ :: extra). rewrite Heq, <- app_assoc. simpl. repeat split.
      * constructor; [by simpl | done].
      * intros Hk. rewrite (cons_middle _ known extra), app_assoc. apply Hnd.
        rewrite map_app. simpl. apply NoDup_app. repeat split; [done | |].
        -- intros x Hx Hx'. apply list_elem_of_singleton in Hx' as ->. done.
        -- apply NoDup_singleton.
Qed.

(** A call either returns at once, or marks the page, fetches it and at
    most appends PDFs found there. *)
Lemma crawl_page_cases url d st :
  let st' := (SpiderTool.crawl_page E url d st).1 in
  (SpiderTool.crawl_page E url d st = (st, None)
   ∧ ((SpiderTool.max_depth st < d)%Z ∨ url ∈ SpiderTool.visited st))
  ∨ ((d ≤ SpiderTool.max_depth st)%Z
     ∧ (url ∉ SpiderTool.visited st)
     ∧ SpiderTool.max_depth st' = SpiderTool.max_depth st
     ∧ SpiderTool.visited st' = {[url]} ∪ SpiderTool.visited st
     ∧ SpiderTool.fetched st' = (SpiderTool.fetched st ++ [(url, d)])%list
     ∧ ∃ pdfs, SpiderTool.discovered_pdfs st'
               = fold_left (SpiderTool.store_pdf url d) pdfs (SpiderTool.discovered_pdfs st)).
Proof.
  unfold SpiderTool.crawl_page.
  destruct (SpiderTool.max_depth st <? d)%Z eqn:Hd; simpl.
  { left. split; [done|]. left. by apply Z.ltb_lt. }
  case_bool_decide as Hv; simpl.
  { left. split; [done|]. by right. }
  right. apply Z.ltb_ge in Hd.
  destruct (fetch_page E url) as [html|]; simpl.
  2: { repeat split; try done. by exists []. }
  destruct (String.eqb html ""); simpl.
  { repeat split; try done. by exists []. }
  destruct (challenge html); simpl.
  { repeat split; try done. by exists []. }
  destruct (SpiderTool.extract_links_htmlq E html url) as [pdfs nav]; simpl.
  repeat split; try done. by exists pdfs.
Qed.

Lemma crawl_page_ok url d st :
  spider_ok st → spider_ok (SpiderTool.crawl_page E url d st).1.
Proof.
  intros Hok.
  destruct (crawl_page_cases url d st) as [[Heq _]|(Hd & Hv & Hm & Hvs & Hfs & pdfs & Hps)].
  { by rewrite Heq. }
  destruct Hok as (Hp & Hf & Hnd & Hvis & Hu).
  destruct (spider_store url d pdfs (SpiderTool.discovered_pdfs st))
    as (extra & Heq & Hextra & Hnd').
  unfold spider_ok. rewrite Hm, Hfs, Hps, Heq, Hvs. repeat split.
  - apply Forall_app. split; [done|].
    eapply Forall_impl; [exact Hextra|]. intros p [-> _]. done.
  - apply Forall_app. split; [done|]. by constructor.
  - rewrite fmap_app. simpl. apply NoDup_app. repeat split; [done | | apply NoDup_singleton].
    intros x Hx Hx'. apply list_elem_of_singleton in Hx' as ->. by apply Hv, Hvis.
  - rewrite fmap_app. simpl. rewrite elem_of_union, elem_of_singleton, elem_of_app,
      list_elem_of_singleton. intros [->|H]; [by right | left; by apply Hvis].
  - rewrite fmap_app. simpl. rewrite elem_of_union, elem_of_singleton, elem_of_app,
      list_elem_of_singleton. intros [H| ->]; [right; by apply Hvis | by left].
  - by apply Hnd'.
Qed.

Lemma spider_session_depth calls st :
  SpiderTool.max_depth (SpiderTool.session E calls st) = SpiderTool.max_depth st.
Proof.
  unfold SpiderTool.session.
  revert st. induction calls as [|[u d] calls IH]; intros st; simpl; [done|].
  rewrite IH.
  destruct (crawl_page_cases u d st) as [[Heq _]|(_ & _ & Hm & _)]; [by rewrite Heq | done].
Qed.

Lemma spider_session_ok calls st :
  spider_ok st → spider_ok (SpiderTool.session E calls st).
Proof.
  revert st. induction calls as [|[u d] calls IH]; intros st Hok; simpl; [done|].
  apply IH. by apply crawl_page_ok.
Qed.

Lemma spider_init_ok start limit : spider_ok (SpiderTool.init start limit).
Proof.
  unfold spider_ok, SpiderTool.init; simpl. repeat split; try by constructor.
  - intros H. by apply not_elem_of_empty in H.
  - intros H. by apply elem_of_nil in H.
Qed.

(** First seen wins: a call leaves the PDFs recorded so far in place. *)
Lemma spider_pdfs_kept url d st :
  ∃ extra, SpiderTool.discovered_pdfs (SpiderTool.crawl_page E url d st).1
           = (SpiderTool.discovered_pdfs st ++ extra)%list
           ∧ Forall (λ p, SpiderTool.p_depth p = d ∧ SpiderTool.p_source_page p = url) extra.
Proof.
  destruct (crawl_page_cases url d st) as [[Heq _]|(_ & _ & _ & _ & _ & pdfs & Hps)].
  - rewrite Heq. exists []. by rewrite app_nil_r.
  - destruct (spider_store url d pdfs (SpiderTool.discovered_pdfs st))
      as (extra & Heq & Hextra & _).
    exists extra. by rewrite Hps, Heq.
Qed.

(** The fetch log only grows. *)
Lemma spider_session_fetched calls st :
  ∃ later, SpiderTool.fetched (SpiderTool.session E calls st)
           = (SpiderTool.fetched st ++ later)%list.
Proof.
  unfold SpiderTool.session.
  revert st. induction calls as [|[u d] calls IH]; intros st; simpl.
  - exists []. by rewrite app_nil_r.
  - destruct (IH (SpiderTool.crawl_page E u d st).1) as (later & ->).
    destruct (crawl_page_cases u d st) as [[Heq _]|(_ & _ & _ & _ & Hf & _)].
    + rewrite Heq. by exists later.
    + rewrite Hf, <- app_assoc. by eexists.
Qed.

End SpiderFacts.

Section DiscoveryFacts.

Variable E : tools.

Lemma discovery_store_pdfs page d pdfs known :
  ∃ extra,
    fold_left (DiscoveryTool.store_pdf page d) pdfs known = (known ++ extra)%list
    ∧ Forall (λ p, DiscoveryTool.p_depth p = d ∧ DiscoveryTool.p_source_page p = page) extra
    ∧ map DiscoveryTool.p_url extra = map DiscoveryTool.k_url pdfs.
Proof.
  revert known. induction pdfs as [|pdf pdfs IH]; intros known; simpl.
  - exists []. rewrite app_nil_r. by repeat split.
  - unfold DiscoveryTool.store_pdf at 2.
    destruct (IH (known ++
      [{| DiscoveryTool.p_url := DiscoveryTool.k_url pdf;
          DiscoveryTool.p_text := DiscoveryTool.k_text pdf;
          DiscoveryTool.p_domain := DiscoveryTool.k_domain pdf;
          DiscoveryTool.p_source_page := page; DiscoveryTool.p_depth := d |}])%list)
      as (extra & Heq & Hall & Hmap).
    eexists (_ :: extra). rewrite Heq, <- app_assoc. simpl. repeat split.
    + constructor; [by simpl | done].
    + by rewrite Hmap.
Qed.

Lemma discovery_store_links html page d nav known :
  ∃ extra,
    fold_left (DiscoveryTool.store_link E html page d) nav known = (known ++ extra)%list
    ∧ Forall (λ l, DiscoveryTool.depth l = d ∧ DiscoveryTool.source_page l = page) extra
    ∧ (NoDup (map DiscoveryTool.url known) →
       NoDup (map DiscoveryTool.url (known ++ extra)%list)).
Proof.
  revert known. induction nav as [|l nav IH]; intros known; simpl.
  - exists []. rewrite app_nil_r. by repeat split.
  - unfold DiscoveryTool.store_link at 2. case_bool_decide as Hin.
    + apply IH.
    + destruct (IH (known ++
        [{| DiscoveryTool.url := DiscoveryTool.k_url l;
            DiscoveryTool.text := DiscoveryTool.k_text l;
            DiscoveryTool.context := DiscoveryTool._extract_context E html (DiscoveryTool.k_url l);
            DiscoveryTool.depth := d; DiscoveryTool.source_page := page |}])%list)
        as (extra & Heq & Hall & Hnd).
      eexists (_ :: extra). rewrite Heq, <- app_assoc. simpl. repeat split.
      * constructor; [by simpl | done].
      * intros Hk. rewrite (cons_middle _ known extra), app_assoc. apply Hnd.
        rewrite map_app. simpl. apply NoDup_app. repeat split; [done | |].
        -- intros x Hx Hx'. apply list_elem_of_singleton in Hx' as ->. done.
        -- apply NoDup_singleton.
Qed.

Lemma discover_cases page d st :
  let st' := (DiscoveryTool.discover_from_page E page d st).1 in
  (DiscoveryTool.discover_from_page E page d st = (st, DiscoveryTool.Skipped page)
   ∧ ((DiscoveryTool.max_depth st < d)%Z ∨ page ∈ DiscoveryTool.visited st))
  ∨ ((d ≤ DiscoveryTool.max_depth st)%Z
     ∧ (page ∉ DiscoveryTool.visited st)
     ∧ DiscoveryTool.max_depth st' = DiscoveryTool.max_depth st
     ∧ DiscoveryTool.visited st' = {[page]} ∪ DiscoveryTool.visited st
     ∧ DiscoveryTool.fetched st' = (DiscoveryTool.fetched st ++ [(page, d)])%list
     ∧ (∃ pdfs, DiscoveryTool.discovered_pdfs st'
                = fold_left (DiscoveryTool.store_pdf page d) pdfs
                    (DiscoveryTool.discovered_pdfs st))
     ∧ (∃ html nav, DiscoveryTool.discovered_links st'
                = fold_left (DiscoveryTool.store_link E html page d) nav
                    (DiscoveryTool.discovered_links st))).
Proof.
  unfold DiscoveryTool.discover_from_page.
  destruct (DiscoveryTool.max_depth st <? d)%Z eqn:Hd; simpl.
  { left. split; [done|]. left. by apply Z.ltb_lt. }
  case_bool_decide as Hv; simpl.
  { left. split; [done|]. by right. }
  right. apply Z.ltb_ge in Hd.
  destruct (fetch_page E page) as [html|]; simpl.
  2: { repeat split; try done; [by exists [] | by exists "", []]. }
  destruct (String.eqb html ""); simpl.
  { repeat split; try done; [by exists [] | by exists "", []]. }
  destruct (challenge html); simpl.
  { repeat split; try done; [by exists [] | by exists "", []]. }
  repeat split; try done; [by eexists | by eexists _, _].
Qed.

Lemma discover_ok page d st :
  discovery_ok st → discovery_ok (DiscoveryTool.discover_from_page E page d st).1.
Proof.
  intros Hok.
  destruct (discover_cases page d st)
    as [[Heq _]|(Hd & Hv & Hm & Hvs & Hfs & (pdfs & Hps) & (html & nav & Hls))].
  { by rewrite Heq. }
  destruct Hok as (Hp & Hl & Hf & Hnd & Hvis & Hu).
  destruct (discovery_store_pdfs page d pdfs (DiscoveryTool.discovered_pdfs st))
    as (extra & Heq & Hextra & _).
  destruct (discovery_store_links html page d nav (DiscoveryTool.discovered_links st))
    as (extra' & Heq' & Hextra' & Hnd').
  unfold discovery_ok. rewrite Hm, Hfs, Hps, Heq, Hls, Heq', Hvs. repeat split.
  - apply Forall_app. split; [done|].
    eapply Forall_impl; [exact Hextra|]. intros p [-> _]. done.
  - apply Forall_app. split; [done|].
    eapply Forall_impl; [exact Hextra'|]. intros p [-> _]. done.
  - apply Forall_app. split; [done|]. by constructor.
  - rewrite fmap_app. simpl. apply NoDup_app. repeat split; [done | | apply NoDup_singleton].
    intros x Hx Hx'. apply list_elem_of_singleton in Hx' as ->. by apply Hv, Hvis.
  - rewrite fmap_app. simpl. rewrite elem_of_union, elem_of_singleton, elem_of_app,
      list_elem_of_singleton. intros [->|H]; [by right | left; by apply Hvis].
  - rewrite fmap_app. simpl. rewrite elem_of_union, elem_of_singleton, elem_of_app,
      list_elem_of_singleton. intros [H| ->]; [right; by apply Hvis | by left].
  - by apply Hnd'.
Qed.

Lemma discovery_session_depth calls st :
  DiscoveryTool.max_depth (DiscoveryTool.session E calls st) = DiscoveryTool.max_depth st.
Proof.
  unfold DiscoveryTool.session.
  revert st. induction calls as [|[u d] calls IH]; intros st; simpl; [done|].
  rewrite IH.
  destruct (discover_cases u d st) as [[Heq _]|(_ & _ & Hm & _)]; [by rewrite Heq | done].
Qed.

Lemma discovery_session_ok calls st :
  discovery_ok st → discovery_ok (DiscoveryTool.session E calls st).
Proof.
  revert st. induction calls as [|[u d] calls IH]; intros st Hok; simpl; [done|].
  apply IH. by apply discover_ok.
Qed.

Lemma discovery_init_ok base limit : discovery_ok (DiscoveryTool.init base limit).
Proof.
  unfold discovery_ok, DiscoveryTool.init; simpl. repeat split; try by constructor.
  - intros H. by apply not_elem_of_empty in H.
  - intros H. by apply elem_of_nil in H.
Qed.

Lemma discovery_session_fetched calls st :
  ∃ later, DiscoveryTool.fetched (DiscoveryTool.session E calls st)
           = (DiscoveryTool.fetched st ++ later)%list.
Proof.
  unfold DiscoveryTool.session.
  revert st. induction calls as [|[u d] calls IH]; intros st; simpl.
  - exists []. by rewrite app_nil_r.
  - destruct (IH (DiscoveryTool.discover_from_page E u d st).1) as (later & ->).
    destruct (discover_cases u d st) as [[Heq _]|(_ & _ & _ & _ & Hf & _)].
    + rewrite Heq. by exists later.
    + rewrite Hf, <- app_assoc. by eexists.
Qed.

End DiscoveryFacts.

(** ** C4: the depth bound *)

(** C4.  In a session of either crawler started from a new object with
    depth limit [limit], every recorded link (PDF or navigation link) has a
    depth of at most [limit], and so has every call of the page fetcher; a
    call deeper than the limit returns without fetching.  The limit is
    inclusive: a call at exactly the limit on a page not yet visited
    fetches the page. *)
Theorem depth_bound E :
  (∀ start limit calls,
     let st := SpiderTool.session E calls (SpiderTool.init start limit) in
     Forall (λ p, (SpiderTool.p_depth p ≤ limit)%Z) (SpiderTool.discovered_pdfs st)
     ∧ Forall (λ c, (c.2 ≤ limit)%Z) (SpiderTool.fetched st))
  ∧ (∀ st url d, (SpiderTool.max_depth st < d)%Z →
       SpiderTool.crawl_page E url d st = (st, None))
  ∧ (∀ st url, url ∉ SpiderTool.visited st →
       SpiderTool.fetched (SpiderTool.crawl_page E url (SpiderTool.max_depth st) st).1
       = (SpiderTool.fetched st ++ [(url, SpiderTool.max_depth st)])%list)
  ∧ (∀ base limit calls,
     let st := DiscoveryTool.session E calls (DiscoveryTool.init base limit) in
     Forall (λ p, (DiscoveryTool.p_depth p ≤ limit)%Z) (DiscoveryTool.discovered_pdfs st)
     ∧ Forall (λ l, (DiscoveryTool.depth l ≤ limit)%Z) (DiscoveryTool.discovered_links st)
     ∧ Forall (λ c, (c.2 ≤ limit)%Z) (DiscoveryTool.fetched st))
  ∧ (∀ st page d, (DiscoveryTool.max_depth st < d)%Z →
       DiscoveryTool.discover_from_page E page d st = (st, DiscoveryTool.Skipped page))
  ∧ (∀ st page, page ∉ DiscoveryTool.visited st →
       DiscoveryTool.fetched
         (DiscoveryTool.discover_from_page E page (DiscoveryTool.max_depth st) st).1
       = (DiscoveryTool.fetched st ++ [(page, DiscoveryTool.max_depth st)])%list).
Proof.
  split; [|split; [|split; [|split; [|split]]]].
  - intros start limit calls st.
    destruct (spider_session_ok E calls _ (spider_init_ok start limit)) as (Hp & Hf & _).
    fold st in Hp, Hf. unfold st in Hp, Hf. rewrite spider_session_depth in Hp, Hf.
    by split.
  - intros st url d Hd. unfold SpiderTool.crawl_page.
    apply Z.ltb_lt in Hd. by rewrite Hd.
  - intros st url Hv.
    destruct (crawl_page_cases E url (SpiderTool.max_depth st) st)
      as [[_ [H|H]]|(_ & _ & _ & _ & Hf & _)]; [lia | done | done].
  - intros base limit calls st.
    destruct (discovery_session_ok E calls _ (discovery_init_ok base limit))
      as (Hp & Hl & Hf & _).
    fold st in Hp, Hl, Hf. unfold st in Hp, Hl, Hf.
    rewrite discovery_session_depth in Hp, Hl, Hf. by repeat split.
  - intros st page d Hd. unfold DiscoveryTool.discover_from_page.
    apply Z.ltb_lt in Hd. by rewrite Hd.
  - intros st page Hv.
    destruct (discover_cases E page (DiscoveryTool.max_depth st) st)
      as [[_ [H|H]]|(_ & _ & _ & _ & Hf & _)]; [lia | done | done].
Qed.

Lemma depth_bound_witness :
  SpiderTool.crawl_page Sample.site Sample.page_b 2 (SpiderTool.init Sample.page_a 1)
  = (SpiderTool.init Sample.page_a 1, None)
  ∧ SpiderTool.fetched
      (SpiderTool.crawl_page Sample.site Sample.page_b 1 (SpiderTool.init Sample.page_a 1)).1
    = [(Sample.page_b, 1%Z)]
  ∧ DiscoveryTool.fetched
      (DiscoveryTool.discover_from_page Sample.site Sample.page_b 1
         (DiscoveryTool.init Sample.page_a 1)).1
    = [(Sample.page_b, 1%Z)].
Proof.
  pose proof (depth_bound Sample.site) as (_ & Hdeep & Hat & _ & _ & Hat').
  split; [|split].
  - apply Hdeep. simpl. lia.
  - apply (Hat (SpiderTool.init Sample.page_a 1) Sample.page_b). simpl. set_solver.
  - apply (Hat' (DiscoveryTool.init Sample.page_a 1) Sample.page_b). simpl. set_solver.
Defined.

(** ** C5: no page is fetched twice *)

(** C5.  In a session of either crawler started from a new object, no URL
    is passed to the page fetcher twice, and the visited set is exactly the
    set of URLs passed to it: once a URL is visited, nothing the session
    does later passes it to the fetcher.  A call on a visited URL returns
    without fetching.  The URL is marked before the fetch: after any call within
    the depth limit, whatever curl returned, the URL is visited and a
    further call on it returns without fetching. *)
Theorem no_refetch E :
  (∀ start limit calls,
     let st := SpiderTool.session E calls (SpiderTool.init start limit) in
     NoDup (SpiderTool.fetched st).*1
     ∧ ∀ u, u ∈ SpiderTool.visited st ↔ u ∈ (SpiderTool.fetched st).*1)
  ∧ (∀ st url d, url ∈ SpiderTool.visited st →
       SpiderTool.crawl_page E url d st = (st, None))
  ∧ (∀ st url d d', (d ≤ SpiderTool.max_depth st)%Z →
       let st1 := (SpiderTool.crawl_page E url d st).1 in
       url ∈ SpiderTool.visited st1 ∧ SpiderTool.crawl_page E url d' st1 = (st1, None))
  ∧ (∀ base limit calls,
     let st := DiscoveryTool.session E calls (DiscoveryTool.init base limit) in
     NoDup (DiscoveryTool.fetched st).*1
     ∧ ∀ u, u ∈ DiscoveryTool.visited st ↔ u ∈ (DiscoveryTool.fetched st).*1)
  ∧ (∀ st page d, page ∈ DiscoveryTool.visited st →
       DiscoveryTool.discover_from_page E page d st = (st, DiscoveryTool.Skipped page))
  ∧ (∀ st page d d', (d ≤ DiscoveryTool.max_depth st)%Z →
       let st1 := (DiscoveryTool.discover_from_page E page d st).1 in
       page ∈ DiscoveryTool.visited st1
       ∧ DiscoveryTool.discover_from_page E page d' st1 = (st1, DiscoveryTool.Skipped page))
  ∧ (∀ start limit calls more u,
     let st := SpiderTool.session E calls (SpiderTool.init start limit) in
     u ∈ SpiderTool.visited st →
     ∃ later, SpiderTool.fetched (SpiderTool.session E more st)
              = (SpiderTool.fetched st ++ later)%list
              ∧ u ∉ later.*1)
  ∧ (∀ base limit calls more u,
     let st := DiscoveryTool.session E calls (DiscoveryTool.init base limit) in
     u ∈ DiscoveryTool.visited st →
     ∃ later, DiscoveryTool.fetched (DiscoveryTool.session E more st)
              = (DiscoveryTool.fetched st ++ later)%list
              ∧ u ∉ later.*1).
Proof.
  assert (Hs : ∀ st url d, url ∈ SpiderTool.visited st →
            SpiderTool.crawl_page E url d st = (st, None)).
  { intros st url d Hv. unfold SpiderTool.crawl_page.
    rewrite (bool_decide_eq_true_2 _ Hv). by rewrite orb_true_r. }
  assert (Hd : ∀ st page d, page ∈ DiscoveryTool.visited st →
            DiscoveryTool.discover_from_page E page d st = (st, DiscoveryTool.Skipped page)).
  { intros st page d Hv. unfold DiscoveryTool.discover_from_page.
    rewrite (bool_decide_eq_true_2 _ Hv). by rewrite orb_true_r. }
  split; [|split; [|split; [|split; [|split; [|split; [|split]]]]]].
  - intros start limit calls st.
    destruct (spider_session_ok E calls _ (spider_init_ok start limit))
      as (_ & _ & Hnd & Hvis & _). by split.
  - exact Hs.
  - intros st url d d' Hle st1.
    assert (Hin : url ∈ SpiderTool.visited st1).
    { unfold st1.
      destruct (crawl_page_cases E url d st) as [[Heq [H|H]]|(_ & _ & _ & Hv & _)].
      - lia.
      - by rewrite Heq.
      - rewrite Hv, elem_of_union, elem_of_singleton. by left. }
    split; [done | by apply Hs].
  - intros base limit calls st.
    destruct (discovery_session_ok E calls _ (discovery_init_ok base limit))
      as (_ & _ & _ & Hnd & Hvis & _). by split.
  - exact Hd.
  - intros st page d d' Hle st1.
    assert (Hin : page ∈ DiscoveryTool.visited st1).
    { unfold st1.
      destruct (discover_cases E page d st) as [[Heq [H|H]]|(_ & _ & _ & Hv & _)].
      - lia.
      - by rewrite Heq.
      - rewrite Hv, elem_of_union, elem_of_singleton. by left. }
    split; [done | by apply Hd].
  - intros start limit calls more u st Hu.
    pose proof (spider_session_ok E calls _ (spider_init_ok start limit)) as Hok.
    fold st in Hok. destruct Hok as (_ & _ & _ & Hvis & _).
    pose proof (spider_session_ok E more st) as Hok'.
    destruct (spider_session_fetched E more st) as (later & Heq).
    exists later. split; [done|]. intros Hin.
    destruct Hok' as (_ & _ & Hnd & _).
    { exact (spider_session_ok E calls _ (spider_init_ok start limit)). }
    rewrite Heq, fmap_app in Hnd. apply NoDup_app in Hnd as (_ & Hdisj & _).
    apply (Hdisj u); [by apply Hvis | done].
  - intros base limit calls more u st Hu.
    pose proof (discovery_session_ok E calls _ (discovery_init_ok base limit)) as Hok.
    fold st in Hok. destruct Hok as (_ & _ & _ & _ & Hvis & _).
    pose proof (discovery_session_ok E more st) as Hok'.
    destruct (discovery_session_fetched E more st) as (later & Heq).
    exists later. split; [done|]. intros Hin.
    destruct Hok' as (_ & _ & _ & Hnd & _).
    { exact (discovery_session_ok E calls _ (discovery_init_ok base limit)). }
    rewrite Heq, fmap_app in Hnd. apply NoDup_app in Hnd as (_ & Hdisj & _).
    apply (Hdisj u); [by apply Hvis | done].
Qed.

Lemma no_refetch_witness :
  let st1 := (SpiderTool.crawl_page Sample.site Sample.page_down 0
                (SpiderTool.init Sample.page_a 1)).1 in
  fetch_page Sample.site Sample.page_down = None
  ∧ SpiderTool.fetched st1 = [(Sample.page_down, 0%Z)]
  ∧ Sample.page_down ∈ SpiderTool.visited st1
  ∧ SpiderTool.crawl_page Sample.site Sample.page_down 1 st1 = (st1, None).
Proof.
  intros st1. split; [reflexivity|]. split; [reflexivity|].
  apply (proj1 (proj2 (proj2 (no_refetch Sample.site)))
           (SpiderTool.init Sample.page_a 1) Sample.page_down 0%Z 1%Z).
  simpl. lia.
Defined.

(** ** C6: each PDF recorded once *)

(** [SpiderTool] does what the claim says: in any session the recorded
    PDF URLs are pairwise distinct, and a call never touches the entries
    recorded before it ([spider_pdfs_kept]). *)
Lemma spider_documents_unique E start limit calls :
  NoDup (map SpiderTool.p_url
           (SpiderTool.discovered_pdfs
              (SpiderTool.session E calls (SpiderTool.init start limit)))).
Proof.
  by destruct (spider_session_ok E calls _ (spider_init_ok start limit))
    as (_ & _ & _ & _ & Hu).
Qed.

(** [DiscoveryTool] appends every PDF link of the page, known or not. *)
Lemma discovery_appends_all E page d st html :
  (d ≤ DiscoveryTool.max_depth st)%Z →
  page ∉ DiscoveryTool.visited st →
  fetch_page E page = Some html →
  html ≠ "" → challenge html = false →
  ∃ pdfs,
    map DiscoveryTool.p_url
      (DiscoveryTool.discovered_pdfs (DiscoveryTool.discover_from_page E page d st).1)
    = (map DiscoveryTool.p_url (DiscoveryTool.discovered_pdfs st)
       ++ map DiscoveryTool.k_url pdfs)%list
    ∧ pdfs = filter (λ l, DiscoveryTool.k_is_pdf l = true)
               (match DiscoveryTool.extract_links_with_htmlq E html page with
                | [] => DiscoveryTool.extract_links_with_grep E html page
                | found => found
                end).
Proof.
  intros Hd Hv Hfetch Hne Hch. unfold DiscoveryTool.discover_from_page.
  apply Z.ltb_ge in Hd. rewrite Hd. rewrite (bool_decide_eq_false_2 _ Hv). simpl.
  rewrite Hfetch. apply String.eqb_neq in Hne. rewrite Hne, Hch. simpl.
  eexists. split; [|reflexivity].
  destruct (discovery_store_pdfs page d
              (filter (λ l, DiscoveryTool.k_is_pdf l = true)
                 (match DiscoveryTool.extract_links_with_htmlq E html page with
                  | [] => DiscoveryTool.extract_links_with_grep E html page
                  | found => found
                  end))
              (DiscoveryTool.discovered_pdfs st)) as (extra & Heq & _ & Hmap).
  by rewrite Heq, map_app, Hmap.
Qed.

(** C6, the code at the failing input.  A [DiscoveryTool] crawls one page
    whose anchors name the same PDF twice, once by its absolute URL and
    once by its path.  [discover_from_page] records the PDF twice, while
    it records the navigation link of the same page once; [SpiderTool] on
    the same page records the PDF once. *)
Theorem discovery_records_pdf_twice :
  let found := (DiscoveryTool.discover_from_page Sample.site Sample.page_a 0
                  (DiscoveryTool.init Sample.page_a 1)).1 in
  let spider := (SpiderTool.crawl_page Sample.site Sample.page_a 0
                   (SpiderTool.init Sample.page_a 1)).1 in
  map DiscoveryTool.p_url (DiscoveryTool.discovered_pdfs found)
  = [Sample.x_pdf; Sample.x_pdf]
  ∧ ¬ NoDup (map DiscoveryTool.p_url (DiscoveryTool.discovered_pdfs found))
  ∧ map DiscoveryTool.url (DiscoveryTool.discovered_links found) = [Sample.page_b]
  ∧ map SpiderTool.p_url (SpiderTool.discovered_pdfs spider) = [Sample.x_pdf].
Proof.
  vm_compute. repeat split.
  intros H. apply NoDup_cons in H as [H _]. apply H. left.
Qed.

(** ** C7: the classification of an href *)

(** C7, counterexample.  The claim tags a link as a document exactly when
    the path of the resolved URL ends in [.pdf], whatever its host.  On
    the base [https://example.justice.gov/page]: the href
    [/files/report.pdf?download=1] has a path ending in [.pdf] and is
    tagged as navigation; the href [/view?file=report.pdf] has the path
    [/view] and is tagged as a PDF; the PDF of another site is dropped. *)
Lemma pdf_test_reads_whole_url :
  let base := "https://example.justice.gov/page" in
  let html := "<html>listing</html>" in
  Url.path (Url.urlparse "https://example.justice.gov/files/report.pdf?download=1")
  = "/files/report.pdf"
  ∧ SpiderTool.classify Sample.site html base "/files/report.pdf?download=1"
    = Some (SpiderTool.Nav
              {| SpiderTool.l_url := "https://example.justice.gov/files/report.pdf?download=1";
                 SpiderTool.l_text := "Report";
                 SpiderTool.l_domain := "example.justice.gov" |})
  ∧ Url.path (Url.urlparse "https://example.justice.gov/view?file=report.pdf") = "/view"
  ∧ SpiderTool.classify Sample.site html base "/view?file=report.pdf"
    = Some (SpiderTool.Pdf
              {| SpiderTool.l_url := "https://example.justice.gov/view?file=report.pdf";
                 SpiderTool.l_text := "Report";
                 SpiderTool.l_domain := "example.justice.gov" |})
  ∧ Url.path (Url.urlparse "https://other.com/report.pdf") = "/report.pdf"
  ∧ SpiderTool.classify Sample.site html base "https://other.com/report.pdf"
    = Some SpiderTool.Dropped.
Proof. vm_compute. repeat split. Qed.

(** C7, as amended.  The loop of [extract_links_htmlq] drops an href that
    is empty after stripping, starts with [#] or starts with
    [javascript:]; resolves a leading-slash href against the scheme and
    host of the base URL; drops the resolved URL when its host does not
    end in [justice.gov], whatever its extension; and otherwise tags it as
    a PDF exactly when the whole resolved URL, query and fragment included,
    ends in [.pdf] without regard to case, and as navigation if not.  So
    [/files/report.PDF] on [https://example.justice.gov/page] is the PDF
    [https://example.justice.gov/files/report.PDF]. *)
Theorem classify_spec E html base href :
  let url := Py.strip href in
  let resolved := absolute E base url in
  let host := Url.netloc (Url.urlparse resolved) in
  (url = "" ∨ Py.startswith "#" url = true ∨ Py.startswith "javascript:" url = true →
     SpiderTool.classify E html base href = Some SpiderTool.Dropped)
  ∧ (Py.startswith "/" url = true →
     resolved = Url.scheme (Url.urlparse base) ++ "://"
                ++ Url.netloc (Url.urlparse base) ++ url)
  ∧ (url ≠ "" → Py.startswith "#" url = false → Py.startswith "javascript:" url = false →
     (Py.endswith "justice.gov" host = false →
        SpiderTool.classify E html base href = Some SpiderTool.Dropped)
     ∧ (Py.endswith "justice.gov" host = true →
        ∀ rc out, htmlq_text E html (SpiderTool.selector resolved) = Exit rc out →
        let link :=
          {| SpiderTool.l_url := resolved;
             SpiderTool.l_text := if (rc =? 0)%Z then Py.take 100 (Py.strip out) else "";
             SpiderTool.l_domain := host |} in
        SpiderTool.classify E html base href
        = Some (if Py.endswith ".pdf" (Py.lower resolved)
                then SpiderTool.Pdf link else SpiderTool.Nav link)))
  ∧ (∀ rc out,
       htmlq_text E html (SpiderTool.selector "https://example.justice.gov/files/report.PDF")
       = Exit rc out →
       SpiderTool.classify E html "https://example.justice.gov/page" "/files/report.PDF"
       = Some (SpiderTool.Pdf
                 {| SpiderTool.l_url := "https://example.justice.gov/files/report.PDF";
                    SpiderTool.l_text :=
                      if (rc =? 0)%Z then Py.take 100 (Py.strip out) else "";
                    SpiderTool.l_domain := "example.justice.gov" |})).
Proof.
  intros url resolved host. split; [|split; [|split]].
  - intros Hrej. unfold SpiderTool.classify. fold url.
    destruct Hrej as [->|[->| ->]]; [done | by rewrite orb_true_r | by rewrite orb_true_r].
  - intros Hslash. unfold resolved, absolute. by rewrite Hslash.
  - intros Hne Hfrag Hjs. apply String.eqb_neq in Hne.
    unfold SpiderTool.classify. fold url. rewrite Hne, Hfrag, Hjs. simpl.
    fold resolved. fold host. split.
    + intros Hoff. by rewrite Hoff.
    + intros Hon rc out Htext. by rewrite Hon, Htext.
  - intros rc out Htext. unfold SpiderTool.classify.
    change (Py.strip "/files/report.PDF") with "/files/report.PDF".
    change (absolute E "https://example.justice.gov/page" "/files/report.PDF")
      with "https://example.justice.gov/files/report.PDF".
    rewrite Htext. reflexivity.
Qed.

Lemma classify_spec_witness :
  SpiderTool.classify Sample.site "<html>listing</html>"
    "https://example.justice.gov/page" "/files/report.PDF"
  = Some (SpiderTool.Pdf
            {| SpiderTool.l_url := "https://example.justice.gov/files/report.PDF";
               SpiderTool.l_text := "Report";
               SpiderTool.l_domain := "example.justice.gov" |})
  ∧ SpiderTool.classify Sample.site "<html>listing</html>"
      "https://example.justice.gov/page" " #top "
    = Some SpiderTool.Dropped.
Proof.
  split.
  - apply (proj2 (proj2 (proj2 (classify_spec Sample.site "<html>listing</html>"
             "https://example.justice.gov/page" "/files/report.PDF"))) 0%Z "Report").
    reflexivity.
  - apply (proj1 (classify_spec Sample.site "<html>listing</html>"
             "https://example.justice.gov/page" " #top ")).
    right. left. reflexivity.
Defined.

(** ** C9: loading the persisted state *)

(** C9, counterexample.  The state file exists and does not hold JSON:
    [load_discovery_state] raises the decoding error instead of returning
    the empty list, and so does the manifest loading of [main]. *)
Lemma corrupt_state_raises :
  State.load_discovery_state Sample.garbled_files "reference/discovery_state.json"
  = State.Raised State.JSONDecodeError
  ∧ State.load_discovery_state Sample.garbled_files "reference/discovery_state.json"
    ≠ State.Returned (State.JArray [])
  ∧ State.skip_discovery_pdfs Sample.garbled_files = State.Raised State.JSONDecodeError.
Proof. repeat split. discriminate. Qed.

(** C9, as amended.  When the state file is missing, [load_discovery_state]
    returns the empty list instead of raising, and [main] of
    [download_all_epstein.py] returns without downloading.  Nothing else
    is caught: a file that does not hold JSON raises the decoding error,
    and a JSON value that is no object raises an attribute error; a JSON
    object yields its [pdfs] member, or the empty list without one. *)
Theorem state_load_fallback read path :
  (read path = State.NoFile →
     State.load_discovery_state read path = State.Returned (State.JArray []))
  ∧ (read path = State.NotJson →
     State.load_discovery_state read path = State.Raised State.JSONDecodeError)
  ∧ (∀ value, read path = State.Decoded value →
     State.load_discovery_state read path = State.get_or_empty "pdfs" value)
  ∧ (read "reference/epstein_manifest.json" = State.NoFile →
     State.skip_discovery_pdfs read = State.Returned None)
  ∧ (read "reference/epstein_manifest.json" = State.NotJson →
     State.skip_discovery_pdfs read = State.Raised State.JSONDecodeError).
Proof.
  unfold State.load_discovery_state, State.skip_discovery_pdfs, State.load.
  repeat split.
  - by intros ->.
  - by intros ->.
  - intros value ->. by destruct value.
  - by intros ->.
  - by intros ->.
Qed.

Lemma state_load_fallback_witness :
  State.load_discovery_state Sample.no_files "reference/discovery_state.json"
  = State.Returned (State.JArray [])
  ∧ State.skip_discovery_pdfs Sample.no_files = State.Returned None.
Proof.
  split.
  - apply (proj1 (state_load_fallback Sample.no_files "reference/discovery_state.json")).
    reflexivity.
  - apply (proj1 (proj2 (proj2 (proj2
             (state_load_fallback Sample.no_files "reference/discovery_state.json"))))).
    reflexivity.
Defined.

(** * Further properties of the download scripts *)

Section ShapeRecords.

Variable name_of path_of : string -> string.
Variable attempt : nat -> string -> string + list byte.
Variable skip_entry : string -> entry.
Variable done_entry : string -> nat -> entry.

Hypothesis skip_url : ∀ u, r_url (skip_entry u) = u.
Hypothesis done_url : ∀ u n, r_url (done_entry u n) = u.

Abbreviation shape_step := (Resumable.step name_of path_of attempt skip_entry done_entry).
Abbreviation shape_steps := (Resumable.steps name_of path_of attempt skip_entry done_entry).

Lemma step_urls i pdf st :
  record_urls (shape_step i pdf st) ≡ₚ record_urls st ++ [info_url pdf].
Proof.
  unfold record_urls, Resumable.step.
  destruct (Resumable.large _ _); simpl.
  - rewrite !map_app. simpl. rewrite skip_url, <- !app_assoc.
    apply Permutation_app_head, Permutation_app_comm.
  - destruct (attempt i (info_url pdf)); simpl.
    + by rewrite !map_app, <- !app_assoc.
    + rewrite !map_app. simpl. rewrite done_url, <- !app_assoc.
      apply Permutation_app_head, Permutation_app_comm.
Qed.

Lemma steps_urls l i st :
  record_urls (shape_steps i l st) ≡ₚ record_urls st ++ map info_url l.
Proof.
  revert i st. induction l as [|pdf l IH]; intros i st; simpl.
  - by rewrite app_nil_r.
  - rewrite IH, step_urls. by rewrite <- app_assoc.
Qed.

(** Whatever a run writes came out of an attempt. *)
Lemma steps_written (P : list byte → Prop) l i st p :
  (∀ j u data, attempt j u = inr data → P data) →
  files (shape_steps i l st) !! p = files st !! p
  ∨ ∃ data, files (shape_steps i l st) !! p = Some data ∧ P data.
Proof.
  intros HP. revert i st. induction l as [|pdf l IH]; intros i st; simpl; [by left|].
  destruct (IH (S i) (shape_step i pdf st)) as [Heq|Hnew]; [|by right].
  rewrite Heq. unfold Resumable.step.
  destruct (Resumable.large _ _); simpl; [by left|].
  destruct (attempt i (info_url pdf)) as [m|data] eqn:Ha; simpl; [by left|].
  destruct (decide (path_of (info_url pdf) = p)) as [<-|Hne].
  - right. exists data. rewrite lookup_insert_eq. split; [done | by eapply HP].
  - left. by rewrite lookup_insert_ne.
Qed.

End ShapeRecords.

(** The disk and the requests of [download_all] evolve as in the shared
    loop shape. *)
Lemma tally_shape browser l i (st : DownloadAll.tally) (st' : run) :
  DownloadAll.files st = files st' →
  DownloadAll.requests st = requests st' →
  let t := DownloadAll.download_from browser i l st in
  let r := Resumable.steps flat_filename flat_path (tally_attempt browser)
             verification_skip verification_done i l st' in
  DownloadAll.files t = files r ∧ DownloadAll.requests t = requests r.
Proof.
  revert i st st'. induction l as [|pdf l IH]; intros i st st' Hf Hr; simpl; [done|].
  apply IH.
  - unfold DownloadAll.download_one, Resumable.step, Resumable.large, tally_attempt.
    rewrite Hf. destruct (exists_ _ _ && _); simpl; [done|].
    by destruct (DownloadAll.fetch _).
  - unfold DownloadAll.download_one, Resumable.step, Resumable.large, tally_attempt.
    rewrite Hf. destruct (exists_ _ _ && _); simpl; [done|].
    destruct (DownloadAll.fetch _); simpl; by rewrite Hr.
Qed.

Lemma tally_fetch_pdf v data : DownloadAll.fetch v = Some data → is_pdf data = true.
Proof.
  unfold DownloadAll.fetch. destruct (goto_home v); [discriminate|].
  destruct (evaluated v) as [s|m| |m]; try discriminate.
  destruct (Py.contains "," s); [|discriminate].
  destruct (payload s) as [m|d]; [discriminate|].
  destruct (is_pdf d) eqn:Hd; [|discriminate]. by intros [= <-].
Qed.

(** X1.  The report of [download_all_pdfs] adds up: its total, taken from
    the length of the input list, is the number of downloaded records
    plus the number of failed ones, and the URLs of the records are the
    URLs of the list up to order.  The same holds for the two lists of
    [download_with_age_verification]. *)
Theorem verified_reports_add_up :
  (∀ page pdfs disk,
     let st := DownloadAllEpstein.download_all_pdfs page pdfs disk in
     rep_total (epstein_report pdfs st)
     = rep_downloaded (epstein_report pdfs st) + rep_failed (epstein_report pdfs st)
     ∧ record_urls st ≡ₚ map info_url pdfs)
  ∧ (∀ browser pdfs disk,
     let st := DownloadWithVerification.download_with_age_verification browser pdfs disk in
     length pdfs = length (downloaded st) + length (failed st)
     ∧ record_urls st ≡ₚ map info_url pdfs).
Proof.
  assert (Hlen : ∀ st l, record_urls st ≡ₚ map info_url l →
            length l = length (downloaded st) + length (failed st)).
  { intros st l Hp. rewrite <- length_app, <- (length_map r_url).
    fold (record_urls st). by rewrite Hp, length_map. }
  split.
  - intros page pdfs disk st.
    assert (Hp : record_urls st ≡ₚ map info_url pdfs).
    { unfold st, DownloadAllEpstein.download_all_pdfs. rewrite epstein_shape.
      by rewrite steps_urls. }
    split; [|done]. simpl. by apply Hlen.
  - intros browser pdfs disk st.
    assert (Hp : record_urls st ≡ₚ map info_url pdfs).
    { unfold st, DownloadWithVerification.download_with_age_verification.
      rewrite verification_shape. by rewrite steps_urls. }
    split; [by apply Hlen | done].
Qed.

(** A path that no entry is saved under keeps its file. *)
Lemma steps_frame name_of path_of attempt skip_entry done_entry l i st p :
  (∀ u, path_of u ≠ p) →
  files (Resumable.steps name_of path_of attempt skip_entry done_entry i l st) !! p
  = files st !! p.
Proof.
  intros Hp. revert i st. induction l as [|pdf l IH]; intros i st; simpl; [done|].
  rewrite IH. unfold Resumable.step.
  destruct (Resumable.large _ _); simpl; [done|].
  destruct (attempt i (info_url pdf)); simpl; [done|].
  by rewrite lookup_insert_ne.
Qed.

Lemma startswith_char c s :
  Py.startswith (String c "") s = true → ∃ rest, s = String c rest.
Proof.
  destruct s as [|a s]; [discriminate|]. cbn [Py.startswith].
  destruct (Ascii.eqb_spec c a) as [->|]; [eauto | discriminate].
Qed.

(** The files of the loops lie in the output directory, the report next
    to it. *)
Lemma flat_path_not_report u : flat_path u ≠ report_path.
Proof.
  unfold flat_path, Url.join.
  destruct (Py.startswith "/" (flat_filename u)) eqn:Hs.
  - apply startswith_char in Hs as [rest ->]. discriminate.
  - discriminate.
Qed.

Lemma epstein_path_not_report u : DownloadAllEpstein.output_path u ≠ report_path.
Proof.
  unfold DownloadAllEpstein.output_path, Url.join.
  destruct (Py.startswith "/" (DownloadAllEpstein.output_filename u)) eqn:Hs.
  - apply startswith_char in Hs as [rest ->]. discriminate.
  - discriminate.
Qed.

(** X2.  Besides the report, the three scripts that check the signature
    only ever write PDFs.  On a list whose entries get file names [open]
    can create: after [download_all_pdfs] (whether it returns or a URL
    that [urlparse] rejects ends it), after
    [download_with_age_verification] and after the loop of
    [download_all], every file other than the report is either the file
    the run found there or starts with [%PDF], and a file of more than
    1000 bytes that the run found is still there, unchanged.  The report
    is written exactly when the function gets to its end: a run of
    [download_all_pdfs] that a [ValueError] ends leaves the report file
    as it was. *)
Theorem only_pdfs_written :
  (∀ dump page pdfs disk,
     plain_names DownloadAllEpstein.output_filename (reached pdfs) →
     let result := download_all_pdfs_script dump page pdfs disk in
     (∀ p, p ≠ report_path →
        (result.1 !! p = disk !! p
         ∨ ∃ data, result.1 !! p = Some data ∧ is_pdf data = true)
        ∧ (∀ old, disk !! p = Some old → 1000 < length old → result.1 !! p = Some old))
     ∧ match result.2 with
       | Returns records =>
           let st := DownloadAllEpstein.download_all_pdfs page pdfs disk in
           Forall (λ pdf, accepted pdf = true) pdfs
           ∧ records = downloaded st
           ∧ result.1 !! report_path = Some (dump (epstein_report pdfs st))
       | Uncaught _ =>
           Exists (λ pdf, accepted pdf = false) pdfs
           ∧ result.1 !! report_path = disk !! report_path
       end)
  ∧ (∀ dump browser pdfs disk,
     plain_names flat_filename pdfs →
     match download_with_age_verification_script dump browser pdfs disk with
     | Returns None => pdfs = []
     | Returns (Some st) =>
         (∀ p, p ≠ report_path →
            (files st !! p = disk !! p
             ∨ ∃ data, files st !! p = Some data ∧ is_pdf data = true)
            ∧ (∀ old, disk !! p = Some old → 1000 < length old → files st !! p = Some old))
         ∧ files st !! report_path
           = Some (dump (length pdfs) (length (downloaded st)) (length (failed st)))
     | Uncaught _ => False
     end)
  ∧ (∀ browser pdfs disk p,
     plain_names flat_filename pdfs →
     let st := DownloadAll.download_all browser pdfs disk in
     (DownloadAll.files st !! p = disk !! p
      ∨ ∃ data, DownloadAll.files st !! p = Some data ∧ is_pdf data = true)
     ∧ (∀ old, disk !! p = Some old → 1000 < length old →
               DownloadAll.files st !! p = Some old)).
Proof.
  assert (Hkeep : ∀ name_of path_of attempt skip_entry done_entry l i st p old,
    files st !! p = Some old → 1000 < length old →
    files (Resumable.steps name_of path_of attempt skip_entry done_entry i l st) !! p
    = Some old).
  { intros name_of path_of attempt skip_entry done_entry l i st p old Hold Hbig.
    rewrite steps_keep_large; [done|]. apply large_lookup. eauto. }
  assert (Hloop : ∀ page l disk p,
    let st := DownloadAllEpstein.download_all_pdfs page l disk in
    (files st !! p = disk !! p ∨ ∃ data, files st !! p = Some data ∧ is_pdf data = true)
    ∧ (∀ old, disk !! p = Some old → 1000 < length old → files st !! p = Some old)).
  { intros page l disk p st. unfold st, DownloadAllEpstein.download_all_pdfs.
    rewrite epstein_shape. split.
    - apply (steps_written _ _ _ _ _ (λ data, is_pdf data = true)).
      intros j u data. apply epstein_fetch_pdf.
    - intros old Hold Hbig. by apply Hkeep. }
  assert (Hloop' : ∀ browser l disk p,
    let st := DownloadWithVerification.download_with_age_verification browser l disk in
    (files st !! p = disk !! p ∨ ∃ data, files st !! p = Some data ∧ is_pdf data = true)
    ∧ (∀ old, disk !! p = Some old → 1000 < length old → files st !! p = Some old)).
  { intros browser l disk p st.
    unfold st, DownloadWithVerification.download_with_age_verification.
    rewrite verification_shape. split.
    - apply (steps_written _ _ _ _ _ (λ data, is_pdf data = true)).
      intros j u data. apply verification_fetch_pdf.
    - intros old Hold Hbig. by apply Hkeep. }
  split; [|split].
  - intros dump page pdfs disk _ result. unfold result, download_all_pdfs_script.
    rewrite epstein_until.
    fold (DownloadAllEpstein.download_all_pdfs page (reached pdfs) disk).
    destruct (forallb accepted pdfs) eqn:Hall; simpl.
    + apply accepted_all in Hall.
      destruct (reached_all pdfs Hall) as [-> _]. split.
      * intros p Hp. rewrite lookup_insert_ne by done. apply Hloop.
      * split; [done|]. split; [done|]. by rewrite lookup_insert_eq.
    + split; [intros p _; apply Hloop|]. split; [by apply accepted_some|].
      unfold DownloadAllEpstein.download_all_pdfs. rewrite epstein_shape.
      apply steps_frame. apply epstein_path_not_report.
  - intros dump browser pdfs disk _. unfold download_with_age_verification_script.
    destruct pdfs as [|pdf pdfs]; [done|]. simpl. split.
    + intros p Hp. rewrite lookup_insert_ne by done. apply Hloop'.
    + by rewrite lookup_insert_eq.
  - intros browser pdfs disk p _ st. unfold st, DownloadAll.download_all.
    destruct (tally_shape browser pdfs 1 (DownloadAll.start disk) (fresh disk)
                eq_refl eq_refl) as [-> _].
    split.
    + apply (steps_written _ _ _ _ _ (λ data, is_pdf data = true)).
      intros j u data. unfold tally_attempt.
      destruct (DownloadAll.fetch (browser j u)) eqn:Hf; [|discriminate].
      intros [= <-]. by eapply tally_fetch_pdf.
    + intros old Hold Hbig. by apply Hkeep.
Qed.

Lemma only_pdfs_written_witness :
  (download_all_pdfs_script (λ report, []) Sample.html_reply
     [Sample.pdf_at Sample.efta1] Sample.disk_with_efta1).1
    !! "reference/epstein_files/dataset_1_EFTA00000001.pdf"
  = Some Sample.large_file.
Proof.
  refine (proj2 (proj1 (proj1 only_pdfs_written (λ report, []) Sample.html_reply
                           [Sample.pdf_at Sample.efta1] Sample.disk_with_efta1 _)
                    "reference/epstein_files/dataset_1_EFTA00000001.pdf" _) _ _ _).
  - repeat constructor.
  - discriminate.
  - reflexivity.
  - vm_compute. lia.
Defined.

(** ** The orchestrator's disk *)

Section OrchestratorFacts.

Variable dir : string.
Variable page : nat -> string -> response.

Abbreviation orch_one := (DownloadOrchestrator.download_one dir page).
Abbreviation orch_from := (DownloadOrchestrator.download_from dir page).

Lemma exists_lookup (disk : gmap string (list byte)) p :
  exists_ disk p = true ↔ is_Some (disk !! p).
Proof. unfold exists_. apply bool_decide_eq_true. Qed.

Lemma exists_none (disk : gmap string (list byte)) p :
  exists_ disk p = false ↔ disk !! p = None.
Proof.
  unfold exists_. rewrite bool_decide_eq_false, <- eq_None_not_Some. done.
Qed.

(** One iteration: a skip, a failure, or a write to a path that was free. *)
Lemma orch_one_cases i pdf st :
  (exists_ (files st) (path_at dir i pdf) = true
   ∧ orch_one i pdf st
     = {| downloaded := downloaded st ++ [orchestrator_skip dir i pdf];
          failed := failed st; files := files st; requests := requests st |})
  ∨ (files st !! path_at dir i pdf = None
     ∧ ∃ message, orch_one i pdf st
       = record_failed (info_url pdf)
           (DownloadOrchestrator.derive_filename i (info_url pdf)) message
           (requested (info_url pdf) st))
  ∨ (files st !! path_at dir i pdf = None
     ∧ ∃ data, orch_one i pdf st
       = {| downloaded := downloaded st ++
              [{| r_url := info_url pdf;
                  r_filename := DownloadOrchestrator.derive_filename i (info_url pdf);
                  r_status := Some "downloaded"; r_size := Some (length data);
                  r_path := Some (path_at dir i pdf); r_error := None |}];
            failed := failed st;
            files := <[path_at dir i pdf := data]> (files st);
            requests := requests st ++ [info_url pdf] |}).
Proof.
  unfold DownloadOrchestrator.download_one. fold (path_at dir i pdf).
  destruct (exists_ (files st) (path_at dir i pdf)) eqn:Hex.
  - by left.
  - right. apply exists_none in Hex.
    destruct (DownloadOrchestrator.fetch _) as [m|data].
    + left. split; [done|]. by exists m.
    + right. split; [done|]. by exists data.
Qed.

Lemma orch_one_subseteq i pdf st : files st ⊆ files (orch_one i pdf st).
Proof.
  destruct (orch_one_cases i pdf st) as [[_ ->]|[[_ [m ->]]|[Hfree [data ->]]]]; simpl;
    [done | done | by apply insert_subseteq].
Qed.

Lemma orch_from_subseteq l i st : files st ⊆ files (orch_from i l st).
Proof.
  revert i st. induction l as [|pdf l IH]; intros i st; simpl; [done|].
  etrans; [apply orch_one_subseteq | apply IH].
Qed.

Lemma on_disk_mono d1 d2 r : d1 ⊆ d2 → on_disk d1 r → on_disk d2 r.
Proof.
  intros Hsub (p & data & Hp & Hd & Hs). exists p, data. repeat split; [done| |done].
  by eapply map_subseteq_spec.
Qed.

Lemma orch_from_on_disk l i st :
  Forall (on_disk (files st)) (downloaded st) →
  Forall (on_disk (files (orch_from i l st))) (downloaded (orch_from i l st)).
Proof.
  revert i st. induction l as [|pdf l IH]; intros i st Hst; simpl; [done|].
  apply IH.
  destruct (orch_one_cases i pdf st) as [[Hex ->]|[[_ [m ->]]|[Hfree [data ->]]]]; simpl.
  - apply Forall_app. split; [done|]. constructor; [|constructor].
    apply exists_lookup in Hex as [data Hd].
    exists (path_at dir i pdf), data. repeat split; [done | by left].
  - done.
  - apply Forall_app. split.
    + eapply Forall_impl; [exact Hst|]. intros r.
      apply on_disk_mono. by apply insert_subseteq.
    + constructor; [|constructor].
      exists (path_at dir i pdf), data. repeat split; [by rewrite lookup_insert_eq | by right].
Qed.

(** The sizes the report adds up are the bytes the run added to the disk. *)
Lemma disk_bytes_insert (disk : gmap string (list byte)) p data :
  disk !! p = None → disk_bytes (<[p := data]> disk) = length data + disk_bytes disk.
Proof.
  intros Hp. unfold disk_bytes. rewrite map_fold_insert_L; [done | | done].
  intros. lia.
Qed.

Lemma total_size_snoc records r :
  total_size (records ++ [r]) = total_size records + default 0 (r_size r).
Proof.
  unfold total_size. induction records as [|x records IH]; simpl; lia.
Qed.

Lemma orch_from_bytes l i st :
  disk_bytes (files (orch_from i l st)) + total_size (downloaded st)
  = disk_bytes (files st) + total_size (downloaded (orch_from i l st)).
Proof.
  revert i st. induction l as [|pdf l IH]; intros i st; simpl; [done|].
  specialize (IH (S i) (orch_one i pdf st)).
  destruct (orch_one_cases i pdf st) as [[Hex Heq]|[[_ [m Heq]]|[Hfree [data Heq]]]];
    rewrite Heq in *; simpl in *.
  - rewrite total_size_snoc in IH. simpl in IH. lia.
  - done.
  - rewrite total_size_snoc, disk_bytes_insert in IH by done. simpl in IH. lia.
Qed.



End OrchestratorFacts.


(** X3.  [DownloadOrchestrator.download_pdfs] never overwrites or removes
    a file: every file of the disk it started on is still there,
    unchanged, when it ends, and every record of its downloaded list, be
    it a skip or a download, has its file on disk, of the recorded size
    if the record has one. *)
Theorem orchestrator_never_overwrites dir page pdfs disk :
  let st := DownloadOrchestrator.download_pdfs dir page pdfs (fresh disk) in
  disk ⊆ files st ∧ Forall (on_disk (files st)) (downloaded st).
Proof.
  intros st. split.
  - apply (orch_from_subseteq dir page pdfs 1 (fresh disk)).
  - apply (orch_from_on_disk dir page pdfs 1 (fresh disk)). constructor.
Qed.

(** X4.  The total size of the orchestrator's report (the sum of the
    sizes of its downloaded records, a skip counting zero) is exactly the
    number of bytes the run added to the disk. *)
Theorem orchestrator_report_size dir page pdfs disk :
  let st := DownloadOrchestrator.download_pdfs dir page pdfs (fresh disk) in
  disk_bytes (files st) = disk_bytes disk + total_size (downloaded st).
Proof.
  intros st.
  pose proof (orch_from_bytes dir page pdfs 1 (fresh disk)) as H.
  simpl in H. fold (DownloadOrchestrator.download_pdfs dir page pdfs (fresh disk)) in H.
  fold st in H. unfold total_size in H at 1. simpl in H. lia.
Qed.



(** ** The counters of [download_all.py] *)

Lemma tally_counts browser l i st :
  let t := DownloadAll.download_from browser i l st in
  DownloadAll.downloaded t + DownloadAll.failed t
  = DownloadAll.downloaded st + DownloadAll.failed st + length l
  ∧ (DownloadAll.failed t + length (DownloadAll.requests st)
     ≤ DownloadAll.failed st + length (DownloadAll.requests t))%nat
  ∧ (length (DownloadAll.requests t) ≤ length (DownloadAll.requests st) + length l)%nat.
Proof.
  revert i st. induction l as [|pdf l IH]; intros i st; simpl; [lia|].
  destruct (IH (S i) (DownloadAll.download_one browser i pdf st)) as (H1 & H2 & H3).
  assert (Hone :
    let s := DownloadAll.download_one browser i pdf st in
    DownloadAll.downloaded s + DownloadAll.failed s
    = DownloadAll.downloaded st + DownloadAll.failed st + 1
    ∧ (DownloadAll.failed s + length (DownloadAll.requests st)
       ≤ DownloadAll.failed st + length (DownloadAll.requests s))%nat
    ∧ (length (DownloadAll.requests s) ≤ length (DownloadAll.requests st) + 1)%nat).
  { unfold DownloadAll.download_one. destruct (exists_ _ _ && _); simpl; [lia|].
    destruct (DownloadAll.fetch _); simpl; rewrite ?length_app; simpl; lia. }
  simpl in Hone. lia.
Qed.

(** X6.  The counters of [download_all] account for every entry: at the
    end, downloaded plus failed is the length of the list, every failure
    went through the browser, and the browser was asked at most once per
    entry.  On an empty list the loop asks for nothing, and the summary
    then divides by zero: the script ends in an uncaught exception exactly
    when the list is empty, whereas [download_with_age_verification]
    returns. *)
Theorem download_all_counts dump browser pdfs disk :
  let t := DownloadAll.download_all browser pdfs disk in
  DownloadAll.downloaded t + DownloadAll.failed t = length pdfs
  ∧ (DownloadAll.failed t ≤ length (DownloadAll.requests t))%nat
  ∧ (length (DownloadAll.requests t) ≤ length pdfs)%nat
  ∧ (download_all_script browser pdfs disk = Uncaught "ZeroDivisionError" ↔ pdfs = [])
  ∧ (pdfs ≠ [] → download_all_script browser pdfs disk = Returns t)
  ∧ ∃ r, download_with_age_verification_script dump browser pdfs disk = Returns r.
Proof.
  intros t.
  destruct (tally_counts browser pdfs 1 (DownloadAll.start disk)) as (H1 & H2 & H3).
  fold (DownloadAll.download_all browser pdfs disk) in H1, H2, H3. fold t in H1, H2, H3.
  simpl in H1, H2, H3.
  repeat split; try lia.
  - unfold download_all_script. destruct pdfs; [done | discriminate].
  - intros ->. reflexivity.
  - intros Hne. unfold download_all_script. by destruct pdfs.
  - unfold download_with_age_verification_script. destruct pdfs; simpl; eauto.
Qed.

Lemma download_all_counts_witness :
  download_all_script
    (λ i u, {| goto_home := None; goto_pdf := None; evaluated := RError "HTTP 404" |})
    [Sample.pdf_at Sample.efta1] ∅
  = Returns
      (DownloadAll.download_all
         (λ i u, {| goto_home := None; goto_pdf := None; evaluated := RError "HTTP 404" |})
         [Sample.pdf_at Sample.efta1] ∅).
Proof.
  apply (download_all_counts (λ total downloaded failed, [])
           (λ i u, {| goto_home := None; goto_pdf := None; evaluated := RError "HTTP 404" |})
           [Sample.pdf_at Sample.efta1] ∅).
  discriminate.
Defined.

(** ** File names *)

Lemma startswith_app p s : Py.startswith p (p ++ s) = true.
Proof. induction p as [|a p IH]; simpl; [done|]. by rewrite Ascii.eqb_refl. Qed.

Lemma rev_app_app a b acc :
  String.rev_app (a ++ b) acc = String.rev_app b (String.rev_app a acc).
Proof. revert acc. induction a as [|c a IH]; intros acc; simpl; [done|]. apply IH. Qed.

Lemma sapp_assoc (a b c : string) : (a ++ b) ++ c = a ++ b ++ c.
Proof.
  induction a as [|x a IH]; [done|].
  change (String x ((a ++ b) ++ c) = String x (a ++ b ++ c)). by f_equal.
Qed.

Lemma rev_app_acc s acc : String.rev_app s acc = String.rev_app s "" ++ acc.
Proof.
  revert acc. induction s as [|c s IH]; intros acc; simpl; [done|].
  rewrite (IH (String c acc)), (IH (String c "")). by rewrite sapp_assoc.
Qed.

Lemma endswith_app a suffix : Py.endswith suffix (a ++ suffix) = true.
Proof.
  unfold Py.endswith, String.rev.
  rewrite rev_app_app, (rev_app_acc suffix (String.rev_app a "")).
  apply startswith_app.
Qed.

(** [c in s] for a single character. *)
Lemma contains_char c a s :
  Py.contains (String c "") (String a s)
  = Ascii.eqb c a || Py.contains (String c "") s.
Proof. simpl. destruct (Ascii.eqb c a); [by destruct s | done]. Qed.

Lemma contains_char_app c s t :
  Py.contains (String c "") (s ++ t)
  = Py.contains (String c "") s || Py.contains (String c "") t.
Proof.
  induction s as [|a s IH].
  - simpl. by destruct t.
  - change (String a s ++ t) with (String a (s ++ t)).
    rewrite !contains_char, IH. by rewrite orb_assoc.
Qed.

Lemma split_no_sep sep s :
  Forall (λ w, Py.contains (String sep "") w = false) (Py.split sep s).
Proof.
  induction s as [|c s IH]; simpl.
  - by constructor.
  - destruct (Ascii.eqb c sep) eqn:Hc.
    + by constructor.
    + destruct (Py.split sep s) as [|w ws]; constructor.
      * rewrite contains_char. rewrite Ascii.eqb_sym, Hc. done.
      * constructor.
      * rewrite contains_char. rewrite Ascii.eqb_sym, Hc. simpl.
        by apply Forall_cons in IH as [? _].
      * by apply Forall_cons in IH as [_ ?].
Qed.

Lemma last_Forall {A} (P : A → Prop) (l : list A) d :
  P d → Forall P l → P (List.last l d).
Proof.
  intros Hd. induction l as [|x l IH]; intros Hl; simpl; [done|].
  apply Forall_cons in Hl as [Hx Hl]. destruct l; [done | by apply IH].
Qed.

Lemma basename_no_slash p : Py.contains "/" (Url.basename p) = false.
Proof. unfold Url.basename. apply last_Forall; [done | apply split_no_sep]. Qed.

Lemma pretty_char_digit n : Url.isdigit (pretty_N_char n) = true.
Proof.
  destruct n as [|p]; [done|].
  do 5 (try (destruct p as [p|p|]; try reflexivity)).
Qed.

Lemma pretty_go_digits x s :
  Url.all_chars Url.isdigit s = true →
  Url.all_chars Url.isdigit (pretty_N_go x s) = true.
Proof.
  revert s. induction (N.lt_wf_0 x) as [x _ IH]; intros s Hs.
  destruct (decide (x = 0%N)) as [->|Hx].
  - by rewrite pretty_N_go_0.
  - rewrite pretty_N_go_step by lia. apply IH.
    + apply N.div_lt; lia.
    + simpl. by rewrite pretty_char_digit.
Qed.

Lemma str_digits i : Url.all_chars Url.isdigit (Py.str i) = true.
Proof.
  unfold Py.str, pretty, pretty_nat, pretty, pretty_N.
  case_decide; [done|]. by apply pretty_go_digits.
Qed.

Lemma digits_no_slash s :
  Url.all_chars Url.isdigit s = true → Py.contains "/" s = false.
Proof.
  induction s as [|c s IH]; [done|]. simpl Url.all_chars.
  intros [Hc Hs]%andb_true_iff. rewrite contains_char, IH by done.
  rewrite orb_false_r. apply Ascii.eqb_neq. intros <-. discriminate.
Qed.

Lemma split_nonempty sep s : Py.split sep s ≠ [].
Proof.
  destruct s as [|c s]; simpl; [done|].
  destruct (Ascii.eqb c sep); [done|]. by destruct (Py.split sep s).
Qed.

Lemma split_app_sep sep a b :
  Py.split sep (a ++ String sep b) = (Py.split sep a ++ Py.split sep b)%list.
Proof.
  induction a as [|c a IH]; simpl.
  - by rewrite Ascii.eqb_refl.
  - destruct (Ascii.eqb c sep); [by rewrite IH|].
    rewrite IH. pose proof (split_nonempty sep a) as Hne.
    by destruct (Py.split sep a).
Qed.

Lemma split_none sep s :
  Py.contains (String sep "") s = false → Py.split sep s = [s].
Proof.
  induction s as [|c s IH]; [done|].
  rewrite contains_char. intros [Hc Hs]%orb_false_iff.
  simpl. rewrite Ascii.eqb_sym, Hc, IH; done.
Qed.

Lemma basename_join dir name :
  Py.contains "/" name = false →
  Url.basename (dir ++ "/" ++ name) = name.
Proof.
  intros Hn. unfold Url.basename.
  change (dir ++ "/" ++ name) with (dir ++ String "/" name).
  rewrite split_app_sep, (split_none _ _ Hn).
  by rewrite last_last.
Qed.

Lemma join_plain dir name :
  dir ≠ "" → Py.endswith "/" dir = false → Py.contains "/" name = false →
  Url.join dir name = dir ++ "/" ++ name.
Proof.
  intros Hdir Hend Hslash. unfold Url.join.
  assert (Hs : Py.startswith "/" name = false).
  { destruct name; [done|]. simpl in Hslash. by apply orb_false_iff in Hslash as [? _]. }
  apply String.eqb_neq in Hdir. by rewrite Hs, Hdir, Hend.
Qed.

(** X7.  The name [DownloadOrchestrator.download_pdfs] derives for an
    entry is never empty, always ends in [.pdf] and never contains a
    slash, whatever the URL: the file lands directly in the output
    directory, under that name.  Two entries that both get the fallback
    name get different names, since the fallback carries the position. *)
Theorem orchestrator_filename_safe i url :
  let name := DownloadOrchestrator.derive_filename i url in
  name ≠ ""
  ∧ Py.endswith ".pdf" name = true
  ∧ Py.contains "/" name = false
  ∧ (∀ dir, dir ≠ "" → Py.endswith "/" dir = false →
       Url.join dir name = dir ++ "/" ++ name
       ∧ Url.basename (Url.join dir name) = name)
  ∧ (∀ j url', i ≠ j →
       name = "epstein_doc_" ++ Py.str i ++ ".pdf" →
       DownloadOrchestrator.derive_filename j url' = "epstein_doc_" ++ Py.str j ++ ".pdf" →
       name ≠ DownloadOrchestrator.derive_filename j url').
Proof.
  intros name.
  assert (Hcases :
    (name = "epstein_doc_" ++ Py.str i ++ ".pdf")
    ∨ (name = Url.basename (Url.path (Url.urlparse url))
       ∧ name ≠ "" ∧ Py.endswith ".pdf" name = true)).
  { unfold name, DownloadOrchestrator.derive_filename.
    destruct (String.eqb _ "") eqn:He; simpl; [by left|].
    destruct (Py.endswith ".pdf" _) eqn:Hp; simpl; [|by left].
    right. split; [done|]. split; [by apply String.eqb_neq | done]. }
  assert (Hslash : Py.contains "/" name = false).
  { destruct Hcases as [->|[-> _]]; [|apply basename_no_slash].
    change "epstein_doc_" with (String "e" "pstein_doc_").
    rewrite !contains_char_app.
    rewrite (digits_no_slash _ (str_digits i)). reflexivity. }
  assert (Hend : Py.endswith ".pdf" name = true).
  { destruct Hcases as [->|(_ & _ & H)]; [|done].
    rewrite <- sapp_assoc. apply endswith_app. }
  assert (Hne : name ≠ "").
  { destruct Hcases as [->|(_ & H & _)]; [discriminate | done]. }
  split; [done|]. split; [done|]. split; [done|]. split.
  - intros dir Hdir Hdend.
    assert (Hj : Url.join dir name = dir ++ "/" ++ name) by by apply join_plain.
    split; [done|]. rewrite Hj. by apply basename_join.
  - intros j url' Hij Hi Hj Heq. rewrite Hi, Hj in Heq.
    apply String.app_inj in Heq.
    assert (Hs : Py.str i = Py.str j) by by eapply sapp_inj_r.
    apply Hij. unfold Py.str in Hs. by apply pretty_nat_inj in Hs.
Qed.

Lemma orchestrator_filename_safe_witness :
  Url.join "reference" (DownloadOrchestrator.derive_filename 3 Sample.doc_a)
  = "reference" ++ "/" ++ DownloadOrchestrator.derive_filename 3 Sample.doc_a
  ∧ DownloadOrchestrator.derive_filename 3 Sample.doc_a
    ≠ DownloadOrchestrator.derive_filename 4 Sample.doc_b.
Proof.
  pose proof (orchestrator_filename_safe 3 Sample.doc_a) as (_ & _ & _ & Hjoin & Hdiff).
  split.
  - apply (Hjoin "reference"); [discriminate | reflexivity].
  - apply (Hdiff 4 Sample.doc_b); [lia | by vm_compute | by vm_compute].
Defined.

(** A text that occurs in a string occurs there with each of its
    prefixes. *)
Lemma startswith_prefix a b s :
  Py.startswith (a ++ b) s = true → Py.startswith a s = true.
Proof.
  revert s. induction a as [|x a IH]; intros s; [done|].
  change (String x a ++ b) with (String x (a ++ b)).
  destruct s as [|y s]; [discriminate|]. cbn [Py.startswith].
  destruct (Ascii.eqb x y); [apply IH | discriminate].
Qed.

Lemma contains_prefix a b s :
  Py.contains a s = false → Py.contains (a ++ b) s = false.
Proof.
  induction s as [|y s IH].
  - cbn [Py.contains]. rewrite !orb_false_r. intros Ha.
    destruct (Py.startswith (a ++ b) "") eqn:Hab; [|done].
    apply startswith_prefix in Hab. congruence.
  - cbn [Py.contains]. intros [Ha Hs]%orb_false_iff.
    rewrite (IH Hs), orb_false_r.
    destruct (Py.startswith (a ++ b) (String y s)) eqn:Hab; [|done].
    apply startswith_prefix in Hab. congruence.
Qed.

(** Every record of the shared loop shape carries the name of its URL. *)
Lemma steps_names name_of path_of attempt skip_entry done_entry l i st :
  (∀ u, r_url (skip_entry u) = u ∧ r_filename (skip_entry u) = name_of u) →
  (∀ u n, r_url (done_entry u n) = u ∧ r_filename (done_entry u n) = name_of u) →
  let named := Forall (λ r, r_filename r = name_of (r_url r)) in
  named (downloaded st) → named (failed st) →
  named (downloaded (Resumable.steps name_of path_of attempt skip_entry done_entry i l st))
  ∧ named (failed (Resumable.steps name_of path_of attempt skip_entry done_entry i l st)).
Proof.
  intros Hskip Hdone named. revert i st.
  induction l as [|pdf l IH]; intros i st Hd Hf; simpl; [done|].
  apply IH.
  - unfold Resumable.step. destruct (Resumable.large _ _); simpl.
    + apply Forall_app. split; [done|]. constructor; [|constructor].
      destruct (Hskip (info_url pdf)) as [-> ->]. done.
    + destruct (attempt i (info_url pdf)) as [m|data]; simpl; [done|].
      apply Forall_app. split; [done|]. constructor; [|constructor].
      destruct (Hdone (info_url pdf) (length data)) as [-> ->]. done.
  - unfold Resumable.step. destruct (Resumable.large _ _); simpl; [done|].
    destruct (attempt i (info_url pdf)) as [m|data]; simpl; [|done].
    apply Forall_app. split; [done|]. by constructor.
Qed.

(** X8.  The name [download_all_pdfs] gives a file depends on the URL
    alone, not on its position in the list: every record of a run (the
    entries up to the first URL that [urlparse] rejects, with names
    [open] can create) carries the name computed from its URL.  The
    prefix of the name is [dataset_d] for the smallest digit [d] from 1
    to 9 whose marker ([DataSet%20d] or [DataSet d]) occurs in the URL,
    and [unknown] exactly when no marker occurs; for a URL that
    [urlparse] accepts the name has no slash, so the file is
    [reference/epstein_files/<prefix>_<basename>]. *)
Theorem epstein_filename_shape url :
  let tag := DownloadAllEpstein.dataset url in
  ((tag = "unknown"
    ∧ ∀ d, (1 ≤ d ≤ 9)%nat → DownloadAllEpstein.mentions d url = false)
   ∨ ∃ d, (1 ≤ d ≤ 9)%nat ∧ tag = "dataset_" ++ Py.str d
          ∧ DownloadAllEpstein.mentions d url = true
          ∧ ∀ d', (1 ≤ d' < d)%nat → DownloadAllEpstein.mentions d' url = false)
  ∧ (Url.rejects url = false →
       Py.contains "/" (DownloadAllEpstein.output_filename url) = false
       ∧ DownloadAllEpstein.output_path url
         = "reference/epstein_files/" ++ tag ++ "_"
           ++ Url.basename (Url.path (Url.urlparse url)))
  ∧ (∀ page pdfs disk,
       plain_names DownloadAllEpstein.output_filename (reached pdfs) →
       let st := DownloadAllEpstein.download_all_pdfs page (reached pdfs) disk in
       Forall (λ r, r_filename r = DownloadAllEpstein.output_filename (r_url r))
              (downloaded st ++ failed st)).
Proof.
  intros tag.
  assert (Htag : (tag = "unknown"
    ∧ ∀ d, (1 ≤ d ≤ 9)%nat → DownloadAllEpstein.mentions d url = false)
   ∨ ∃ d, (1 ≤ d ≤ 9)%nat ∧ tag = "dataset_" ++ Py.str d
          ∧ DownloadAllEpstein.mentions d url = true
          ∧ ∀ d', (1 ≤ d' < d)%nat → DownloadAllEpstein.mentions d' url = false).
  { unfold tag, DownloadAllEpstein.dataset.
    destruct (Py.contains "DataSet%20" url || Py.contains "DataSet " url) eqn:Hany.
    2: { left. split; [done|]. intros d _. apply orb_false_iff in Hany as [H1 H2].
         unfold DownloadAllEpstein.mentions.
         by rewrite (contains_prefix _ _ _ H1), (contains_prefix _ _ _ H2). }
    change (seq 1 9) with [1; 2; 3; 4; 5; 6; 7; 8; 9]. cbn [find].
    destruct (DownloadAllEpstein.mentions 1 url) eqn:M1;
      [right; exists 1; repeat split; try lia; done|].
    destruct (DownloadAllEpstein.mentions 2 url) eqn:M2;
      [right; exists 2; repeat split; try lia; try done;
       intros d' Hd'; assert (d' = 1) as -> by lia; done|].
    destruct (DownloadAllEpstein.mentions 3 url) eqn:M3;
      [right; exists 3; repeat split; try lia; try done;
       intros d' Hd'; assert (d' = 1 ∨ d' = 2) as [-> | ->] by lia; done|].
    destruct (DownloadAllEpstein.mentions 4 url) eqn:M4;
      [right; exists 4; repeat split; try lia; try done;
       intros d' Hd'; assert (d' = 1 ∨ d' = 2 ∨ d' = 3) as [-> | [-> | ->]] by lia; done|].
    destruct (DownloadAllEpstein.mentions 5 url) eqn:M5;
      [right; exists 5; repeat split; try lia; try done;
       intros d' Hd';
       assert (d' = 1 ∨ d' = 2 ∨ d' = 3 ∨ d' = 4) as [-> | [-> | [-> | ->]]] by lia; done|].
    destruct (DownloadAllEpstein.mentions 6 url) eqn:M6;
      [right; exists 6; repeat split; try lia; try done;
       intros d' Hd';
       assert (d' = 1 ∨ d' = 2 ∨ d' = 3 ∨ d' = 4 ∨ d' = 5)
         as [-> | [-> | [-> | [-> | ->]]]] by lia; done|].
    destruct (DownloadAllEpstein.mentions 7 url) eqn:M7;
      [right; exists 7; repeat split; try lia; try done;
       intros d' Hd';
       assert (d' = 1 ∨ d' = 2 ∨ d' = 3 ∨ d' = 4 ∨ d' = 5 ∨ d' = 6)
         as [-> | [-> | [-> | [-> | [-> | ->]]]]] by lia; done|].
    destruct (DownloadAllEpstein.mentions 8 url) eqn:M8;
      [right; exists 8; repeat split; try lia; try done;
       intros d' Hd';
       assert (d' = 1 ∨ d' = 2 ∨ d' = 3 ∨ d' = 4 ∨ d' = 5 ∨ d' = 6 ∨ d' = 7)
         as [-> | [-> | [-> | [-> | [-> | [-> | ->]]]]]] by lia; done|].
    destruct (DownloadAllEpstein.mentions 9 url) eqn:M9.
    2: { left. split; [done|]. intros d Hd.
         assert (d = 1 ∨ d = 2 ∨ d = 3 ∨ d = 4 ∨ d = 5 ∨ d = 6 ∨ d = 7 ∨ d = 8 ∨ d = 9)
           as [-> | [-> | [-> | [-> | [-> | [-> | [-> | [-> | ->]]]]]]]] by lia; done. }
    right; exists 9; repeat split; try lia; try done.
    intros d' Hd'.
    assert (d' = 1 ∨ d' = 2 ∨ d' = 3 ∨ d' = 4 ∨ d' = 5 ∨ d' = 6 ∨ d' = 7 ∨ d' = 8)
      as [-> | [-> | [-> | [-> | [-> | [-> | [-> | ->]]]]]]] by lia; done. }
  assert (Hslash : Py.contains "/" (DownloadAllEpstein.output_filename url) = false).
  { unfold DownloadAllEpstein.output_filename. fold tag.
    assert (Ht : Py.contains "/" tag = false).
    { destruct Htag as [[-> _]|(d & _ & -> & _)]; [done|].
      change "dataset_" with (String "d" "ataset_").
      rewrite contains_char_app, (digits_no_slash _ (str_digits d)). reflexivity. }
    by rewrite !contains_char_app, Ht, basename_no_slash. }
  split; [done|]. split.
  - intros _. split; [done|]. unfold DownloadAllEpstein.output_path.
    change DownloadAllEpstein.epstein_dir with "reference/epstein_files".
    rewrite join_plain; [|discriminate|reflexivity|done].
    reflexivity.
  - intros page pdfs disk _ st. apply Forall_app.
    unfold st, DownloadAllEpstein.download_all_pdfs. rewrite epstein_shape.
    apply steps_names; by constructor.
Qed.

Lemma epstein_filename_shape_witness :
  DownloadAllEpstein.output_path Sample.efta1
  = "reference/epstein_files/" ++ DownloadAllEpstein.dataset Sample.efta1 ++ "_"
    ++ Url.basename (Url.path (Url.urlparse Sample.efta1)).
Proof. apply (proj1 (proj2 (epstein_filename_shape Sample.efta1))). reflexivity. Defined.

(** * Further properties of the crawlers *)

Lemma take_length n s : (String.length (Py.take n s) ≤ n)%nat.
Proof.
  unfold Py.take. revert s. induction n as [|n IH]; intros s.
  - by destruct s.
  - destruct s as [|c s]; simpl; [lia|]. specialize (IH s). lia.
Qed.

Section SpiderLinks.

Variable E : tools.

Lemma classify_ok html base href v :
  SpiderTool.classify E html base href = Some v →
  match v with
  | SpiderTool.Dropped => True
  | SpiderTool.Pdf l => spider_link_ok true l
  | SpiderTool.Nav l => spider_link_ok false l
  end.
Proof.
  unfold SpiderTool.classify.
  destruct (String.eqb _ "" || _ || _); [by intros [= <-]|].
  destruct (Py.endswith "justice.gov" _) eqn:Hsite; simpl; [|by intros [= <-]].
  destruct (htmlq_text E html _) as [rc out|]; [|discriminate].
  intros [= <-].
  assert (Ht : (String.length
                  (if (rc =? 0)%Z then Py.take 100 (Py.strip out) else "") ≤ 100)%nat).
  { destruct (rc =? 0)%Z; [apply take_length | simpl; lia]. }
  destruct (Py.endswith ".pdf" _) eqn:Hpdf; repeat split; done.
Qed.

Lemma classify_regex_ok base url :
  match SpiderTool.classify_regex E base url with
  | SpiderTool.Dropped => True
  | SpiderTool.Pdf l => spider_link_ok true l
  | SpiderTool.Nav l => spider_link_ok false l
  end.
Proof.
  unfold SpiderTool.classify_regex.
  destruct (_ || _); [done|].
  destruct (Py.endswith "justice.gov" _) eqn:Hsite; simpl; [|done].
  destruct (Py.endswith ".pdf" _) eqn:Hpdf; repeat split; simpl; try done; lia.
Qed.

Lemma keep_ok v acc :
  match v with
  | SpiderTool.Dropped => True
  | SpiderTool.Pdf l => spider_link_ok true l
  | SpiderTool.Nav l => spider_link_ok false l
  end →
  links_ok acc → links_ok (SpiderTool.keep v acc).
Proof.
  intros Hv [Hp Hn]. destruct v; simpl; [done| |]; split; simpl; try done;
    apply Forall_app; split; try done; by constructor.
Qed.

Lemma regex_loop_ok base ms seen acc :
  links_ok acc → links_ok (SpiderTool.regex_loop E base ms seen acc).
Proof.
  revert seen acc. induction ms as [|m ms IH]; intros seen acc Hacc; simpl; [done|].
  destruct (String.eqb _ "" || _); [by apply IH|].
  apply IH, keep_ok; [apply classify_regex_ok | done].
Qed.

Lemma htmlq_loop_ok html base urls acc found :
  links_ok acc →
  SpiderTool.htmlq_loop E html base urls acc = Some found → links_ok found.
Proof.
  revert acc. induction urls as [|u urls IH]; intros acc Hacc; simpl.
  - by intros [= <-].
  - destruct (SpiderTool.classify E html base u) as [v|] eqn:Hc; [|discriminate].
    apply IH, keep_ok; [by eapply classify_ok | done].
Qed.

Lemma extract_links_ok html base :
  links_ok (SpiderTool.extract_links_htmlq E html base).
Proof.
  assert (Hre : links_ok (SpiderTool.extract_links_regex E html base)).
  { apply regex_loop_ok. split; constructor. }
  unfold SpiderTool.extract_links_htmlq.
  destruct (htmlq_hrefs E html) as [rc out|]; [|done].
  destruct (negb (rc =? 0)%Z); [done|].
  destruct (SpiderTool.htmlq_loop _ _ _ _ _) as [found|] eqn:Hl; [|done].
  eapply htmlq_loop_ok; [|exact Hl]. split; constructor.
Qed.

End SpiderLinks.

(** X9.  Whatever htmlq, the regular expression and [urljoin] return,
    the two lists of [SpiderTool.extract_links_htmlq] are clean, on the
    htmlq path and on the regex fallback alike: every link is on a host
    ending in [justice.gov], which is the host of its URL; every link of
    the first list ends in [.pdf] (case ignored) and none of the second
    does; and no link text is longer than 100 characters. *)
Theorem spider_extraction_clean E html base :
  Forall (spider_link_ok true) (SpiderTool.extract_links_htmlq E html base).1
  ∧ Forall (spider_link_ok false) (SpiderTool.extract_links_htmlq E html base).2.
Proof. apply extract_links_ok. Qed.

Section SpiderRecords.

Variable E : tools.

Lemma spider_store_ok url d pdfs known :
  Forall (spider_link_ok true) pdfs → Forall spider_pdf_ok known →
  Forall spider_pdf_ok (fold_left (SpiderTool.store_pdf url d) pdfs known).
Proof.
  revert known. induction pdfs as [|pdf pdfs IH]; intros known Hp Hk; simpl; [done|].
  apply Forall_cons in Hp as [Hpdf Hp]. apply IH; [done|].
  unfold SpiderTool.store_pdf. case_bool_decide; [done|].
  apply Forall_app. split; [done|]. constructor; [|constructor].
  destruct Hpdf as (H1 & H2 & H3 & H4). by repeat split.
Qed.

Lemma spider_page_mono st st' p :
  SpiderTool.visited st ⊆ SpiderTool.visited st' →
  SpiderTool.max_depth st' = SpiderTool.max_depth st →
  spider_page_ok st p → spider_page_ok st' p.
Proof.
  intros Hv Hm (H1 & H2 & H3 & H4 & H5). repeat split; try done.
  - by apply Hv.
  - by rewrite Hm.
Qed.

Lemma crawl_page_clean url d st :
  spider_clean st → spider_clean (SpiderTool.crawl_page E url d st).1.
Proof.
  intros (Hp & Hl & Hn). unfold SpiderTool.crawl_page.
  destruct (SpiderTool.max_depth st <? d)%Z eqn:Hd; simpl; [done|].
  case_bool_decide as Hv; simpl; [done|]. apply Z.ltb_ge in Hd.
  set (st1 := {| SpiderTool.start_url := SpiderTool.start_url st;
                 SpiderTool.max_depth := SpiderTool.max_depth st;
                 SpiderTool.visited := {[url]} ∪ SpiderTool.visited st;
                 SpiderTool.discovered_pdfs := SpiderTool.discovered_pdfs st;
                 SpiderTool.crawl_log := SpiderTool.crawl_log st;
                 SpiderTool.fetched := (SpiderTool.fetched st ++ [(url, d)])%list |}).
  assert (Hst1 : spider_clean st1).
  { repeat split; simpl; [done | | rewrite length_app; simpl; lia].
    eapply Forall_impl; [exact Hl|]. intros p.
    apply spider_page_mono; [set_solver | done]. }
  destruct (fetch_page E url) as [html|]; [|done].
  destruct (String.eqb html ""); [done|].
  destruct (challenge html); [done|].
  pose proof (extract_links_ok E html url) as [Hpdfs Hnav].
  destruct (SpiderTool.extract_links_htmlq E html url) as [pdfs nav]; simpl in *.
  repeat split; simpl.
  - by apply spider_store_ok.
  - apply Forall_app. split.
    + eapply Forall_impl; [exact Hl|]. intros p.
      apply spider_page_mono; [set_solver | done].
    + constructor; [|constructor]. repeat split; simpl; try done.
      * set_solver.
      * apply take_length.
  - rewrite !length_app. simpl. lia.
Qed.

Lemma spider_session_clean calls st :
  spider_clean st → spider_clean (SpiderTool.session E calls st).
Proof.
  revert st. induction calls as [|[u d] calls IH]; intros st Hst; simpl; [done|].
  apply IH. by apply crawl_page_clean.
Qed.

End SpiderRecords.

(** X10.  In any session of a [SpiderTool], every recorded PDF is on a
    host ending in [justice.gov] and its URL ends in [.pdf]; every page of
    the crawl log was visited within the depth limit, keeps at most 2000
    characters of text and lists only clean links; and the log never has
    more pages than the fetcher was called. *)
Theorem spider_records_clean E start limit calls :
  spider_clean (SpiderTool.session E calls (SpiderTool.init start limit)).
Proof.
  apply spider_session_clean. repeat split; simpl; try constructor.
Qed.

Section DiscoveryRecords.

Variable E : tools.

Lemma make_link_ok u t :
  (String.length t ≤ 100)%nat → discovery_link_ok (DiscoveryTool.make_link u t).
Proof. intros Ht. by repeat split. Qed.

Lemma discovery_htmlq_loop_ok html base urls links :
  Forall discovery_link_ok links →
  Forall discovery_link_ok (DiscoveryTool.htmlq_loop E html base urls links).
Proof.
  revert links. induction urls as [|u urls IH]; intros links Hl; simpl; [done|].
  destruct (DiscoveryTool.wanted _); [|by apply IH].
  destruct (htmlq_text E html _) as [rc out|]; [|done].
  apply IH, Forall_app. split; [done|]. constructor; [|constructor].
  apply make_link_ok, take_length.
Qed.

Lemma discovery_grep_loop_ok base ms links :
  Forall discovery_link_ok links →
  Forall discovery_link_ok (DiscoveryTool.grep_loop E base ms links).
Proof.
  revert links. induction ms as [|m ms IH]; intros links Hl; simpl; [done|].
  destruct (DiscoveryTool.wanted _); [|by apply IH].
  apply IH, Forall_app. split; [done|]. constructor; [|constructor].
  apply make_link_ok. simpl. lia.
Qed.

Lemma links_of_ok html page : Forall discovery_link_ok (DiscoveryCli.links_of E html page).
Proof.
  unfold DiscoveryCli.links_of.
  assert (H1 : Forall discovery_link_ok (DiscoveryTool.extract_links_with_htmlq E html page)).
  { unfold DiscoveryTool.extract_links_with_htmlq.
    destruct (htmlq_hrefs E html) as [rc out|]; [|constructor].
    destruct (rc =? 0)%Z; [|constructor].
    apply discovery_htmlq_loop_ok. constructor. }
  destruct (DiscoveryTool.extract_links_with_htmlq E html page); [|done].
  apply discovery_grep_loop_ok. constructor.
Qed.

(** The three lists of [discover_from_page] split the links. *)
Lemma three_way (links : list DiscoveryTool.link) :
  length (filter (λ l, DiscoveryTool.k_is_pdf l = true) links)
  + length (filter (λ l, DiscoveryTool.k_is_pdf l = false
                         ∧ DiscoveryTool.on_site l = true) links)
  + length (filter (λ l, DiscoveryTool.k_is_pdf l = false
                         ∧ DiscoveryTool.on_site l = false) links)
  = length links.
Proof.
  induction links as [|x links IH]; [done|].
  rewrite !filter_cons.
  destruct (DiscoveryTool.k_is_pdf x) eqn:Hp, (DiscoveryTool.on_site x) eqn:Hs;
    repeat case_decide; simpl; try lia; naive_solver.
Qed.

Lemma store_links_length html page d nav known :
  (length (fold_left (DiscoveryTool.store_link E html page d) nav known)
   ≤ length known + length nav)%nat.
Proof.
  revert known. induction nav as [|l nav IH]; intros known; simpl; [lia|].
  etrans; [apply IH|]. unfold DiscoveryTool.store_link.
  case_bool_decide; rewrite ?length_app; simpl; lia.
Qed.

Lemma store_pdfs_length page d pdfs known :
  length (fold_left (DiscoveryTool.store_pdf page d) pdfs known)
  = length known + length pdfs.
Proof.
  revert known. induction pdfs as [|l pdfs IH]; intros known; simpl; [lia|].
  rewrite IH. unfold DiscoveryTool.store_pdf. rewrite length_app. simpl. lia.
Qed.

End DiscoveryRecords.

(** X11.  What each result of [DiscoveryTool.discover_from_page] means.
    A skip changes nothing.  A failed fetch and a challenge page leave
    both lists as they were, with the page marked as visited; the sample
    of a challenge page has at most 500 characters.  On success the three
    counts add up to the number of links extracted, the three returned
    lists are cut to 10, 20 and 10 entries, the list of PDFs grows by
    exactly the PDF count (nothing is deduplicated) and the list of
    navigation links by at most the navigation count. *)
Theorem discover_outcome E page d st :
  match DiscoveryTool.discover_from_page E page d st with
  | (st', DiscoveryTool.Skipped p) =>
      p = page ∧ st' = st
      ∧ ((DiscoveryTool.max_depth st < d)%Z ∨ page ∈ DiscoveryTool.visited st)
  | (st', DiscoveryTool.Error p) =>
      p = page ∧ page ∈ DiscoveryTool.visited st'
      ∧ DiscoveryTool.discovered_pdfs st' = DiscoveryTool.discovered_pdfs st
      ∧ DiscoveryTool.discovered_links st' = DiscoveryTool.discovered_links st
      ∧ (fetch_page E page = None ∨ fetch_page E page = Some "")
  | (st', DiscoveryTool.Blocked p sample) =>
      p = page ∧ page ∈ DiscoveryTool.visited st'
      ∧ DiscoveryTool.discovered_pdfs st' = DiscoveryTool.discovered_pdfs st
      ∧ DiscoveryTool.discovered_links st' = DiscoveryTool.discovered_links st
      ∧ (String.length sample ≤ 500)%nat
      ∧ ∃ html, fetch_page E page = Some html ∧ challenge html = true
  | (st', DiscoveryTool.Success p d' _ pdf_count nav_count external_count
                                pdfs nav external size) =>
      p = page ∧ d' = d ∧ page ∈ DiscoveryTool.visited st'
      ∧ (∃ html, fetch_page E page = Some html ∧ challenge html = false
                 ∧ size = String.length html
                 ∧ pdf_count + nav_count + external_count
                   = length (DiscoveryCli.links_of E html page))
      ∧ length pdfs = Nat.min 10 pdf_count
      ∧ length nav = Nat.min 20 nav_count
      ∧ length external = Nat.min 10 external_count
      ∧ length (DiscoveryTool.discovered_pdfs st')
        = length (DiscoveryTool.discovered_pdfs st) + pdf_count
      ∧ (length (DiscoveryTool.discovered_links st')
         ≤ length (DiscoveryTool.discovered_links st) + nav_count)%nat
  end.
Proof.
  unfold DiscoveryTool.discover_from_page.
  destruct (DiscoveryTool.max_depth st <? d)%Z eqn:Hd; simpl.
  { repeat split. left. by apply Z.ltb_lt. }
  case_bool_decide as Hv; simpl.
  { repeat split. by right. }
  destruct (fetch_page E page) as [html|] eqn:Hfetch; simpl.
  2: { repeat split; try done; [set_solver | by left]. }
  destruct (String.eqb html "") eqn:He; simpl.
  { apply String.eqb_eq in He as ->. repeat split; try done; [set_solver | by right]. }
  destruct (challenge html) eqn:Hc; simpl.
  { repeat split; try done; [set_solver | apply take_length | by exists html]. }
  fold (DiscoveryCli.links_of E html page).
  repeat split; try done.
  - set_solver.
  - exists html. repeat split; try done. apply three_way.
  - by rewrite length_take.
  - by rewrite length_map, length_take.
  - by rewrite length_map, length_take.
  - apply store_pdfs_length.
  - apply store_links_length.
Qed.

Section DiscoveryClean.

Variable E : tools.

Lemma discover_clean page d st :
  discovery_clean st → discovery_clean (DiscoveryTool.discover_from_page E page d st).1.
Proof.
  intros [Hp Hl]. unfold DiscoveryTool.discover_from_page.
  destruct (_ || _); simpl; [done|].
  destruct (fetch_page E page) as [html|]; simpl; [|done].
  destruct (String.eqb html ""); simpl; [done|].
  destruct (challenge html); simpl; [done|].
  fold (DiscoveryCli.links_of E html page).
  pose proof (links_of_ok E html page) as Hlinks.
  split; simpl.
  - assert (Hpdfs : Forall (λ l, discovery_link_ok l ∧ DiscoveryTool.k_is_pdf l = true)
                      (filter (λ l, DiscoveryTool.k_is_pdf l = true)
                         (DiscoveryCli.links_of E html page))).
    { apply Forall_forall. intros l [Hk Hin]%list_elem_of_filter. split; [|done].
      by eapply Forall_forall in Hlinks. }
    revert Hp Hpdfs. generalize (DiscoveryTool.discovered_pdfs st).
    induction (filter _ _) as [|x xs IH]; intros known Hk Hx; simpl; [done|].
    apply Forall_cons in Hx as [[(H1 & H2 & H3) Hpdf] Hxs].
    apply IH; [|done]. unfold DiscoveryTool.store_pdf.
    apply Forall_app. split; [done|]. constructor; [|constructor]. simpl.
    repeat split; [by rewrite <- H1 | done | done].
  - assert (Hnav : Forall (λ l, discovery_link_ok l ∧ DiscoveryTool.k_is_pdf l = false
                                ∧ DiscoveryTool.on_site l = true)
                     (filter (λ l, DiscoveryTool.k_is_pdf l = false
                                   ∧ DiscoveryTool.on_site l = true)
                        (DiscoveryCli.links_of E html page))).
    { apply Forall_forall. intros l [[Hk Hs] Hin]%list_elem_of_filter.
      split; [|done]. by eapply Forall_forall in Hlinks. }
    revert Hl Hnav. generalize (DiscoveryTool.discovered_links st).
    induction (filter _ _) as [|x xs IH]; intros known Hk Hx; simpl; [done|].
    apply Forall_cons in Hx as [[(H1 & H2 & H3) [Hpdf Hsite]] Hxs].
    apply IH; [|done]. unfold DiscoveryTool.store_link.
    case_bool_decide; [done|].
    apply Forall_app. split; [done|]. constructor; [|constructor]. simpl.
    unfold DiscoveryTool.on_site in Hsite. rewrite H2 in Hsite.
    repeat split; [by rewrite <- H1 | done | done | apply take_length].
Qed.

Lemma discovery_session_clean calls st :
  discovery_clean st → discovery_clean (DiscoveryTool.session E calls st).
Proof.
  revert st. induction calls as [|[u d] calls IH]; intros st Hst; simpl; [done|].
  apply IH. by apply discover_clean.
Qed.

End DiscoveryClean.

(** X12.  In any session of a [DiscoveryTool], every recorded PDF has a
    URL ending in [.pdf] (case ignored), on whatever host; every recorded
    navigation link is a page of the site (its host ends in
    [justice.gov]) that is no PDF, with at most 100 characters of text and
    200 of context; and the navigation links are pairwise distinct. *)
Theorem discovery_records_clean E base limit calls :
  let st := DiscoveryTool.session E calls (DiscoveryTool.init base limit) in
  discovery_clean st ∧ NoDup (map DiscoveryTool.url (DiscoveryTool.discovered_links st)).
Proof.
  intros st. split.
  - apply discovery_session_clean. split; constructor.
  - by destruct (discovery_session_ok E calls _ (discovery_init_ok base limit))
      as (_ & _ & _ & _ & _ & Hu).
Qed.

(** ** The interactive session of the spider *)

Section SpiderCliFacts.

Variable E : tools.

Lemma spider_session_later calls st :
  ∃ later, SpiderTool.fetched (SpiderTool.session E calls st)
           = (SpiderTool.fetched st ++ later)%list
           ∧ Forall (λ c, c ∈ calls) later
           ∧ (length later ≤ length calls)%nat.
Proof.
  unfold SpiderTool.session.
  revert st. induction calls as [|[u d] calls IH]; intros st; simpl.
  - exists []. rewrite app_nil_r. repeat split; [constructor | done].
  - destruct (IH (SpiderTool.crawl_page E u d st).1) as (later & -> & Hin & Hlen).
    destruct (crawl_page_cases E u d st) as [[Heq _]|(_ & _ & _ & _ & Hf & _)].
    + rewrite Heq. exists later. repeat split; [|simpl; lia].
      eapply Forall_impl; [exact Hin|]. intros c Hc. by right.
    + rewrite Hf, <- app_assoc. exists ((u, d) :: later). repeat split; [|simpl; lia].
      constructor; [by left|].
      eapply Forall_impl; [exact Hin|]. intros c Hc. by right.
Qed.

Lemma pick_bound nav l :
  Forall (λ x, x ∈ nav) (SpiderCli.pick nav l)
  ∧ (length (SpiderCli.pick nav l) ≤ length l)%nat.
Proof.
  induction l as [|i l [IH1 IH2]]; simpl; [split; [constructor | done]|].
  destruct (_ && _); [|split; [done | lia]].
  destruct (nav !! Z.to_nat i) as [x|] eqn:Hx; [|split; [done | lia]].
  split; [|simpl; lia]. constructor; [|done]. by eapply list_elem_of_lookup_2.
Qed.

Lemma indices_length parts l :
  SpiderCli.indices parts = Some l → length l = length parts.
Proof.
  revert l. induction parts as [|x parts IH]; intros l; simpl.
  - by intros [= <-].
  - destruct (SpiderCli.parse_int _); [|discriminate].
    destruct (SpiderCli.indices parts) as [l'|]; [|discriminate].
    intros [= <-]. simpl. f_equal. by apply IH.
Qed.

Lemma selected_bound nav choice links :
  SpiderCli.selected nav choice = Some links →
  Forall (λ x, x ∈ nav) links
  ∧ (length links ≤ if String.eqb choice "all" then 5
                    else length (Py.split "," choice))%nat.
Proof.
  unfold SpiderCli.selected. destruct (String.eqb choice "all").
  - intros [= <-]. split.
    + apply Forall_forall. intros x Hx. by eapply (subseteq_take 5 nav).
    + rewrite length_take. lia.
  - destruct (SpiderCli.indices _) as [l|] eqn:Hl; [|discriminate].
    intros [= <-]. destruct (pick_bound nav l) as [H1 H2]. split; [done|].
    by rewrite <- (indices_length _ _ Hl).
Qed.

(** A call that returns a page fetched it, and the page lists clean links. *)
Lemma crawl_page_some url d st st' page :
  SpiderTool.crawl_page E url d st = (st', Some page) →
  SpiderTool.fetched st' = (SpiderTool.fetched st ++ [(url, d)])%list
  ∧ Forall (spider_link_ok false) (SpiderTool.nav_links page).
Proof.
  unfold SpiderTool.crawl_page.
  destruct (_ || _); [discriminate|].
  destruct (fetch_page E url) as [html|]; [|discriminate].
  destruct (String.eqb html ""); [discriminate|].
  destruct (challenge html); [discriminate|].
  pose proof (extract_links_ok E html url) as [_ Hnav].
  destruct (SpiderTool.extract_links_htmlq E html url) as [pdfs nav].
  intros [= <- <-]. by split.
Qed.

End SpiderCliFacts.

(** X13.  An interactive session of the spider stays small and on the
    site.  It fetches the start page at depth 0 and then only pages at
    depth 1 that the start page links to, all on hosts ending in
    [justice.gov]: at most five of them when the answer is [all], at most
    one per comma-separated item otherwise, and none when the session
    ends without saving. *)
Theorem interactive_crawl_bounded E answer start limit :
  let choice := Py.lower (Py.strip answer) in
  let result := SpiderCli.interactive_crawl E answer (SpiderTool.init start limit) in
  SpiderTool.fetched result.1 = []
  ∨ ∃ later,
      SpiderTool.fetched result.1 = (start, 0%Z) :: later
      ∧ Forall (λ c, c.2 = 1%Z
                     ∧ Py.endswith "justice.gov" (Url.netloc (Url.urlparse c.1)) = true
                     ∧ Py.endswith ".pdf" (Py.lower c.1) = false) later
      ∧ (length later ≤ if String.eqb choice "all" then 5
                        else length (Py.split "," choice))%nat
      ∧ (result.2 = false → later = []).
Proof.
  intros choice result. unfold result, SpiderCli.interactive_crawl. simpl SpiderTool.start_url.
  destruct (SpiderTool.crawl_page E start 0 (SpiderTool.init start limit))
    as [st1 [page|]] eqn:Hfirst.
  2: { destruct (crawl_page_cases E start 0 (SpiderTool.init start limit))
         as [[Heq _]|(_ & _ & _ & _ & Hf & _)]; rewrite Hfirst in *; simpl in *.
       - left. by injection Heq as ->.
       - right. exists []. rewrite Hf.
         split; [done|]. split; [constructor|]. split; [simpl; lia | done]. }
  right. apply crawl_page_some in Hfirst as [Hf Hnav]. simpl in Hf.
  destruct (SpiderTool.discovered_pdfs st1).
  2: { exists []. simpl. rewrite Hf.
    split; [done|]. split; [constructor|]. split; [simpl; lia | done]. }
  destruct (SpiderTool.nav_links page) as [|n nav] eqn:Hn.
  { exists []. simpl. rewrite Hf.
    split; [done|]. split; [constructor|]. split; [simpl; lia | done]. }
  fold choice. destruct (String.eqb choice "stop") eqn:Hstop.
  { exists []. simpl. rewrite Hf.
    split; [done|]. split; [constructor|]. split; [simpl; lia | done]. }
  destruct (SpiderCli.selected (n :: nav) choice) as [links|] eqn:Hsel.
  2: { exists []. simpl. rewrite Hf.
    split; [done|]. split; [constructor|]. split; [simpl; lia | done]. }
  destruct (selected_bound _ _ _ Hsel) as [Hin Hlen].
  destruct (spider_session_later E (map (λ l, (SpiderTool.l_url l, 1%Z)) links) st1)
    as (later & Heq & Hcalls & Hlater).
  exists later. simpl. rewrite Heq, Hf. repeat split; [| |done].
  - apply Forall_forall. intros c Hc.
    eapply Forall_forall in Hcalls; [|exact Hc].
    apply list_elem_of_fmap in Hcalls as (l & -> & Hl). simpl.
    eapply Forall_forall in Hin; [|exact Hl].
    eapply Forall_forall in Hnav; [|exact Hin].
    destruct Hnav as (H1 & H2 & H3 & _). rewrite <- H2. by repeat split.
  - rewrite length_map in Hlater. lia.
Qed.

(** * Further properties of the state files *)

Lemma load_dumped path value read :
  State.load (dumped path value read) path = State.Returned value.
Proof. unfold State.load, dumped. by rewrite String.eqb_refl. Qed.

Lemma dumped_other path value read p :
  p ≠ path → dumped path value read p = read p.
Proof. intros Hp. unfold dumped. by apply String.eqb_neq in Hp as ->. Qed.

(** X16.  The spider's state never reaches a downloader.  Whatever an
    interactive session of [spider_agent.py] finds and saves, the file
    [load_discovery_state] reads, the file [discover_all_datasets] reads
    and the manifest of [--skip-discovery] are as they were before the
    session, so each of the three loads what it loaded before. *)
Theorem spider_state_not_downloaded E answer start read :
  let after := spider_main E answer start read in
  State.load_discovery_state after "reference/discovery_state.json"
  = State.load_discovery_state read "reference/discovery_state.json"
  ∧ Datasets.found (after "reference/discovery_state.json")
    = Datasets.found (read "reference/discovery_state.json")
  ∧ State.skip_discovery_pdfs after = State.skip_discovery_pdfs read
  ∧ (∀ p, p ≠ "reference/spider_state.json" → after p = read p).
Proof.
  intros after.
  assert (Hother : ∀ p, p ≠ "reference/spider_state.json" → after p = read p).
  { intros p Hp. unfold after, spider_main.
    destruct (SpiderCli.interactive_crawl _ _ _) as [st [|]]; [|done].
    by apply dumped_other. }
  unfold State.load_discovery_state, State.skip_discovery_pdfs, State.load.
  by rewrite !Hother.
Qed.

(** X17.  Which state the agent reads.  [get_state] returns the decoded
    [spider_state.json] whenever that file decodes, whatever
    [discovery_state.json] holds; it looks at [discovery_state.json] only
    when [spider_state.json] is missing; it returns the [no_state]
    dictionary only when both are missing (or a file holds it).  Only a
    missing file makes it fall back: a file that is not JSON raises
    [JSONDecodeError], and any other exception of [open] or [json.load]
    (bytes that are no text, a directory at the path, no permission)
    leaves [get_state] as it was raised, also when the other file is
    fine. *)
Theorem agent_state_choice read project_dir :
  let spider := read (Url.join project_dir "reference/spider_state.json") in
  let discovery := read (Url.join project_dir "reference/discovery_state.json") in
  let got := EpsteinAgent.get_state read project_dir in
  (∀ value, got = State.Returned value
            ↔ spider = State.Decoded value
              ∨ (spider = State.NoFile
                 ∧ (discovery = State.Decoded value
                    ∨ (discovery = State.NoFile ∧ value = EpsteinAgent.no_state))))
  ∧ (got = State.Raised State.JSONDecodeError
     ↔ spider = State.NotJson ∨ (spider = State.NoFile ∧ discovery = State.NotJson))
  ∧ (∀ exception, got = State.Raised (State.OtherError exception)
                  ↔ spider = State.Unreadable exception
                    ∨ (spider = State.NoFile ∧ discovery = State.Unreadable exception))
  ∧ got ≠ State.Raised State.FileNotFoundError
  ∧ got ≠ State.Raised State.AttributeError
  ∧ got ≠ State.Raised State.TypeError.
Proof.
  intros spider discovery got.
  unfold got, EpsteinAgent.get_state, State.load. fold spider discovery.
  destruct spider, discovery; repeat split; intros;
    first [ discriminate | intuition congruence ].
Qed.

Section DatasetFacts.

Variable spawn : nat -> option string.
Variable state_after : nat -> State.loaded.

(** The first child that cannot be started ends the loop. *)
Lemma discover_from_cases sets all_pdfs :
  match Datasets.discover_from spawn state_after sets all_pdfs with
  | Returns pdfs =>
      Forall (λ i, spawn i = None) sets
      ∧ pdfs = (all_pdfs ++ concat (map (λ i, Datasets.found (state_after i)) sets))%list
  | Uncaught exception =>
      ∃ before i after,
        sets = (before ++ i :: after)%list
        ∧ Forall (λ j, spawn j = None) before ∧ spawn i = Some exception
  end.
Proof.
  revert all_pdfs. induction sets as [|i sets IH]; intros all_pdfs; simpl.
  - split; [constructor|]. by rewrite app_nil_r.
  - destruct (spawn i) as [e|] eqn:Hi.
    { exists [], i, sets. by repeat split. }
    specialize (IH (all_pdfs ++ Datasets.found (state_after i))%list).
    destruct (Datasets.discover_from _ _ _ _).
    + destruct IH as [Hall ->]. split; [by constructor|]. by rewrite app_assoc.
    + destruct IH as (before & j & after & -> & Hb & Hj).
      exists (i :: before), j, after. repeat split; [|done]. by constructor.
Qed.

End DatasetFacts.

(** X18.  [discover_all_datasets] and the manifest it writes.  It
    returns exactly when all nine child processes could be started and
    the manifest could be written.  The list is then what the
    state file held after each child, for data sets 1 to 9 in order and
    without removing duplicates; a data set whose state file is missing,
    unreadable, not JSON or without a usable [pdfs] adds nothing and
    stops nothing.  The manifest's [total_pdfs] is the length of that
    list, and [--skip-discovery] reads the same list back from the
    manifest.  Otherwise the function ends in the exception of the first
    child that could not be started or, after all nine, in that of the
    manifest. *)
Theorem discover_all_datasets_manifest spawn state_after write_error read :
  match Datasets.discover_all_datasets spawn state_after write_error read with
  | Returns (pdfs, after) =>
      Forall (λ i, spawn i = None) (seq 1 9)
      ∧ write_error = None
      ∧ pdfs = concat (map (λ i, Datasets.found (state_after i)) (seq 1 9))
      ∧ State.load after "reference/epstein_manifest.json"
        = State.Returned (Datasets.manifest pdfs)
      ∧ State.get_or_empty "total_pdfs" (Datasets.manifest pdfs)
        = State.Returned (State.JNumber (Z.of_nat (length pdfs)))
      ∧ State.skip_discovery_pdfs after = State.Returned (Some (State.JArray pdfs))
  | Uncaught exception =>
      (∃ before i after,
         seq 1 9 = (before ++ i :: after)%list
         ∧ Forall (λ j, spawn j = None) before ∧ spawn i = Some exception)
      ∨ (Forall (λ i, spawn i = None) (seq 1 9) ∧ write_error = Some exception)
  end.
Proof.
  unfold Datasets.discover_all_datasets.
  pose proof (discover_from_cases spawn state_after (seq 1 9) []) as H.
  destruct (Datasets.discover_from spawn state_after (seq 1 9) []) as [pdfs|e].
  - destruct H as [Hall ->]. destruct write_error as [e|].
    + by right.
    + split; [done|]. split; [done|]. split; [done|].
      split; [apply load_dumped|]. split; [done|].
      unfold State.skip_discovery_pdfs. by rewrite load_dumped.
  - by left.
Qed.
